(** * agent-mux: a verification model of the orchestrator, registry and tmux adapter

    The development embeds three source files of the repository:
    - [index.mjs]        (class [AgentMux], the orchestrator),
    - [registry.mjs]     (class [AgentRegistry], the persistent registry),
    - [tmux-backend.mjs] (class [TmuxBackend], the adapter around the [tmux] binary).

    JavaScript values are a small inductive type, exceptions are an error
    type, and every method is a function in a state-and-exception monad over
    a [world] that holds the file system, the clock and the state of the tmux
    server.  The tmux server itself is not part of the repository: it is a
    parameter (class [Spawn]), and [MiniTmux] is one small instance of it used
    to run the model on concrete inputs.

    The three modules keep one instance each per process ([getAgentMux],
    [getAgentRegistry], [getTmuxBackend]); here the instance is an argument of
    every method. *)

From Stdlib Require Import ZArith Ascii String List Bool Lia DecimalString.
From Stdlib Require DecimalPos.
From stdpp Require Import base option list strings gmap.

Local Open Scope Z_scope.

(* ===================================================================== *)
(** ** JavaScript strings

    A [string] is a sequence of UTF-16 code units; this development carries
    the code units below 256 (one [ascii] each). *)
(* ===================================================================== *)

Module Js.

Definition code (c : ascii) : nat := nat_of_ascii c.

Definition in_range (lo hi : nat) (c : ascii) : bool :=
  (Nat.leb lo (code c)) && (Nat.leb (code c) hi).

(** [WhiteSpace] and [LineTerminator] of ECMAScript, below code unit 256:
    TAB, LF, VT, FF, CR, SPACE and NBSP.  This is what [String.prototype.trim]
    removes. *)
Definition is_ws (c : ascii) : bool :=
  in_range 9 13 c || Nat.eqb (code c) 32 || Nat.eqb (code c) 160.

Fixpoint trimStart (s : string) : string :=
  match s with
  | EmptyString => EmptyString
  | String c r => if is_ws c then trimStart r else s
  end.

(** [trimEnd]: a trailing run of white space is dropped. *)
Fixpoint trimEnd (s : string) : string :=
  match s with
  | EmptyString => EmptyString
  | String c r =>
      match trimEnd r with
      | EmptyString => if is_ws c then EmptyString else String c EmptyString
      | r' => String c r'
      end
  end.

Definition trim (s : string) : string := trimEnd (trimStart s).

(** [s.split(sep)] for a one-character separator: never the empty list. *)
Fixpoint split (sep : ascii) (s : string) : list string :=
  match s with
  | EmptyString => [EmptyString]
  | String c r =>
      if Ascii.eqb c sep then EmptyString :: split sep r
      else match split sep r with
           | [] => [String c EmptyString]
           | h :: t => String c h :: t
           end
  end.

(** [l.join(sep)] on an array of strings. *)
Fixpoint join (sep : string) (l : list string) : string :=
  match l with
  | [] => EmptyString
  | [x] => x
  | x :: r => x +:+ sep +:+ join sep r
  end.

Definition LF : ascii := ascii_of_nat 10.
Definition nl : string := String LF EmptyString.

(** [s.endsWith(t)] *)
Definition endsWith (s t : string) : bool :=
  let n := String.length s in
  let m := String.length t in
  Nat.leb m n && String.eqb (String.substring (n - m) m s) t.

Definition startsWith (s t : string) : bool := String.prefix t s.

(** Decimal rendering of an integer, as [String(n)] gives it. *)
Definition show_Z (z : Z) : string := NilZero.string_of_int (Z.to_int z).
Definition show_nat (n : nat) : string := show_Z (Z.of_nat n).

Definition is_digit (c : ascii) : bool := in_range 48 57 c.
Definition digit_val (c : ascii) : Z := Z.of_nat (code c) - 48.

Fixpoint digits_prefix (s : string) (acc : Z) (seen : bool) : option Z :=
  match s with
  | String c r =>
      if is_digit c then digits_prefix r (10 * acc + digit_val c) true
      else if seen then Some acc else None
  | EmptyString => if seen then Some acc else None
  end.

(** [Number.parseInt(s, 10)]: leading white space, an optional sign, then the
    longest run of digits; [None] is [NaN]. *)
Definition parseInt10 (s : string) : option Z :=
  match trimStart s with
  | String "-" r => Z.opp <$> digits_prefix r 0 false
  | String "+" r => digits_prefix r 0 false
  | t => digits_prefix t 0 false
  end.

(** [arr.slice(start)], [start] an integer. *)
Definition slice_from {A} (start : Z) (l : list A) : list A :=
  let len := Z.of_nat (length l) in
  let k := if start <? 0 then Z.max (len + start) 0 else Z.min start len in
  drop (Z.to_nat k) l.

End Js.

(* ===================================================================== *)
(** ** JavaScript values

    The values the three files pass around: [undefined], [null], booleans,
    integers (the numbers the code computes with are line counts and window
    indices), [NaN] (what [parseInt] gives on a non-number), strings, arrays
    and plain objects.  An object is its list of own properties in insertion
    order (property names that are array indices, which JavaScript lists
    first, occur in nothing this code writes). *)
(* ===================================================================== *)

#[warnings="-register-all"]
Inductive jsval : Type :=
| JUndefined
| JNull
| JBool (b : bool)
| JNum (z : Z)
| JNaN
| JStr (s : string)
| JArr (l : list jsval)
| JObj (kv : list (string * jsval)).

Module Val.

(** [ToBoolean] *)
Definition truthy (v : jsval) : bool :=
  match v with
  | JUndefined | JNull | JNaN => false
  | JBool b => b
  | JNum z => negb (z =? 0)
  | JStr s => negb (String.eqb s EmptyString)
  | JArr _ | JObj _ => true
  end.

(** [a || b] *)
Definition or_else (a b : jsval) : jsval := if truthy a then a else b.

(** [String(v)] *)
Fixpoint String_ (v : jsval) : string :=
  match v with
  | JUndefined => "undefined"
  | JNull => "null"
  | JBool true => "true"
  | JBool false => "false"
  | JNum z => Js.show_Z z
  | JNaN => "NaN"
  | JStr s => s
  | JArr l =>
      Js.join ","
        (List.map (fun x => match x with
                            | JUndefined | JNull => EmptyString
                            | _ => String_ x
                            end) l)
  | JObj _ => "[object Object]"
  end.

Fixpoint lookup_prop (k : string) (kv : list (string * jsval)) : option jsval :=
  match kv with
  | [] => None
  | (k', v) :: r => if String.eqb k' k then Some v else lookup_prop k r
  end.

(** [o?.k]: own properties of plain objects; every other value has none of
    the property names this code reads. *)
Definition opt_get (o : jsval) (k : string) : jsval :=
  match o with
  | JObj kv => default JUndefined (lookup_prop k kv)
  | _ => JUndefined
  end.

(** [o.k] raises a [TypeError] on [undefined] and [null]. *)
Definition get (o : jsval) (k : string) : option jsval :=
  match o with
  | JUndefined | JNull => None
  | _ => Some (opt_get o k)
  end.

(** Assignment of one property: an existing key keeps its place, a new key
    goes last. *)
Fixpoint set_prop (k : string) (v : jsval) (kv : list (string * jsval))
  : list (string * jsval) :=
  match kv with
  | [] => [(k, v)]
  | (k', v') :: r =>
      if String.eqb k' k then (k, v) :: r else (k', v') :: set_prop k v r
  end.

Definition set_props (new kv : list (string * jsval)) : list (string * jsval) :=
  fold_left (fun acc p => set_prop (fst p) (snd p) acc) new kv.

Fixpoint indexed (i : nat) (l : list jsval) : list (string * jsval) :=
  match l with
  | [] => []
  | x :: r => (Js.show_nat i, x) :: indexed (S i) r
  end.

Fixpoint chars (s : string) : list jsval :=
  match s with
  | EmptyString => []
  | String c r => JStr (String c EmptyString) :: chars r
  end.

(** The own enumerable properties that [{...v}] copies. *)
Definition spread (v : jsval) : list (string * jsval) :=
  match v with
  | JObj kv => kv
  | JArr l => indexed 0 l
  | JStr s => indexed 0 (chars s)
  | _ => []
  end.

(** The object literal [{...a, ...b, k1: v1, ...}] : properties are assigned
    left to right. *)
Definition obj_lit (parts : list (list (string * jsval))) : jsval :=
  JObj (fold_left (fun acc p => set_props p acc) parts []).

(** [v === s] for a string [s]. *)
Definition strict_eq_str (v : jsval) (s : string) : bool :=
  match v with
  | JStr t => String.eqb t s
  | _ => false
  end.

(** [a === b] where both sides are primitive or freshly read values: two
    distinct objects are never identical. *)
Definition strict_eq (a b : jsval) : bool :=
  match a, b with
  | JUndefined, JUndefined | JNull, JNull => true
  | JBool x, JBool y => Bool.eqb x y
  | JNum x, JNum y => x =? y
  | JStr x, JStr y => String.eqb x y
  | _, _ => false
  end.

Definition is_undefined (v : jsval) : bool :=
  match v with JUndefined => true | _ => false end.

(** [JSON.parse(JSON.stringify(v))]: a property whose value is [undefined] is
    left out, [undefined] in an array and [NaN] become [null]. *)
Fixpoint json_roundtrip (v : jsval) : jsval :=
  match v with
  | JUndefined | JNaN => JNull
  | JArr l => JArr (List.map json_roundtrip l)
  | JObj kv =>
      JObj (List.flat_map
              (fun p => let '(k, x) := p in
                        if is_undefined x then [] else [(k, json_roundtrip x)])
              kv)
  | _ => v
  end.

Definition isArray (v : jsval) : bool :=
  match v with JArr _ => true | _ => false end.

(** [(v || [])] used as an array: [Some] of its elements, [None] when the
    value is truthy and has no array methods (a [TypeError]). *)
Definition as_array (v : jsval) : option (list jsval) :=
  match v with
  | JArr l => Some l
  | _ => if truthy v then None else Some []
  end.

End Val.

(* ===================================================================== *)
(** ** Exceptions, the world, and the monad of methods *)
(* ===================================================================== *)

(** The two messages of [assertSafeName]. *)
Inductive name_problem := NotNonEmptyString | GrammarMismatch.

(** One constructor per [throw] site (and per class of run-time exception
    the code can meet); the names follow the error taxonomy of the design. *)
Inductive error : Type :=
| InvalidName (kind : string) (why : name_problem) (got : jsval)
| NoCurrentProject
| AgentNotFound (agent : string) (project : jsval)
| SessionNotFound (project : jsval)
| UnsupportedAgentType (type : jsval)
| AgentAlreadyExists (agent : string) (project : jsval)
| BackendCommandError (message : string) (status : option Z)
| NoPaneFound (target : string)
| TypeError (what : string)
| FsError (op path : string).

Inductive outcome (A : Type) : Type :=
| Ok (a : A)
| Throw (e : error).
Arguments Ok {A} a.
Arguments Throw {A} e.

(** What [child_process.spawnSync] reports of one run of the tmux binary. *)
Record spawn_result := SpawnResult {
  sr_status : option Z;      (* exit status; [None] when there is none *)
  sr_stdout : string;
  sr_stderr : string;
  sr_error : option string;  (* message of [res.error], when spawning failed *)
}.

(** The tmux server, seen through [spawnSync(tmuxBinary, argv)]. *)
Class Spawn (T : Type) := spawnSync : string -> list string -> T -> spawn_result * T.

(** A file is JSON text (given by the value it denotes, i.e. the text is
    [JSON.stringify v]) or any other text. *)
Inductive file := FJson (v : jsval) | FText (s : string).

Record world (T : Type) := World {
  files : gmap string file;      (* regular files by path *)
  access_w : string -> bool;     (* fs.accessSync(dir, W_OK) succeeds *)
  fs_refuses : string -> bool;   (* mkdir/write/rename/unlink on the path fails *)
  clock : nat -> string;         (* the n-th reading of [new Date().toISOString()] *)
  tick : nat;
  process_cwd : string;
  os_tmpdir : string;
  tmux : T;
  trace : list (list string);    (* argv of every tmux run so far, oldest first *)
}.
Arguments World {T}.
Arguments files {T}.
Arguments access_w {T}.
Arguments fs_refuses {T}.
Arguments clock {T}.
Arguments tick {T}.
Arguments process_cwd {T}.
Arguments os_tmpdir {T}.
Arguments tmux {T}.
Arguments trace {T}.

Definition set_files {T} (f : gmap string file) (w : world T) : world T :=
  World f (access_w w) (fs_refuses w) (clock w) (tick w)
        (process_cwd w) (os_tmpdir w) (tmux w) (trace w).

Definition set_tick {T} (n : nat) (w : world T) : world T :=
  World (files w) (access_w w) (fs_refuses w) (clock w) n
        (process_cwd w) (os_tmpdir w) (tmux w) (trace w).

Definition set_tmux {T} (t : T) (tr : list (list string)) (w : world T) : world T :=
  World (files w) (access_w w) (fs_refuses w) (clock w) (tick w)
        (process_cwd w) (os_tmpdir w) t tr.

(** A method: it reads and changes the world, and returns or throws.  What
    was done before a [throw] stays done. *)
Definition M (T A : Type) : Type := world T -> outcome A * world T.

Definition ret {T A} (a : A) : M T A := fun w => (Ok a, w).

Definition throw {T A} (e : error) : M T A := fun w => (Throw e, w).

Definition bind {T A B} (m : M T A) (f : A -> M T B) : M T B :=
  fun w => match m w with
           | (Ok a, w') => f a w'
           | (Throw e, w') => (Throw e, w')
           end.

(** [try { m } catch { h }] *)
Definition try_catch {T A} (m : M T A) (h : M T A) : M T A :=
  fun w => match m w with
           | (Ok a, w') => (Ok a, w')
           | (Throw _, w') => h w'
           end.

Definition gets {T A} (f : world T -> A) : M T A := fun w => (Ok (f w), w).

Declare Scope js_scope.
Delimit Scope js_scope with js.
Notation "x <- m ;; k" := (bind m (fun x => k))
  (at level 100, m at next level, right associativity) : js_scope.
Notation "m ;; k" := (bind m (fun _ => k))
  (at level 100, right associativity) : js_scope.
Local Open Scope js_scope.

(** [opt ?? throw new TypeError(what)] *)
Definition or_type_error {T A} (what : string) (o : option A) : M T A :=
  match o with Some a => ret a | None => throw (TypeError what) end.

(* ===================================================================== *)
(** ** Node's [fs], [path] and [Date] as far as the code uses them

    Directories are implicit: a [mkdirSync(.., {recursive: true})] either is
    refused by the operating system or succeeds and leaves the regular files
    as they are.  [path.join] and [path.resolve] are taken on segments that
    are already normal. *)
(* ===================================================================== *)

Module Node.

Definition path_join (a b : string) : string := a +:+ "/" +:+ b.

Definition path_dirname (p : string) : string :=
  Js.join "/" (removelast (Js.split "/" p)).

Definition path_resolve {T} (p : string) : M T string :=
  cwd <- gets process_cwd ;;
  ret (if Js.startsWith p "/" then p else path_join cwd p).

(** [new Date().toISOString()] *)
Definition Date_now_iso {T} : M T string :=
  fun w => (Ok (clock w (tick w)), set_tick (S (tick w)) w).

Definition existsSync {T} (p : string) : M T bool :=
  gets (fun w => bool_decide (is_Some (files w !! p))).

Definition mkdirSync {T} (p : string) : M T unit :=
  refused <- gets (fun w => fs_refuses w p) ;;
  if refused : bool then throw (FsError "mkdir" p) else ret tt.

Definition writeFileSync {T} (p : string) (f : file) : M T unit :=
  fun w => if fs_refuses w p then (Throw (FsError "write" p), w)
           else (Ok tt, set_files (<[p := f]> (files w)) w).

Definition renameSync {T} (src dst : string) : M T unit :=
  fun w => match files w !! src with
           | Some f =>
               if fs_refuses w dst then (Throw (FsError "rename" dst), w)
               else (Ok tt, set_files (<[dst := f]> (delete src (files w))) w)
           | None => (Throw (FsError "rename" src), w)
           end.

Definition unlinkSync {T} (p : string) : M T unit :=
  fun w => match files w !! p with
           | Some _ =>
               if fs_refuses w p then (Throw (FsError "unlink" p), w)
               else (Ok tt, set_files (delete p (files w)) w)
           | None => (Throw (FsError "unlink" p), w)
           end.

(** [fs.closeSync(fs.openSync(p, "a"))]: the file exists afterwards, its
    content is kept. *)
Definition open_append_close {T} (p : string) : M T unit :=
  fun w => if fs_refuses w p then (Throw (FsError "open" p), w)
           else match files w !! p with
                | Some _ => (Ok tt, w)
                | None => (Ok tt, set_files (<[p := FText EmptyString]> (files w)) w)
                end.

(** [fs.accessSync(dir, fs.constants.W_OK)] *)
Definition accessSync_W {T} (dir : string) : M T unit :=
  ok <- gets (fun w => access_w w dir) ;;
  if ok : bool then ret tt else throw (FsError "access" dir).

(** [fs.readFileSync(p, "utf-8")] followed by [JSON.parse]. *)
Definition read_and_parse {T} (p : string) : M T jsval :=
  f <- gets (fun w => files w !! p) ;;
  match f with
  | Some (FJson v) => ret (Val.json_roundtrip v)
  | Some (FText _) => throw (TypeError "JSON.parse")
  | None => throw (FsError "read" p)
  end.

End Node.

(* ===================================================================== *)
(** ** registry.mjs *)
(* ===================================================================== *)

Module Registry.
Import Node.

Definition CCX_DIR : string := ".ccx".
Definition PROJECTS_DIR : string := "projects".
Definition PROJECT_META_FILE : string := "project.json".
Definition AGENTS_FILE : string := "agents.json".
Definition CURRENT_PROJECT_FILE : string := "current.json".
Definition LOGS_DIR : string := "logs".

Definition canWrite {T} (dir : string) : M T bool :=
  try_catch (accessSync_W dir ;; ret true) (ret false).

Definition readJson {T} (filePath : string) (fallback : jsval) : M T jsval :=
  try_catch
    (e <- existsSync filePath ;;
     if e : bool then read_and_parse filePath else ret fallback)
    (ret fallback).

Definition writeJsonAtomic {T} (filePath : string) (data : jsval) : M T unit :=
  let tmp := filePath +:+ ".tmp" in
  mkdirSync (path_dirname filePath) ;;
  writeFileSync tmp (FJson data) ;;
  renameSync tmp filePath.

(** The fields of an [AgentRegistry] object. *)
Record AgentRegistry := {
  projectRoot : string;
  ccxDir : string;
  projectsDir : string;
  fallbackDir : string;
  fallbackProjectsDir : string;
}.

Definition _ensureBaseDirs {T} (r : AgentRegistry) : M T unit :=
  try_catch (mkdirSync (projectsDir r)) (mkdirSync (fallbackProjectsDir r)).

(** [new AgentRegistry(options)]; [root] is [options.projectRoot]. *)
Definition constructor {T} (root : option string) : M T AgentRegistry :=
  cwd <- gets process_cwd ;;
  tmp <- gets os_tmpdir ;;
  let projectRoot :=
    match root with
    | Some s => if String.eqb s EmptyString then cwd else s
    | None => cwd
    end in
  let ccxDir := path_join projectRoot CCX_DIR in
  let fallbackDir := path_join tmp "ccx-agent-mux" in
  let r := {| projectRoot := projectRoot;
              ccxDir := ccxDir;
              projectsDir := path_join ccxDir PROJECTS_DIR;
              fallbackDir := fallbackDir;
              fallbackProjectsDir := path_join fallbackDir PROJECTS_DIR |} in
  _ensureBaseDirs r ;;
  ret r.

Definition _getProjectsDir {T} (r : AgentRegistry) : M T string :=
  w <- canWrite (ccxDir r) ;;
  if w : bool then ret (projectsDir r) else ret (fallbackProjectsDir r).

Definition getProjectDir {T} (r : AgentRegistry) (projectName : jsval) : M T string :=
  d <- _getProjectsDir r ;;
  ret (path_join d (Val.String_ projectName)).

Definition getProjectMetaPath {T} (r : AgentRegistry) (projectName : jsval) : M T string :=
  d <- getProjectDir r projectName ;;
  ret (path_join d PROJECT_META_FILE).

Definition getAgentsPath {T} (r : AgentRegistry) (projectName : jsval) : M T string :=
  d <- getProjectDir r projectName ;;
  ret (path_join d AGENTS_FILE).

Definition getLogsDir {T} (r : AgentRegistry) (projectName : jsval) : M T string :=
  d <- getProjectDir r projectName ;;
  ret (path_join d LOGS_DIR).

Definition getAgentLogPath {T} (r : AgentRegistry) (projectName : jsval)
    (agentName : string) : M T string :=
  d <- getLogsDir r projectName ;;
  ret (path_join d (agentName +:+ ".log")).

(** [ensureProject(projectName, meta = {})]; [meta] is a plain object. *)
Definition ensureProject {T} (r : AgentRegistry) (projectName : jsval)
    (meta : list (string * jsval)) : M T unit :=
  dir <- getProjectDir r projectName ;;
  logsDir <- getLogsDir r projectName ;;
  mkdirSync dir ;;
  mkdirSync logsDir ;;
  projectMetaPath <- getProjectMetaPath r projectName ;;
  e <- existsSync projectMetaPath ;;
  (if negb e then
     createdAt <- Date_now_iso ;;
     updatedAt <- Date_now_iso ;;
     let cwd := Val.opt_get (JObj meta) "cwd" in
     writeJsonAtomic projectMetaPath
       (Val.obj_lit [[("name", JStr (Val.String_ projectName));
                      ("cwd", if Val.truthy cwd then JStr (Val.String_ cwd) else JNull);
                      ("createdAt", JStr createdAt);
                      ("updatedAt", JStr updatedAt)]])
   else if Nat.ltb 0 (length meta) then
     current <- readJson projectMetaPath (JObj []) ;;
     updatedAt <- Date_now_iso ;;
     writeJsonAtomic projectMetaPath
       (Val.obj_lit [Val.spread current; meta;
                     [("name", JStr (Val.String_ projectName));
                      ("updatedAt", JStr updatedAt)]])
   else ret tt) ;;
  agentsPath <- getAgentsPath r projectName ;;
  e <- existsSync agentsPath ;;
  if negb e then
    updatedAt <- Date_now_iso ;;
    writeJsonAtomic agentsPath
      (Val.obj_lit [[("project", JStr (Val.String_ projectName));
                     ("agents", JArr []);
                     ("updatedAt", JStr updatedAt)]])
  else ret tt.

Definition loadProjectMeta {T} (r : AgentRegistry) (projectName : jsval) : M T jsval :=
  p <- getProjectMetaPath r projectName ;;
  readJson p JNull.

Definition loadAgents {T} (r : AgentRegistry) (projectName : jsval) : M T jsval :=
  p <- getAgentsPath r projectName ;;
  readJson p (Val.obj_lit [[("project", JStr (Val.String_ projectName));
                            ("agents", JArr []);
                            ("updatedAt", JNull)]]).

Definition saveAgents {T} (r : AgentRegistry) (projectName : jsval) (data : jsval)
  : M T unit :=
  p <- getAgentsPath r projectName ;;
  updatedAt <- Date_now_iso ;;
  writeJsonAtomic p
    (Val.obj_lit [Val.spread data;
                  [("project", JStr (Val.String_ projectName));
                   ("updatedAt", JStr updatedAt)]]).

Definition currentProjectPath {T} (r : AgentRegistry) : M T string :=
  d <- _getProjectsDir r ;;
  ret (path_join d CURRENT_PROJECT_FILE).

Definition getCurrentProject {T} (r : AgentRegistry) : M T jsval :=
  filePath <- currentProjectPath r ;;
  data <- readJson filePath JNull ;;
  ret (Val.or_else (Val.opt_get data "name") JNull).

Definition setCurrentProject {T} (r : AgentRegistry) (projectName : jsval) : M T unit :=
  filePath <- currentProjectPath r ;;
  updatedAt <- Date_now_iso ;;
  writeJsonAtomic filePath
    (Val.obj_lit [[("name", JStr (Val.String_ projectName));
                   ("updatedAt", JStr updatedAt)]]).

Definition clearCurrentProject {T} (r : AgentRegistry) : M T unit :=
  filePath <- currentProjectPath r ;;
  try_catch (unlinkSync filePath) (ret tt).

Definition saveProjectMeta {T} (r : AgentRegistry) (projectName : jsval) (meta : jsval)
  : M T unit :=
  p <- getProjectMetaPath r projectName ;;
  updatedAt <- Date_now_iso ;;
  writeJsonAtomic p
    (Val.obj_lit [Val.spread meta;
                  [("name", JStr (Val.String_ projectName));
                   ("updatedAt", JStr updatedAt)]]).

End Registry.

(* ===================================================================== *)
(** ** tmux-backend.mjs *)
(* ===================================================================== *)

Module Tmux.

Definition quote_char : string := String (ascii_of_nat 39) EmptyString.
Definition dquote_char : string := String (ascii_of_nat 34) EmptyString.

(** Every single quote becomes quote, double quote, quote, double quote,
    quote. *)
Fixpoint escape_quotes (s : string) : string :=
  match s with
  | EmptyString => EmptyString
  | String c r =>
      if Ascii.eqb c (ascii_of_nat 39)
      then quote_char +:+ dquote_char +:+ quote_char +:+ dquote_char
           +:+ quote_char +:+ escape_quotes r
      else String c (escape_quotes r)
  end.

Definition shellEscapeSingleQuotes (value : string) : string :=
  quote_char +:+ escape_quotes value +:+ quote_char.

(** The fields of a [TmuxBackend] object ([env] is handed to the child
    process as it is). *)
Record TmuxBackend := {
  socketName : string;
  tmuxBinary : string;
}.

Definition constructor (socket binary : option string) : TmuxBackend :=
  let pick (o : option string) (d : string) :=
    match o with
    | Some s => if String.eqb s EmptyString then d else s
    | None => d
    end in
  {| socketName := pick socket "ccx"; tmuxBinary := pick binary "tmux" |}.

Definition _buildArgs (b : TmuxBackend) (args : list string) : list string :=
  "-L" :: socketName b :: args.

(** The object [runRaw] returns. *)
Record raw := {
  ok : bool;
  status : option Z;
  stdout : string;
  stderr : string;
}.

Definition runRaw {T} `{Spawn T} (b : TmuxBackend) (args : list string) : M T raw :=
  fun w =>
    let argv := _buildArgs b args in
    let '(res, t') := spawnSync (tmuxBinary b) argv (tmux w) in
    let w' := set_tmux t' (trace w ++ [argv]) w in
    let is_ok := match sr_status res with Some 0 => true | _ => false end in
    match sr_error res with
    | Some message =>
        (Ok {| ok := false; status := sr_status res; stdout := sr_stdout res;
               stderr := Js.trim (sr_stderr res +:+ Js.nl +:+ message) |}, w')
    | None =>
        (Ok {| ok := is_ok; status := sr_status res; stdout := sr_stdout res;
               stderr := sr_stderr res |}, w')
    end.

Definition show_status (s : option Z) : string :=
  match s with Some z => Js.show_Z z | None => "null" end.

Definition exec {T} `{Spawn T} (b : TmuxBackend) (args : list string) : M T string :=
  r <- runRaw b args ;;
  if ok r then ret (stdout r)
  else
    let first :=
      if negb (String.eqb (stderr r) EmptyString) then stderr r
      else if negb (String.eqb (stdout r) EmptyString) then stdout r
      else "tmux exited with code " +:+ show_status (status r) in
    let msg := Js.trim first in
    throw (BackendCommandError
             ("[tmux -L " +:+ socketName b +:+ "] " +:+ Js.join " " args
              +:+ " failed: " +:+ msg)
             (status r)).

(** [.split("\n").map((s) => s.trim()).filter(Boolean)] *)
Definition nonempty_trimmed_lines (out : string) : list string :=
  List.filter (fun s => negb (String.eqb s EmptyString))
              (List.map Js.trim (Js.split Js.LF out)).

Definition hasSession {T} `{Spawn T} (b : TmuxBackend) (name : string) : M T bool :=
  res <- runRaw b ["has-session"; "-t"; name] ;;
  ret (ok res).

Definition listSessions {T} `{Spawn T} (b : TmuxBackend) : M T (list string) :=
  res <- runRaw b ["list-sessions"; "-F"; "#{session_name}"] ;;
  if ok res then ret (nonempty_trimmed_lines (stdout res)) else ret [].

(** [createSession(name, cwd)]: the result is the field [created]. *)
Definition createSession {T} `{Spawn T} (b : TmuxBackend) (name : string) (cwd : jsval)
  : M T bool :=
  has <- hasSession b name ;;
  if has : bool then ret false
  else
    let args := ["new-session"; "-d"; "-s"; name; "-n"; "main"]
                ++ (if Val.truthy cwd then ["-c"; Val.String_ cwd] else []) in
    exec b args ;;
    ret true.

Definition killSession {T} `{Spawn T} (b : TmuxBackend) (name : string) : M T unit :=
  exec b ["kill-session"; "-t"; name] ;;
  ret tt.

(** A window as [createWindow] and [listWindows] report it; [windowIndex] is
    [None] for [NaN], [windowName] is [None] for [undefined]. *)
Record window := {
  windowId : string;
  windowIndex : option Z;
  windowName : option string;
}.

Definition WINDOW_FORMAT : string := "#{window_id}|#{window_index}|#{window_name}".

(** [Number.parseInt(x, 10)] of a destructured array element that may be
    [undefined]. *)
Definition parse_index (o : option string) : option Z :=
  match o with
  | Some s => Js.parseInt10 s
  | None => None
  end.

Definition createWindow {T} `{Spawn T} (b : TmuxBackend) (session : string)
    (name : string) (cwd : jsval) (command : string) (commandArgs : list string)
  : M T window :=
  let args := ["new-window"; "-d"; "-t"; session; "-n"; name; "-P"; "-F"; WINDOW_FORMAT]
              ++ (if Val.truthy cwd then ["-c"; Val.String_ cwd] else [])
              ++ (if negb (String.eqb command EmptyString)
                  then command :: commandArgs else []) in
  out <- exec b args ;;
  let parts := Js.split "|" (Js.trim out) in
  let created := parts !! 2%nat in
  ret {| windowId := Js.trim (default EmptyString (parts !! 0%nat));
         windowIndex := parse_index (parts !! 1%nat);
         windowName :=
           Some (Js.trim
                   (match created with
                    | Some c => if String.eqb c EmptyString then name else c
                    | None => name
                    end)) |}.

Definition parse_window_line (line : string) : window :=
  let parts := Js.split "|" line in
  {| windowId := Js.trim (default EmptyString (parts !! 0%nat));
     windowIndex := parse_index (parts !! 1%nat);
     windowName := Js.trim <$> (parts !! 2%nat) |}.

Definition listWindows {T} `{Spawn T} (b : TmuxBackend) (session : string)
  : M T (list window) :=
  res <- runRaw b ["list-windows"; "-t"; session; "-F"; WINDOW_FORMAT] ;;
  if ok res then ret (List.map parse_window_line (nonempty_trimmed_lines (stdout res)))
  else ret [].

Definition killWindow {T} `{Spawn T} (b : TmuxBackend) (target : string) : M T unit :=
  exec b ["kill-window"; "-t"; target] ;;
  ret tt.

Definition getWindowFirstPaneId {T} `{Spawn T} (b : TmuxBackend) (windowTarget : string)
  : M T string :=
  out <- exec b ["list-panes"; "-t"; windowTarget; "-F"; "#{pane_id}"] ;;
  match nonempty_trimmed_lines out with
  | paneId :: _ => ret paneId
  | [] => throw (NoPaneFound windowTarget)
  end.

Definition setWindowOption {T} `{Spawn T} (b : TmuxBackend) (windowTarget key value : string)
  : M T unit :=
  exec b ["set-option"; "-w"; "-t"; windowTarget; key; value] ;;
  ret tt.

Definition pipePane {T} `{Spawn T} (b : TmuxBackend) (paneTarget shellCommand : string)
    (onlyIfNotRunning : bool) : M T unit :=
  let args := ["pipe-pane"; "-t"; paneTarget]
              ++ (if onlyIfNotRunning then ["-o"] else [])
              ++ [shellCommand] in
  exec b args ;;
  ret tt.

Definition sendKeys {T} `{Spawn T} (b : TmuxBackend) (paneTarget : string)
    (keys : list string) : M T unit :=
  exec b (["send-keys"; "-t"; paneTarget] ++ keys) ;;
  ret tt.

Definition capturePane {T} `{Spawn T} (b : TmuxBackend) (paneTarget : string) (history : Z)
  : M T string :=
  let args := ["capture-pane"; "-t"; paneTarget; "-p"; "-S"; "-" +:+ Js.show_Z history] in
  res <- runRaw b args ;;
  ret (if ok res then stdout res else EmptyString).

(** [showWindowOption(windowTarget, key)]; [None] is [null]. *)
Definition showWindowOption {T} `{Spawn T} (b : TmuxBackend) (windowTarget key : string)
  : M T (option string) :=
  res <- runRaw b ["show-options"; "-w"; "-t"; windowTarget; "-v"; key] ;;
  ret (if ok res then Some (Js.trim (stdout res)) else None).

Definition setBuffer {T} `{Spawn T} (b : TmuxBackend) (bufferName text : string)
  : M T unit :=
  exec b ["set-buffer"; "-b"; bufferName; text] ;;
  ret tt.

Definition pasteBuffer {T} `{Spawn T} (b : TmuxBackend) (bufferName paneTarget : string)
    (deleteAfter : bool) : M T unit :=
  let args := ["paste-buffer"; "-b"; bufferName; "-t"; paneTarget]
              ++ (if deleteAfter then ["-d"] else []) in
  exec b args ;;
  ret tt.

Definition selectWindow {T} `{Spawn T} (b : TmuxBackend) (targetWindow : string)
  : M T unit :=
  exec b ["select-window"; "-t"; targetWindow] ;;
  ret tt.

Definition listClients {T} `{Spawn T} (b : TmuxBackend) : M T (list string) :=
  res <- runRaw b ["list-clients"; "-F"; "#{client_tty}"] ;;
  if ok res then ret (nonempty_trimmed_lines (stdout res)) else ret [].

Definition switchClient {T} `{Spawn T} (b : TmuxBackend) (clientTty session : string)
  : M T unit :=
  exec b ["switch-client"; "-c"; clientTty; "-t"; session] ;;
  ret tt.

End Tmux.

(* ===================================================================== *)
(** ** index.mjs *)
(* ===================================================================== *)

Module Mux.
Import Node.

Definition ALLOWED_AGENT_TYPES : list string := ["claude"; "codex"; "gemini"].

Definition is_alnum (c : ascii) : bool :=
  Js.in_range 48 57 c || Js.in_range 65 90 c || Js.in_range 97 122 c.

Definition is_name_char (c : ascii) : bool :=
  is_alnum c || Ascii.eqb c "." || Ascii.eqb c "_" || Ascii.eqb c "-".

Fixpoint all_chars (p : ascii -> bool) (s : string) : bool :=
  match s with
  | EmptyString => true
  | String c r => p c && all_chars p r
  end.

(** [/^[a-zA-Z0-9][a-zA-Z0-9._-]{0,127}$/.test(n)] *)
Definition name_regex_test (n : string) : bool :=
  match n with
  | EmptyString => false
  | String c r => is_alnum c && all_chars is_name_char r
                  && Nat.leb (String.length r) 127
  end.

Definition assertSafeName (kind : string) (name : jsval) : outcome string :=
  match name with
  | JStr s =>
      if Nat.eqb (String.length (Js.trim s)) 0
      then Throw (InvalidName kind NotNonEmptyString name)
      else
        let n := Js.trim s in
        if negb (name_regex_test n)
        then Throw (InvalidName kind GrammarMismatch name)
        else Ok n
  | _ => Throw (InvalidName kind NotNonEmptyString name)
  end.

Definition lift {T A} (o : outcome A) : M T A := fun w => (o, w).

(** A start command: the program and its arguments. *)
Record command := { program : string; args : list string }.

Definition buildDefaultCommand (type : string) : outcome command :=
  if String.eqb type "claude"
  then Ok {| program := "claude"; args := ["--dangerously-skip-permissions"] |}
  else if String.eqb type "codex" then Ok {| program := "codex"; args := ["--yolo"] |}
  else if String.eqb type "gemini" then Ok {| program := "gemini"; args := ["--yolo"] |}
  else Throw (UnsupportedAgentType (JStr type)).

(** The fields of an [AgentMux] object. *)
Record AgentMux := {
  projectRoot : string;
  tmux : Tmux.TmuxBackend;
  registry : Registry.AgentRegistry;
}.

(** [new AgentMux(options)] with [options.projectRoot], [options.tmuxSocketName]
    and [options.tmuxBinary]. *)
Definition constructor {T} (root socket binary : option string) : M T AgentMux :=
  cwd <- gets process_cwd ;;
  let projectRoot :=
    match root with
    | Some s => if String.eqb s EmptyString then cwd else s
    | None => cwd
    end in
  reg <- Registry.constructor (Some projectRoot) ;;
  ret {| projectRoot := projectRoot;
         tmux := Tmux.constructor socket binary;
         registry := reg |}.

Definition _requireCurrentProject {T} (m : AgentMux) : M T jsval :=
  name <- Registry.getCurrentProject (registry m) ;;
  if negb (Val.truthy name) then throw NoCurrentProject else ret name.

(** [(a) => a?.name === agentName] *)
Definition named (agentName : string) (a : jsval) : bool :=
  Val.strict_eq_str (Val.opt_get a "name") agentName.

(** [(data.agents || [])] as an array. *)
Definition agents_of {T} (data : jsval) : M T (list jsval) :=
  field <- or_type_error "data.agents" (Val.get data "agents") ;;
  or_type_error "agents is not an array" (Val.as_array field).

Definition _loadAgent {T} (m : AgentMux) (project : jsval) (agentName : string)
  : M T (jsval * jsval) :=
  data <- Registry.loadAgents (registry m) project ;;
  agents <- agents_of data ;;
  match List.find (named agentName) agents with
  | Some agent => ret (data, agent)
  | None => throw (AgentNotFound agentName project)
  end.

(** [cwd ? path.resolve(String(cwd)) : fallback] *)
Definition resolve_or {T} (cwd fallback : jsval) : M T jsval :=
  if Val.truthy cwd
  then p <- path_resolve (Val.String_ cwd) ;; ret (JStr p)
  else ret fallback.

(* ---------- Project management ---------- *)

Definition create_project {T} `{Spawn T} (m : AgentMux) (name cwd : jsval) : M T jsval :=
  project <- lift (assertSafeName "project" name) ;;
  resolvedCwd <- resolve_or cwd JNull ;;
  Registry.ensureProject (registry m) (JStr project) [("cwd", resolvedCwd)] ;;
  created <- Tmux.createSession (tmux m) project resolvedCwd ;;
  Registry.setCurrentProject (registry m) (JStr project) ;;
  storageDir <- Registry.getProjectDir (registry m) (JStr project) ;;
  ret (Val.obj_lit [[("project", JStr project);
                     ("cwd", resolvedCwd);
                     ("created", JBool created);
                     ("storageDir", JStr storageDir)]]).

Definition close_project {T} `{Spawn T} (m : AgentMux) (name : jsval) : M T jsval :=
  project <- lift (assertSafeName "project" name) ;;
  current <- Registry.getCurrentProject (registry m) ;;
  has <- Tmux.hasSession (tmux m) project ;;
  killed <- (if has : bool then Tmux.killSession (tmux m) project ;; ret true
             else ret false) ;;
  (if Val.strict_eq_str current project
   then Registry.clearCurrentProject (registry m) else ret tt) ;;
  ret (Val.obj_lit [[("project", JStr project);
                     ("killed", JBool killed);
                     ("clearedCurrent", JBool (Val.strict_eq_str current project))]]).

(* ---------- Agent management ---------- *)

(** Lines 202 to 208 of [spawn_agent]: the command that is started. *)
Definition resolve_command (agentType : string) (options : jsval) : outcome command :=
  let override := Val.or_else (Val.opt_get options "command") (Val.opt_get options "cmd") in
  let extraArgs :=
    match Val.opt_get options "args" with
    | JArr l => List.map Val.String_ l
    | _ => []
    end in
  match (if Val.truthy override
         then Ok {| program := Val.String_ override; args := [] |}
         else buildDefaultCommand agentType) with
  | Ok baseCmd => Ok {| program := program baseCmd; args := args baseCmd ++ extraArgs |}
  | Throw e => Throw e
  end.

Definition command_value (c : command) : jsval :=
  Val.obj_lit [[("command", JStr (program c));
                ("args", JArr (List.map JStr (args c)))]].

Definition index_value (i : option Z) : jsval :=
  match i with Some z => JNum z | None => JNaN end.

Definition spawn_agent {T} `{Spawn T} (m : AgentMux) (type name options : jsval)
  : M T jsval :=
  project <- _requireCurrentProject m ;;
  agentName <- lift (assertSafeName "agent" name) ;;
  let agentType := Js.trim (Val.String_ (Val.or_else type (JStr EmptyString))) in
  if negb (bool_decide (agentType ∈ ALLOWED_AGENT_TYPES))
  then throw (UnsupportedAgentType type)
  else
  has <- Tmux.hasSession (tmux m) (Val.String_ project) ;;
  if negb has then throw (SessionNotFound project)
  else
  Registry.ensureProject (registry m) project [] ;;
  agentsData <- Registry.loadAgents (registry m) project ;;
  existing <- agents_of agentsData ;;
  if existsb (named agentName) existing
  then throw (AgentAlreadyExists agentName project)
  else
  projectMeta <- Registry.loadProjectMeta (registry m) project ;;
  pcwd <- gets process_cwd ;;
  let defaultCwd := Val.or_else (Val.opt_get projectMeta "cwd") (JStr pcwd) in
  agentCwd <- resolve_or (Val.opt_get options "cwd") defaultCwd ;;
  cmd <- lift (resolve_command agentType options) ;;
  win <- Tmux.createWindow (tmux m) (Val.String_ project) agentName agentCwd
           (program cmd) (args cmd) ;;
  Tmux.setWindowOption (tmux m) (Tmux.windowId win) "@ccx_agent_name" agentName ;;
  Tmux.setWindowOption (tmux m) (Tmux.windowId win) "@ccx_agent_type" agentType ;;
  paneId <- Tmux.getWindowFirstPaneId (tmux m) (Tmux.windowId win) ;;
  logPath <- Registry.getAgentLogPath (registry m) project agentName ;;
  mkdirSync (path_dirname logPath) ;;
  try_catch (open_append_close logPath) (ret tt) ;;
  let pipeCmd := "cat >> " +:+ Tmux.shellEscapeSingleQuotes logPath in
  Tmux.pipePane (tmux m) paneId pipeCmd false ;;
  createdAt <- Date_now_iso ;;
  let entry :=
    Val.obj_lit [[("name", JStr agentName);
                  ("type", JStr agentType);
                  ("project", project);
                  ("windowId", JStr (Tmux.windowId win));
                  ("windowIndex", index_value (Tmux.windowIndex win));
                  ("paneId", JStr paneId);
                  ("cwd", agentCwd);
                  ("command", command_value cmd);
                  ("logPath", JStr logPath);
                  ("createdAt", JStr createdAt)]] in
  Registry.saveAgents (registry m) project
    (Val.obj_lit [Val.spread agentsData; [("agents", JArr (existing ++ [entry]))]]) ;;
  ret entry.

(** [windowIds.has(v)] for the set built from the listed windows. *)
Definition has_window (windowIds : list string) (v : jsval) : bool :=
  match v with
  | JStr s => bool_decide (s ∈ windowIds)
  | _ => false
  end.

(** [(a) => ({...a, alive: a?.windowId ? windowIds.has(a.windowId) : false})] *)
Definition annotate (windowIds : list string) (a : jsval) : jsval :=
  let wid := Val.opt_get a "windowId" in
  Val.obj_lit [Val.spread a;
               [("alive", JBool (if Val.truthy wid then has_window windowIds wid
                                 else false))]].

Definition list_agents {T} `{Spawn T} (m : AgentMux) (project : jsval) : M T jsval :=
  proj <- (if Val.truthy project
           then p <- lift (assertSafeName "project" project) ;; ret (JStr p)
           else _requireCurrentProject m) ;;
  data <- Registry.loadAgents (registry m) proj ;;
  has <- Tmux.hasSession (tmux m) (Val.String_ proj) ;;
  windowIds <- (if has : bool
                then windows <- Tmux.listWindows (tmux m) (Val.String_ proj) ;;
                     ret (List.map Tmux.windowId windows)
                else ret []) ;;
  agents <- agents_of data ;;
  ret (Val.obj_lit [[("project", proj);
                     ("agents", JArr (List.map (annotate windowIds) agents))]]).

(** [String(text ?? "")] *)
Definition payload_of (text : jsval) : string :=
  match text with
  | JUndefined | JNull => EmptyString
  | _ => Val.String_ text
  end.

(** [Buffer.byteLength(s, "utf-8")]: one byte below code unit 128, two from
    there to 255. *)
Fixpoint utf8_length (s : string) : Z :=
  match s with
  | EmptyString => 0
  | String c r => (if Nat.ltb (Js.code c) 128 then 1 else 2) + utf8_length r
  end.

(** [agent.paneId || this.tmux.getWindowFirstPaneId(agent.windowId)] *)
Definition pane_of {T} `{Spawn T} (m : AgentMux) (agent : jsval) : M T string :=
  let stored := Val.opt_get agent "paneId" in
  if Val.truthy stored then ret (Val.String_ stored)
  else Tmux.getWindowFirstPaneId (tmux m) (Val.String_ (Val.opt_get agent "windowId")).

Definition send_to_agent {T} `{Spawn T} (m : AgentMux) (name text : jsval) : M T jsval :=
  project <- _requireCurrentProject m ;;
  agentName <- lift (assertSafeName "agent" name) ;;
  da <- _loadAgent m project agentName ;;
  paneId <- pane_of m (snd da) ;;
  let payload := payload_of text in
  Tmux.sendKeys (tmux m) paneId ["-l"; payload] ;;
  Tmux.sendKeys (tmux m) paneId ["Enter"] ;;
  ret (Val.obj_lit [[("project", project);
                     ("agent", JStr agentName);
                     ("sent", JBool true);
                     ("bytes", JNum (utf8_length payload))]]).

(** The 50 ms [sleep] between the two [send-keys] runs changes nothing the
    model holds. *)
Definition send_to_window {T} `{Spawn T} (m : AgentMux) (windowName text : jsval)
  : M T jsval :=
  project <- _requireCurrentProject m ;;
  let target := Val.String_ project +:+ ":" +:+ Val.String_ windowName in
  let payload := payload_of text in
  Tmux.sendKeys (tmux m) target ["-l"; payload] ;;
  Tmux.sendKeys (tmux m) target ["Enter"] ;;
  ret (Val.obj_lit [[("project", project);
                     ("window", windowName);
                     ("sent", JBool true);
                     ("bytes", JNum (utf8_length payload))]]).

(** [(line) => line.trim().length > 0] *)
Definition non_blank (line : string) : bool :=
  Nat.ltb 0 (String.length (Js.trim line)).

(** [read_agent_output(name, lines = 200)]; [lines] is [None] when the
    argument is left out. *)
Definition read_agent_output {T} `{Spawn T} (m : AgentMux) (name : jsval)
    (lines_arg : option Z) : M T jsval :=
  let lines := default 200 lines_arg in
  project <- _requireCurrentProject m ;;
  agentName <- lift (assertSafeName "agent" name) ;;
  da <- _loadAgent m project agentName ;;
  paneId <- pane_of m (snd da) ;;
  rawOutput <- Tmux.capturePane (tmux m) paneId (Z.max (lines * 10) 2000) ;;
  let outputLines :=
    Js.slice_from (- lines) (List.filter non_blank (Js.split Js.LF rawOutput)) in
  let output := Js.join Js.nl outputLines in
  ret (Val.obj_lit [[("project", project);
                     ("agent", JStr agentName);
                     ("lines", JNum lines);
                     ("output", JStr output)]]).

Definition interrupt_agent {T} `{Spawn T} (m : AgentMux) (name : jsval) : M T jsval :=
  project <- _requireCurrentProject m ;;
  agentName <- lift (assertSafeName "agent" name) ;;
  da <- _loadAgent m project agentName ;;
  paneId <- pane_of m (snd da) ;;
  Tmux.sendKeys (tmux m) paneId ["C-c"] ;;
  ret (Val.obj_lit [[("project", project);
                     ("agent", JStr agentName);
                     ("interrupted", JBool true)]]).

(** [agent.windowId || `${project}:${agent.windowIndex}`] *)
Definition window_target (project agent : jsval) : string :=
  let wid := Val.opt_get agent "windowId" in
  if Val.truthy wid then Val.String_ wid
  else Val.String_ project +:+ ":" +:+ Val.String_ (Val.opt_get agent "windowIndex").

Definition kill_agent {T} `{Spawn T} (m : AgentMux) (name : jsval) : M T jsval :=
  project <- _requireCurrentProject m ;;
  agentName <- lift (assertSafeName "agent" name) ;;
  da <- _loadAgent m project agentName ;;
  let data := fst da in
  let agent := snd da in
  try_catch (Tmux.killWindow (tmux m) (window_target project agent)) (ret tt) ;;
  agents <- agents_of data ;;
  let nextAgents := List.filter (fun a => negb (named agentName a)) agents in
  Registry.saveAgents (registry m) project
    (Val.obj_lit [Val.spread data; [("agents", JArr nextAgents)]]) ;;
  ret (Val.obj_lit [[("project", project);
                     ("agent", JStr agentName);
                     ("killed", JBool true)]]).

(** [ensureEndsWithNewline(text)] *)
Definition ensureEndsWithNewline (text : jsval) : string :=
  let s := payload_of text in
  if Js.endsWith s Js.nl then s else s +:+ Js.nl.

(** The characters [stripAnsi] looks for: [\x1b], [\x07] and [\r]. *)
Definition ESC : ascii := ascii_of_nat 27.
Definition BEL : ascii := ascii_of_nat 7.
Definition CR : ascii := ascii_of_nat 13.

(** [[a-zA-Z]] *)
Definition is_letter (c : ascii) : bool := Js.in_range 65 90 c || Js.in_range 97 122 c.

(** [[0-9;]] *)
Definition is_csi_param (c : ascii) : bool := Js.is_digit c || Ascii.eqb c ";".

(** Length of the match of [[0-9;]*[a-zA-Z]] at the start of [s]; the two
    classes share no character, so the greedy run of parameters is the only
    way to match. *)
Fixpoint csi_tail (s : string) : option nat :=
  match s with
  | EmptyString => None
  | String c r =>
      if is_csi_param c then S <$> csi_tail r
      else if is_letter c then Some 1%nat
      else None
  end.

(** Length of the match of [[^\x07]*\x07] at the start of [s]: up to the
    first BEL. *)
Fixpoint osc_tail (s : string) : option nat :=
  match s with
  | EmptyString => None
  | String c r => if Ascii.eqb c BEL then Some 1%nat else S <$> osc_tail r
  end.

(** What follows an ESC: the number of characters that the rest of one of
    the four alternatives of the pattern that begin with [\x1b] matches at
    the start of [s]: an opening bracket, [[0-9;]*] and a letter; a closing
    bracket and everything up to the first BEL; a parenthesis and one of
    [A B 0 1 2]; [=] or [>].  The first character selects the alternative. *)
Definition escape_tail (s : string) : option nat :=
  match s with
  | EmptyString => None
  | String c r =>
      if Ascii.eqb c "[" then S <$> csi_tail r
      else if Ascii.eqb c "]" then S <$> osc_tail r
      else if Ascii.eqb c "(" || Ascii.eqb c ")" then
        match r with
        | String d _ =>
            if Ascii.eqb d "A" || Ascii.eqb d "B" || Ascii.eqb d "0"
               || Ascii.eqb d "1" || Ascii.eqb d "2"
            then Some 2%nat else None
        | EmptyString => None
        end
      else if Ascii.eqb c "=" || Ascii.eqb c ">" then Some 1%nat
      else None
  end.

(** The global replacement by the empty string, scanning from the left:
    a match is dropped and the scan resumes behind it, any other character
    is kept; the fifth alternative is a lone [\r].  [skip] characters of a
    match are still to be dropped. *)
Fixpoint strip_from (skip : nat) (s : string) : string :=
  match s with
  | EmptyString => EmptyString
  | String c r =>
      match skip with
      | S k => strip_from k r
      | O =>
          if Ascii.eqb c ESC then
            match escape_tail r with
            | Some n => strip_from n r
            | None => String c (strip_from 0 r)
            end
          else if Ascii.eqb c CR then strip_from 0 r
          else String c (strip_from 0 r)
      end
  end.

(** [stripAnsi(str)], [str] a string. *)
Definition stripAnsi (str : string) : string := strip_from 0 str.

(** [for (const tty of clients) { try { switchClient(tty, project) } catch {} }] *)
Fixpoint switch_clients {T} `{Spawn T} (b : Tmux.TmuxBackend) (clients : list string)
    (session : string) : M T unit :=
  match clients with
  | [] => ret tt
  | tty :: rest =>
      try_catch (Tmux.switchClient b tty session) (ret tt) ;;
      switch_clients b rest session
  end.

Definition switch_project {T} `{Spawn T} (m : AgentMux) (name : jsval) : M T jsval :=
  project <- lift (assertSafeName "project" name) ;;
  has <- Tmux.hasSession (tmux m) project ;;
  if negb has then throw (SessionNotFound (JStr project))
  else
  Registry.ensureProject (registry m) (JStr project) [] ;;
  Registry.setCurrentProject (registry m) (JStr project) ;;
  clients <- Tmux.listClients (tmux m) ;;
  switch_clients (tmux m) clients project ;;
  ret (Val.obj_lit [[("project", JStr project);
                     ("switched", JBool true);
                     ("clients", JNum (Z.of_nat (length clients)))]]).

Definition attach_agent {T} `{Spawn T} (m : AgentMux) (name : jsval) : M T jsval :=
  project <- _requireCurrentProject m ;;
  agentName <- lift (assertSafeName "agent" name) ;;
  da <- _loadAgent m project agentName ;;
  clients <- Tmux.listClients (tmux m) ;;
  switch_clients (tmux m) clients (Val.String_ project) ;;
  Tmux.selectWindow (tmux m) (window_target project (snd da)) ;;
  ret (Val.obj_lit [[("project", project);
                     ("agent", JStr agentName);
                     ("attached", JBool true);
                     ("clients", JNum (Z.of_nat (length clients)))]]).

End Mux.

(* ===================================================================== *)
(** ** The instance each module keeps

    [getTmuxBackend], [getAgentRegistry] and [getAgentMux] build their
    object on the first call and hand out the same one afterwards; the
    constructor of [AgentMux] obtains its adapter and its registry through
    the first two. *)
(* ===================================================================== *)

Module Singletons.

(** The three [_instance] variables of a process; [None] is [null]. *)
Record instances := {
  tmux_instance : option Tmux.TmuxBackend;
  registry_instance : option Registry.AgentRegistry;
  mux_instance : option Mux.AgentMux;
}.

Definition fresh : instances :=
  {| tmux_instance := None; registry_instance := None; mux_instance := None |}.

Definition getTmuxBackend (socket binary : option string) (i : instances)
  : Tmux.TmuxBackend * instances :=
  match tmux_instance i with
  | Some b => (b, i)
  | None =>
      let b := Tmux.constructor socket binary in
      (b, {| tmux_instance := Some b;
             registry_instance := registry_instance i;
             mux_instance := mux_instance i |})
  end.

Definition getAgentRegistry {T} (root : option string) (i : instances)
  : M T (Registry.AgentRegistry * instances) :=
  match registry_instance i with
  | Some r => ret (r, i)
  | None =>
      r <- Registry.constructor root ;;
      ret (r, {| tmux_instance := tmux_instance i;
                 registry_instance := Some r;
                 mux_instance := mux_instance i |})
  end.

(** [new AgentMux(options)] in a process whose instances are [i]. *)
Definition new_AgentMux {T} (root socket binary : option string) (i : instances)
  : M T (Mux.AgentMux * instances) :=
  cwd <- gets process_cwd ;;
  let pick (o : option string) (d : string) :=
    match o with
    | Some s => if String.eqb s EmptyString then d else s
    | None => d
    end in
  let projectRoot := pick root cwd in
  let '(b, i1) := getTmuxBackend (Some (pick socket "ccx")) (Some (pick binary "tmux")) i in
  ri <- getAgentRegistry (Some projectRoot) i1 ;;
  ret ({| Mux.projectRoot := projectRoot; Mux.tmux := b; Mux.registry := fst ri |}, snd ri).

Definition getAgentMux {T} (root socket binary : option string) (i : instances)
  : M T (Mux.AgentMux * instances) :=
  match mux_instance i with
  | Some m => ret (m, i)
  | None =>
      mi <- new_AgentMux root socket binary i ;;
      ret (fst mi, {| tmux_instance := tmux_instance (snd mi);
                      registry_instance := registry_instance (snd mi);
                      mux_instance := Some (fst mi) |})
  end.

End Singletons.

(* ===================================================================== *)
(** ** MiniTmux: a small tmux server to run the model against

    It knows the commands the adapter issues.  A pane shows what is typed
    into it ([send-keys -l text] appends the text, [Enter] ends the line). *)
(* ===================================================================== *)

Module MiniTmux.

Record mwindow := {
  w_id : nat;          (* window id [@n]; its pane is [%n] *)
  w_index : nat;
  w_name : string;
  w_screen : string;
}.

Record msession := { s_name : string; s_windows : list mwindow }.

Record state := { sessions : list msession; next_id : nat }.

Definition empty : state := {| sessions := []; next_id := 0 |}.

Definition win_id (w : mwindow) : string := "@" +:+ Js.show_nat (w_id w).
Definition pane_id (w : mwindow) : string := "%" +:+ Js.show_nat (w_id w).

Definition success (out : string) : spawn_result :=
  SpawnResult (Some 0) out EmptyString None.
Definition failure (msg : string) : spawn_result :=
  SpawnResult (Some 1) EmptyString msg None.

Definition find_session (n : string) (st : state) : option msession :=
  List.find (fun s => String.eqb (s_name s) n) (sessions st).

(** A target names a window by its id, by its pane id, or as
    [session:name] or [session:index]. *)
Definition targets (target : string) (s : msession) (w : mwindow) : bool :=
  String.eqb target (win_id w) || String.eqb target (pane_id w)
  || String.eqb target (s_name s +:+ ":" +:+ w_name w)
  || String.eqb target (s_name s +:+ ":" +:+ Js.show_nat (w_index w)).

Definition find_window (target : string) (st : state) : option mwindow :=
  List.find (fun w => true)
    (List.flat_map (fun s => List.filter (targets target s) (s_windows s)) (sessions st)).

Definition map_windows (f : msession -> mwindow -> option mwindow) (st : state) : state :=
  {| sessions :=
       List.filter (fun s => negb (Nat.eqb (length (s_windows s)) 0))
         (List.map (fun s => {| s_name := s_name s;
                                s_windows := omap (f s) (s_windows s) |})
                   (sessions st));
     next_id := next_id st |}.

Definition window_line (w : mwindow) : string :=
  win_id w +:+ "|" +:+ Js.show_nat (w_index w) +:+ "|" +:+ w_name w +:+ Js.nl.

Definition type_keys (keys : list string) (w : mwindow) : mwindow :=
  let typed :=
    match keys with
    | ["-l"; text] => text
    | ["Enter"] => Js.nl
    | _ => EmptyString
    end in
  {| w_id := w_id w; w_index := w_index w; w_name := w_name w;
     w_screen := w_screen w +:+ typed |}.

Definition add_window (n name : string) (st : state) : state :=
  {| sessions :=
       List.map (fun s =>
                   if String.eqb (s_name s) n
                   then {| s_name := n;
                           s_windows := s_windows s ++
                             [{| w_id := next_id st; w_index := length (s_windows s);
                                 w_name := name; w_screen := EmptyString |}] |}
                   else s) (sessions st);
     next_id := S (next_id st) |}.

Definition run (argv : list string) (st : state) : spawn_result * state :=
  match argv with
  | "-L" :: _ :: "has-session" :: "-t" :: n :: [] =>
      match find_session n st with
      | Some _ => (success EmptyString, st)
      | None => (failure ("can't find session: " +:+ n), st)
      end
  | "-L" :: _ :: "new-session" :: "-d" :: "-s" :: n :: "-n" :: name :: _ =>
      match find_session n st with
      | Some _ => (failure ("duplicate session: " +:+ n), st)
      | None =>
          (success EmptyString,
           add_window n name
             {| sessions := sessions st ++ [{| s_name := n; s_windows := [] |}];
                next_id := next_id st |})
      end
  | "-L" :: _ :: "kill-session" :: "-t" :: n :: [] =>
      match find_session n st with
      | Some _ =>
          (success EmptyString,
           {| sessions := List.filter (fun s => negb (String.eqb (s_name s) n)) (sessions st);
              next_id := next_id st |})
      | None => (failure ("can't find session: " +:+ n), st)
      end
  | "-L" :: _ :: "new-window" :: "-d" :: "-t" :: n :: "-n" :: name :: _ =>
      match find_session n st with
      | Some s =>
          (success ("@" +:+ Js.show_nat (next_id st) +:+ "|"
                    +:+ Js.show_nat (length (s_windows s)) +:+ "|" +:+ name +:+ Js.nl),
           add_window n name st)
      | None => (failure ("can't find session: " +:+ n), st)
      end
  | "-L" :: _ :: "list-windows" :: "-t" :: n :: _ =>
      match find_session n st with
      | Some s => (success (String.concat EmptyString (List.map window_line (s_windows s))), st)
      | None => (failure ("can't find session: " +:+ n), st)
      end
  | "-L" :: _ :: "kill-window" :: "-t" :: target :: [] =>
      match find_window target st with
      | Some _ =>
          (success EmptyString,
           map_windows (fun s w => if targets target s w then None else Some w) st)
      | None => (failure ("can't find window: " +:+ target), st)
      end
  | "-L" :: _ :: "list-panes" :: "-t" :: target :: _ =>
      match find_window target st with
      | Some w => (success (pane_id w +:+ Js.nl), st)
      | None => (failure ("can't find window: " +:+ target), st)
      end
  | "-L" :: _ :: "set-option" :: "-w" :: "-t" :: target :: _
  | "-L" :: _ :: "pipe-pane" :: "-t" :: target :: _ =>
      match find_window target st with
      | Some _ => (success EmptyString, st)
      | None => (failure ("can't find window: " +:+ target), st)
      end
  | "-L" :: _ :: "send-keys" :: "-t" :: target :: keys =>
      match find_window target st with
      | Some _ =>
          (success EmptyString,
           map_windows (fun s w => Some (if targets target s w then type_keys keys w else w)) st)
      | None => (failure ("can't find pane: " +:+ target), st)
      end
  | "-L" :: _ :: "capture-pane" :: "-t" :: target :: _ =>
      match find_window target st with
      | Some w => (success (w_screen w), st)
      | None => (failure ("can't find pane: " +:+ target), st)
      end
  | _ => (failure "unknown command", st)
  end.

#[export] Instance spawn : Spawn state := fun _ argv st => run argv st.

(** A world on the MiniTmux server: empty disk, the primary root writable,
    nothing refused, a clock that reads its tick. *)
Definition boot : world state :=
  {| files := ∅;
     access_w := fun _ => true;
     fs_refuses := fun _ => false;
     clock := fun n => "T" +:+ Js.show_nat n;
     tick := 0;
     process_cwd := "/work";
     os_tmpdir := "/tmp";
     tmux := empty;
     trace := [] |}.

(** The orchestrator of a process started in [/work]. *)
Definition mux : Mux.AgentMux :=
  {| Mux.projectRoot := "/work";
     Mux.tmux := Tmux.constructor None None;
     Mux.registry :=
       {| Registry.projectRoot := "/work";
          Registry.ccxDir := "/work/.ccx";
          Registry.projectsDir := "/work/.ccx/projects";
          Registry.fallbackDir := "/tmp/ccx-agent-mux";
          Registry.fallbackProjectsDir := "/tmp/ccx-agent-mux/projects" |} |}.

(** Run [m] and keep the world; run [m] and keep the outcome. *)
Definition after {A} (m : M state A) (w : world state) : world state := snd (m w).
Definition value {A} (m : M state A) (w : world state) : outcome A := fst (m w).

End MiniTmux.

(* ===================================================================== *)
(** ** ClientTmux: MiniTmux with terminals attached

    [list-clients] prints the terminals, [switch-client] works for a
    terminal that is still there and a session that exists, [select-window]
    for a window that exists; every other command is MiniTmux's. *)
(* ===================================================================== *)

Module ClientTmux.

Record state := {
  server : MiniTmux.state;
  ttys : list string;    (* the terminals [list-clients] prints *)
  gone : list string;    (* those of them that have detached since *)
}.

Definition with_server (s : MiniTmux.state) (st : state) : state :=
  {| server := s; ttys := ttys st; gone := gone st |}.

Definition run (argv : list string) (st : state) : spawn_result * state :=
  match argv with
  | "-L" :: _ :: "list-clients" :: _ =>
      (MiniTmux.success
         (String.concat EmptyString (List.map (fun t => t +:+ Js.nl) (ttys st))), st)
  | "-L" :: _ :: "switch-client" :: "-c" :: tty :: "-t" :: session :: [] =>
      if bool_decide (tty ∈ ttys st) && negb (bool_decide (tty ∈ gone st))
      then match MiniTmux.find_session session (server st) with
           | Some _ => (MiniTmux.success EmptyString, st)
           | None => (MiniTmux.failure ("can't find session: " +:+ session), st)
           end
      else (MiniTmux.failure ("can't find client: " +:+ tty), st)
  | "-L" :: _ :: "select-window" :: "-t" :: target :: [] =>
      match MiniTmux.find_window target (server st) with
      | Some _ => (MiniTmux.success EmptyString, st)
      | None => (MiniTmux.failure ("can't find window: " +:+ target), st)
      end
  | _ =>
      let '(res, s') := MiniTmux.run argv (server st) in
      (res, with_server s' st)
  end.

#[global] Instance spawn : Spawn state := fun _ argv st => run argv st.

(** A fresh process, two terminals attached to the server, the second of
    which detaches before it can be switched. *)
Definition boot : world state :=
  {| files := ∅;
     access_w := fun _ => true;
     fs_refuses := fun _ => false;
     clock := fun n => "T" +:+ Js.show_nat n;
     tick := 0;
     process_cwd := "/work";
     os_tmpdir := "/tmp";
     tmux := {| server := MiniTmux.empty;
                ttys := ["/dev/pts/1"; "/dev/pts/2"];
                gone := ["/dev/pts/2"] |};
     trace := [] |}.

Definition after {A} (m : M state A) (w : world state) : world state := snd (m w).

End ClientTmux.

(* ===================================================================== *)
(** ** Specification-side definitions

    What the statements below are phrased with: the name grammar in the
    words of the design, the storage root a world selects, pure readings of
    the registry files, and events that happen outside the process. *)
(* ===================================================================== *)

Module Spec.
Import Node.

(** The grammar as the design words it: the first character is
    alphanumeric, the following ones are alphanumeric or one of [.], [_],
    [-], and the whole name has at most 128 characters. *)
Definition name_grammar (s : string) : bool :=
  match s with
  | EmptyString => false
  | String c r =>
      Mux.is_alnum c && Mux.all_chars Mux.is_name_char r
      && Nat.leb (String.length s) 128
  end.

Definition is_invalid_name (e : error) : bool :=
  match e with InvalidName _ _ _ => true | _ => false end.

(** The root [_getProjectsDir] selects in a world. *)
Definition chosen_root {T} (r : Registry.AgentRegistry) (w : world T) : string :=
  if access_w w (Registry.ccxDir r)
  then Registry.projectsDir r else Registry.fallbackProjectsDir r.

Definition project_dir {T} (r : Registry.AgentRegistry) (w : world T) (p : jsval) : string :=
  path_join (chosen_root r w) (Val.String_ p).

Definition meta_path {T} (r : Registry.AgentRegistry) (w : world T) (p : jsval) : string :=
  path_join (project_dir r w p) Registry.PROJECT_META_FILE.

Definition agents_path {T} (r : Registry.AgentRegistry) (w : world T) (p : jsval) : string :=
  path_join (project_dir r w p) Registry.AGENTS_FILE.

Definition current_path {T} (r : Registry.AgentRegistry) (w : world T) : string :=
  path_join (chosen_root r w) Registry.CURRENT_PROJECT_FILE.

(** What [readJson(p, fallback)] yields in a world. *)
Definition read_json {T} (w : world T) (p : string) (fallback : jsval) : jsval :=
  match files w !! p with
  | Some (FJson v) => Val.json_roundtrip v
  | _ => fallback
  end.

(** The current-project pointer of a world. *)
Definition pointer {T} (r : Registry.AgentRegistry) (w : world T) : jsval :=
  Val.or_else (Val.opt_get (read_json w (current_path r w) JNull) "name") JNull.

(** The registry's record of a project's agents, and its agent list. *)
Definition agents_data {T} (r : Registry.AgentRegistry) (w : world T) (p : jsval) : jsval :=
  read_json w (agents_path r w p)
    (Val.obj_lit [[("project", JStr (Val.String_ p)); ("agents", JArr []);
                   ("updatedAt", JNull)]]).

Definition agent_list (data : jsval) : option (list jsval) :=
  Val.get data "agents" ≫= Val.as_array.

Definition registered {T} (r : Registry.AgentRegistry) (w : world T) (p : jsval)
  : option (list jsval) :=
  agent_list (agents_data r w p).

(** The operating system refuses no file operation. *)
Definition fs_healthy {T} (w : world T) : Prop := ∀ p, fs_refuses w p = false.

(** Outside the process: write permission on [dir] is granted or revoked. *)
Definition chmod {T} (dir : string) (writable : bool) (w : world T) : world T :=
  World (files w) (fun d => if String.eqb d dir then writable else access_w w d)
        (fs_refuses w) (clock w) (tick w) (process_cwd w) (os_tmpdir w)
        (tmux w) (trace w).

(** Outside the process: somebody runs a tmux command on the same server. *)
Definition outside_tmux {T} `{Spawn T} (argv : list string) (w : world T) : world T :=
  World (files w) (access_w w) (fs_refuses w) (clock w) (tick w)
        (process_cwd w) (os_tmpdir w) (snd (spawnSync "tmux" argv (tmux w))) (trace w).

(** A run of the tmux binary that exits with status 0. *)
Definition succeeded (res : spawn_result) : bool :=
  match sr_status res, sr_error res with
  | Some 0, None => true
  | _, _ => false
  end.

(** The window identifiers the adapter reports live for a session: those
    of [listWindows] when [hasSession] holds, none otherwise. *)
Definition live_window_ids {T} `{Spawn T} (b : Tmux.TmuxBackend) (session : string)
    (w : world T) : list string :=
  match Tmux.hasSession b session w with
  | (Ok true, w1) =>
      match Tmux.listWindows b session w1 with
      | (Ok ws, _) => List.map Tmux.windowId ws
      | (Throw _, _) => []
      end
  | _ => []
  end.

(** JSON values: what [JSON.parse] can return. *)
Fixpoint is_json (v : jsval) : bool :=
  match v with
  | JUndefined | JNaN => false
  | JArr l => forallb is_json l
  | JObj kv => forallb (fun p => is_json (snd p)) kv
  | _ => true
  end.

(** Frames: what a method leaves as it was.  [same_env]: permissions, the
    refusals of the operating system, the clock and the process constants;
    [same_tmux]: the tmux server and the record of runs; [same_disk]: the
    files and the number of clock readings. *)
Definition same_env {T} (w w' : world T) : Prop :=
  access_w w' = access_w w /\ fs_refuses w' = fs_refuses w /\ clock w' = clock w
  /\ process_cwd w' = process_cwd w /\ os_tmpdir w' = os_tmpdir w.

Definition same_tmux {T} (w w' : world T) : Prop :=
  tmux w' = tmux w /\ trace w' = trace w.

Definition same_disk {T} (w w' : world T) : Prop :=
  files w' = files w /\ tick w' = tick w.

(** The record of tmux runs only grows. *)
Definition trace_grows {T} (w w' : world T) : Prop :=
  exists issued, trace w' = trace w ++ issued.

Definition preserves {T A} (R : world T -> world T -> Prop) (m : M T A) : Prop :=
  forall w, R w (snd (m w)).

(** The exceptions a method can raise. *)
Definition throws_only {T A} (P : error -> Prop) (m : M T A) : Prop :=
  forall w e w', m w = (Throw e, w') -> P e.

Definition is_backend_error (e : error) : Prop :=
  exists message status, e = BackendCommandError message status.

(** One run of the tmux binary by the adapter [b] with arguments [args]:
    what the binary reports, and the world afterwards. *)
Definition reply {T} `{Spawn T} (b : Tmux.TmuxBackend) (args : list string) (w : world T)
  : spawn_result :=
  fst (spawnSync (Tmux.tmuxBinary b) (Tmux._buildArgs b args) (tmux w)).

Definition ran {T} `{Spawn T} (b : Tmux.TmuxBackend) (args : list string) (w : world T)
  : world T :=
  set_tmux (snd (spawnSync (Tmux.tmuxBinary b) (Tmux._buildArgs b args) (tmux w)))
           (trace w ++ [Tmux._buildArgs b args]) w.

(** The argv of the tmux runs of the adapter methods. *)
Definition has_session_argv (b : Tmux.TmuxBackend) (session : string) : list string :=
  Tmux._buildArgs b ["has-session"; "-t"; session].



Definition send_keys_argv (b : Tmux.TmuxBackend) (target : string) (keys : list string)
  : list string :=
  Tmux._buildArgs b (["send-keys"; "-t"; target] ++ keys).

(** A relation between the worlds before and after that every change of
    the disk respects, and one that every run of tmux respects. *)
Class DiskFrame {T} (R : world T -> world T -> Prop) := {
  disk_files : forall w f, R w (set_files f w);
  disk_tick : forall w n, R w (set_tick n w);
}.

Class TmuxFrame {T} (R : world T -> world T -> Prop) :=
  tmux_run : forall w t argv, R w (set_tmux t (trace w ++ [argv]) w).

(** Induction on values, with the induction hypothesis for the elements of
    an array and the property values of an object. *)
Fixpoint jsval_nested_ind (P : jsval -> Prop)
    (Hu : P JUndefined) (Hn : P JNull) (Hb : forall b, P (JBool b))
    (Hz : forall z, P (JNum z)) (Hnan : P JNaN) (Hs : forall s, P (JStr s))
    (Ha : forall l, Forall P l -> P (JArr l))
    (Ho : forall kv, Forall (fun p => P (snd p)) kv -> P (JObj kv))
    (v : jsval) {struct v} : P v :=
  match v with
  | JUndefined => Hu
  | JNull => Hn
  | JBool b => Hb b
  | JNum z => Hz z
  | JNaN => Hnan
  | JStr s => Hs s
  | JArr l =>
      Ha l ((fix go (l : list jsval) : Forall P l :=
               match l with
               | [] => List.Forall_nil P
               | x :: r => @List.Forall_cons _ P x r
                             (jsval_nested_ind P Hu Hn Hb Hz Hnan Hs Ha Ho x) (go r)
               end) l)
  | JObj kv =>
      Ho kv ((fix go (kv : list (string * jsval)) : Forall (fun p => P (snd p)) kv :=
                match kv with
                | [] => List.Forall_nil _
                | p :: r => @List.Forall_cons _ _ p r
                              (jsval_nested_ind P Hu Hn Hb Hz Hnan Hs Ha Ho (snd p)) (go r)
                end) kv)
  end.

(** An object without repeated keys. *)
Fixpoint distinct_keys (kv : list (string * jsval)) : Prop :=
  match kv with
  | [] => True
  | (k, _) :: r => Val.lookup_prop k r = None /\ distinct_keys r
  end.

(** What [saveAgents] writes. *)
Definition saved_agents (project : jsval) (data : jsval) (now : string) : jsval :=
  Val.obj_lit [Val.spread data;
               [("project", JStr (Val.String_ project)); ("updatedAt", JStr now)]].

(** The project [list_agents(project)] lists: the given one, else the
    current one. *)
Definition listed_project {T} (r : Registry.AgentRegistry) (w : world T) (project : jsval)
  : outcome jsval :=
  if Val.truthy project
  then match Mux.assertSafeName "project" project with
       | Ok p => Ok (JStr p)
       | Throw e => Throw e
       end
  else if Val.truthy (pointer r w) then Ok (pointer r w) else Throw NoCurrentProject.

(** The command [spawn_agent] starts from: the override alone when
    [options.command] or [options.cmd] is given, the default of the type
    otherwise. *)
Definition base_command (agentType : string) (options : jsval) : outcome Mux.command :=
  let override := Val.or_else (Val.opt_get options "command") (Val.opt_get options "cmd") in
  if Val.truthy override
  then Ok {| Mux.program := Val.String_ override; Mux.args := [] |}
  else Mux.buildDefaultCommand agentType.

Definition agent_type_of (type : jsval) : string :=
  Js.trim (Val.String_ (Val.or_else type (JStr EmptyString))).

Definition new_window_argv (b : Tmux.TmuxBackend) (session name : string) (cwd : jsval)
    (command : list string) : list string :=
  Tmux._buildArgs b
    (["new-window"; "-d"; "-t"; session; "-n"; name; "-P"; "-F"; Tmux.WINDOW_FORMAT]
     ++ (if Val.truthy cwd then ["-c"; Val.String_ cwd] else [])
     ++ command).

(** No path is added to or removed from the disk. *)
Definition same_paths {T} (w w' : world T) : Prop :=
  forall q, is_Some (files w' !! q) <-> is_Some (files w !! q).



Fixpoint has_slash (s : string) : bool :=
  match s with
  | EmptyString => false
  | String c r => Ascii.eqb c "/" || has_slash r
  end.


Definition other_than_invalid_name (e : error) : Prop := is_invalid_name e = false.

(** *** Further notions

    Used by the properties beyond the design's own: how a shell reads a
    quoted word, what a tmux listing prints, what JSON gives back, and more
    frames. *)

(** How a POSIX shell reads a word that is a sequence of quoted pieces:
    between single quotes every character stands for itself; between double
    quotes every character but the double quote, the backslash, the dollar
    sign and the backquote does.  [None]: the word has an unquoted character,
    a quote left open, or a character of the four. *)
Inductive quoting := Unquoted | InSingle | InDouble.

Fixpoint sh_word (q : quoting) (s : string) : option string :=
  match s with
  | EmptyString => match q with Unquoted => Some EmptyString | _ => None end
  | String c r =>
      match q with
      | Unquoted =>
          if Ascii.eqb c (ascii_of_nat 39) then sh_word InSingle r
          else if Ascii.eqb c (ascii_of_nat 34) then sh_word InDouble r
          else None
      | InSingle =>
          if Ascii.eqb c (ascii_of_nat 39) then sh_word Unquoted r
          else String c <$> sh_word InSingle r
      | InDouble =>
          if Ascii.eqb c (ascii_of_nat 34) then sh_word Unquoted r
          else if Ascii.eqb c "\" || Ascii.eqb c "$" || Ascii.eqb c "`" then None
          else String c <$> sh_word InDouble r
      end
  end.

(** The string [s] has no character [sep]. *)
Definition lacks (sep : ascii) (s : string) : bool :=
  Mux.all_chars (fun c => negb (Ascii.eqb c sep)) s.






(** A name as the adapter's listings return it: not empty, no white space
    around it. *)
Definition listed_name (s : string) : Prop := s <> EmptyString /\ Js.trim s = s.

(** What a property value comes back as after [JSON.stringify] and
    [JSON.parse]: a property whose value is [undefined] is gone. *)
Definition reread (x : jsval) : jsval :=
  if Val.is_undefined x then JUndefined else Val.json_roundtrip x.

(** What [ensureProject] writes for a project it has not seen. *)
Definition new_project_meta (p : jsval) (meta : list (string * jsval))
    (createdAt updatedAt : string) : jsval :=
  Val.obj_lit [[("name", JStr (Val.String_ p));
                ("cwd", if Val.truthy (Val.opt_get (JObj meta) "cwd")
                        then JStr (Val.String_ (Val.opt_get (JObj meta) "cwd"))
                        else JNull);
                ("createdAt", JStr createdAt);
                ("updatedAt", JStr updatedAt)]].

(** The path [q] holds what it held, in the same environment. *)
Definition keeps_path {T} (q : string) (w w' : world T) : Prop :=
  same_env w w' /\ files w' !! q = files w !! q.

(** What is the same after an operation that only reads the disk: every
    file, the number of clock readings, and the environment. *)
Definition disk_untouched {T} (w w' : world T) : Prop := same_disk w w' /\ same_env w w'.

(** [m] is one run of tmux with [args], and the failure of the run is the
    exception of [m]; the message names the socket and the command. *)
Definition runs_once {T} `{Spawn T} (b : Tmux.TmuxBackend) (args : list string)
    (m : M T unit) : Prop :=
  forall w,
    (succeeded (reply b args w) = true /\ m w = (Ok tt, ran b args w))
    \/ (succeeded (reply b args w) = false
        /\ exists detail,
             m w = (Throw (BackendCommandError
                             ("[tmux -L " +:+ Tmux.socketName b +:+ "] "
                              +:+ Js.join " " args +:+ " failed: " +:+ detail)
                             (sr_status (reply b args w))),
                    ran b args w)).

(** Every tmux run between the two worlds was made on the adapter's own
    socket: its argv starts with [-L <socketName>]. *)
Definition on_socket {T} (b : Tmux.TmuxBackend) (w w' : world T) : Prop :=
  exists issued,
    trace w' = trace w ++ issued
    /\ Forall (fun argv => exists args, argv = "-L" :: Tmux.socketName b :: args) issued.

(** Several runs of tmux by the adapter, one after the other. *)
Definition ran_all {T} `{Spawn T} (b : Tmux.TmuxBackend) (runs : list (list string))
    (w : world T) : world T :=
  fold_left (fun w args => ran b args w) runs w.

Definition switch_client_args (session tty : string) : list string :=
  ["switch-client"; "-c"; tty; "-t"; session].

Definition switch_client_argv (b : Tmux.TmuxBackend) (session tty : string) : list string :=
  Tmux._buildArgs b (switch_client_args session tty).

Definition list_clients_argv (b : Tmux.TmuxBackend) : list string :=
  Tmux._buildArgs b ["list-clients"; "-F"; "#{client_tty}"].

Definition select_window_argv (b : Tmux.TmuxBackend) (target : string) : list string :=
  Tmux._buildArgs b ["select-window"; "-t"; target].

(** The terminals [listClients] reports in a world. *)
Definition attached_clients {T} `{Spawn T} (b : Tmux.TmuxBackend) (w : world T)
  : list string :=
  let res := reply b ["list-clients"; "-F"; "#{client_tty}"] w in
  if succeeded res then Tmux.nonempty_trimmed_lines (sr_stdout res) else [].


(** The log file of an agent. *)
Definition log_path {T} (r : Registry.AgentRegistry) (w : world T) (p : jsval)
    (agentName : string) : string :=
  path_join (path_join (project_dir r w p) Registry.LOGS_DIR) (agentName +:+ ".log").

(** What the registry reads is as before: the agent list of the project
    [p] and the current project, in the same environment. *)
Definition keeps_registration {T} (r : Registry.AgentRegistry) (p : jsval)
    (w w' : world T) : Prop :=
  same_env w w' /\ registered r w' p = registered r w p /\ pointer r w' = pointer r w.

(** The agent list of the project [q] is as before. *)
Definition keeps_agents {T} (r : Registry.AgentRegistry) (q : jsval)
    (w w' : world T) : Prop :=
  same_env w w' /\ registered r w' q = registered r w q.
End Spec.

(* ===================================================================== *)
(** ** Scenarios: concrete runs on MiniTmux *)
(* ===================================================================== *)

Module Scenario.
Import MiniTmux Spec.

Definition reg0 : Registry.AgentRegistry := Mux.registry mux.

(** [create_project("demo", "/tmp/x")] in a fresh process. *)
Definition w_demo : world state :=
  after (Mux.create_project mux (JStr "demo") (JStr "/tmp/x")) boot.

(** [spawn_agent("codex", "a1", {args: ["-x"]})] *)
Definition spawn_options : jsval := JObj [("args", JArr [JStr "-x"])].

Definition w_spawned : world state :=
  after (Mux.spawn_agent mux (JStr "codex") (JStr "a1") spawn_options) w_demo.

Definition spawned_entry : jsval :=
  match value (Mux.spawn_agent mux (JStr "codex") (JStr "a1") spawn_options) w_demo with
  | Ok entry => entry
  | Throw _ => JUndefined
  end.

(** Somebody kills the window of [a1] from a terminal. *)
Definition w_orphan : world state :=
  outside_tmux ["-L"; "ccx"; "kill-window"; "-t"; "@1"] w_spawned.

(** Two lines are typed into [a1]. *)
Definition w_typed : world state :=
  after (Mux.send_to_agent mux (JStr "a1") (JStr "two"))
    (after (Mux.send_to_agent mux (JStr "a1") (JStr "one")) w_spawned).

(** The pointer is set, then [/work/.ccx] loses its write permission. *)
Definition w_pointed : world state :=
  after (Registry.setCurrentProject reg0 (JStr "demo")) boot.
Definition w_readonly : world state := chmod "/work/.ccx" false w_pointed.

(** On ClientTmux: [create_project("demo")], [create_project("other")],
    then [spawn_agent("claude", "a1")] in [other]. *)
Definition c_demo : world ClientTmux.state :=
  ClientTmux.after (Mux.create_project mux (JStr "demo") JUndefined) ClientTmux.boot.

Definition c_other : world ClientTmux.state :=
  ClientTmux.after (Mux.spawn_agent mux (JStr "claude") (JStr "a1") JUndefined)
    (ClientTmux.after (Mux.create_project mux (JStr "other") JUndefined) c_demo).

End Scenario.

(* ===================================================================== *)
(** ** Theory *)
(* ===================================================================== *)

Local Open Scope js_scope.
Import Node Spec.

(** ** The monad *)

Lemma bind_ok {T A B} (m : M T A) (f : A -> M T B) w a w1 :
  m w = (Ok a, w1) -> bind m f w = f a w1.
Proof. intros E. unfold bind. now rewrite E. Qed.

Lemma bind_throw {T A B} (m : M T A) (f : A -> M T B) w e w1 :
  m w = (Throw e, w1) -> bind m f w = (Throw e, w1).
Proof. intros E. unfold bind. now rewrite E. Qed.

Lemma bind_inv {T A B} (m : M T A) (f : A -> M T B) w b w2 :
  bind m f w = (Ok b, w2) -> exists a w1, m w = (Ok a, w1) /\ f a w1 = (Ok b, w2).
Proof.
  unfold bind. destruct (m w) as [[a|e] w1]; intros E; [eauto | discriminate].
Qed.

Lemma bind_inv_throw {T A B} (m : M T A) (f : A -> M T B) w e w2 :
  bind m f w = (Throw e, w2) ->
  m w = (Throw e, w2) \/ exists a w1, m w = (Ok a, w1) /\ f a w1 = (Throw e, w2).
Proof.
  unfold bind. destruct (m w) as [[a|e'] w1]; intros E; [right; eauto | left; congruence].
Qed.

(** One step of a run that returned. *)
Ltac step H a w1 E := apply bind_inv in H as (a & w1 & E & H).


(** ** Frames *)

(** A frame that holds field by field. *)
Ltac by_fields := hnf; simpl; repeat split; reflexivity.

Section Frames.
Context {T : Type}.
Implicit Types (w : world T) (R : world T -> world T -> Prop).

#[export] Instance same_env_preorder : PreOrder (@same_env T).
Proof.
  split.
  - intros w. now repeat split.
  - intros a b c (?&?&?&?&?) (?&?&?&?&?). repeat split; congruence.
Qed.

#[export] Instance same_tmux_preorder : PreOrder (@same_tmux T).
Proof.
  split.
  - intros w. now split.
  - intros a b c [? ?] [? ?]. split; congruence.
Qed.

#[export] Instance same_disk_preorder : PreOrder (@same_disk T).
Proof.
  split.
  - intros w. now split.
  - intros a b c [? ?] [? ?]. split; congruence.
Qed.

#[export] Instance trace_grows_preorder : PreOrder (@trace_grows T).
Proof.
  split.
  - intros w. exists []. now rewrite app_nil_r.
  - intros a b c [i Hi] [j Hj]. exists (i ++ j). rewrite Hj, Hi. now rewrite app_assoc.
Qed.

#[export] Instance same_env_disk : DiskFrame (@same_env T).
Proof. split; intros; by_fields. Qed.
#[export] Instance same_tmux_disk : DiskFrame (@same_tmux T).
Proof. split; intros; by_fields. Qed.
#[export] Instance trace_grows_disk : DiskFrame (@trace_grows T).
Proof. split; intros; exists []; simpl; now rewrite app_nil_r. Qed.

#[export] Instance same_env_tmux : TmuxFrame (@same_env T).
Proof. intros w t argv. by_fields. Qed.
#[export] Instance same_disk_tmux : TmuxFrame (@same_disk T).
Proof. intros w t argv. by_fields. Qed.
#[export] Instance trace_grows_tmux : TmuxFrame (@trace_grows T).
Proof. intros w t argv. now exists [argv]. Qed.

Lemma preserves_ret R `{!PreOrder R} {A} (a : A) : preserves R (ret a).
Proof. intros w. simpl. reflexivity. Qed.

Lemma preserves_throw R `{!PreOrder R} {A} e : preserves R (@throw T A e).
Proof. intros w. simpl. reflexivity. Qed.

Lemma preserves_gets R `{!PreOrder R} {A} (f : world T -> A) : preserves R (gets f).
Proof. intros w. simpl. reflexivity. Qed.

Lemma preserves_lift R `{!PreOrder R} {A} (o : outcome A) : preserves R (@Mux.lift T A o).
Proof. intros w. simpl. reflexivity. Qed.

Lemma preserves_or_type_error R `{!PreOrder R} {A} what (o : option A) :
  preserves R (@or_type_error T A what o).
Proof. destruct o; [apply preserves_ret | apply preserves_throw]; assumption. Qed.

Lemma preserves_bind R `{!PreOrder R} {A B} (m : M T A) (f : A -> M T B) :
  preserves R m -> (forall a, preserves R (f a)) -> preserves R (bind m f).
Proof.
  intros Hm Hf w. unfold bind. specialize (Hm w).
  destruct (m w) as [[a|e] w1]; simpl in *; [|exact Hm].
  etransitivity; [exact Hm | apply Hf].
Qed.

Lemma preserves_try_catch R `{!PreOrder R} {A} (m h : M T A) :
  preserves R m -> preserves R h -> preserves R (try_catch m h).
Proof.
  intros Hm Hh w. unfold try_catch. specialize (Hm w).
  destruct (m w) as [[a|e] w1]; simpl in *; [exact Hm|].
  etransitivity; [exact Hm | apply Hh].
Qed.

(** A step that returned relates the two worlds. *)
Lemma preserves_run R {A} (m : M T A) w o w' : preserves R m -> m w = (o, w') -> R w w'.
Proof. intros Hm E. specialize (Hm w). now rewrite E in Hm. Qed.

Lemma throws_only_bind {A B} P (m : M T A) (f : A -> M T B) :
  throws_only P m -> (forall a, throws_only P (f a)) -> throws_only P (bind m f).
Proof.
  intros Hm Hf w e w' E. apply bind_inv_throw in E as [E | (a & w1 & _ & E)].
  - eapply Hm, E.
  - eapply Hf, E.
Qed.

End Frames.

Create HintDb frame discriminated.
#[export] Hint Resolve preserves_ret preserves_throw preserves_gets preserves_lift
  preserves_or_type_error : frame.

(** Walk through a method, one [bind] at a time. *)
Ltac frame_step :=
  first
    [ apply preserves_bind; [typeclasses eauto | | intros ?]
    | apply preserves_try_catch; [typeclasses eauto | | ]
    | match goal with
      | |- preserves _ (if ?b then _ else _) => destruct b
      | |- preserves _ (match ?x with _ => _ end) => destruct x
      end
    | solve [eauto with frame typeclass_instances] ].
Ltac frame := repeat frame_step.

Section Node_frames.
Context {T : Type} (R : world T -> world T -> Prop) `{!PreOrder R}.

Lemma node_mkdirSync p : preserves R (@mkdirSync T p).
Proof. unfold mkdirSync. frame. Qed.

Lemma node_existsSync p : preserves R (@existsSync T p).
Proof. unfold existsSync. frame. Qed.

Lemma node_accessSync d : preserves R (@accessSync_W T d).
Proof. unfold accessSync_W. frame. Qed.

Lemma node_read_and_parse p : preserves R (@read_and_parse T p).
Proof. unfold read_and_parse. frame. Qed.

Lemma node_path_resolve p : preserves R (@path_resolve T p).
Proof. unfold path_resolve. frame. Qed.

Context `{!DiskFrame R}.

Lemma node_writeFileSync p f : preserves R (@writeFileSync T p f).
Proof.
  intros w. unfold writeFileSync. destruct (fs_refuses w p); simpl;
    [reflexivity | apply disk_files].
Qed.

Lemma node_renameSync a b : preserves R (@renameSync T a b).
Proof.
  intros w. unfold renameSync.
  destruct (files w !! a); [destruct (fs_refuses w b)|]; simpl;
    try reflexivity; apply disk_files.
Qed.

Lemma node_unlinkSync p : preserves R (@unlinkSync T p).
Proof.
  intros w. unfold unlinkSync.
  destruct (files w !! p); [destruct (fs_refuses w p)|]; simpl;
    try reflexivity; apply disk_files.
Qed.

Lemma node_open_append_close p : preserves R (@open_append_close T p).
Proof.
  intros w. unfold open_append_close.
  destruct (fs_refuses w p); [|destruct (files w !! p)]; simpl;
    try reflexivity; apply disk_files.
Qed.

Lemma node_Date : preserves R (@Date_now_iso T).
Proof. intros w. simpl. apply disk_tick. Qed.

End Node_frames.

#[export] Hint Resolve node_mkdirSync node_existsSync node_accessSync node_read_and_parse
  node_path_resolve node_writeFileSync node_renameSync node_unlinkSync
  node_open_append_close node_Date : frame.

Section Registry_frames.
Context {T : Type} (R : world T -> world T -> Prop) `{!PreOrder R}.
Implicit Types (r : Registry.AgentRegistry).

Lemma reg_canWrite d : preserves R (@Registry.canWrite T d).
Proof. unfold Registry.canWrite. frame. Qed.
#[local] Hint Resolve reg_canWrite : frame.

Lemma reg_getProjectsDir r : preserves R (@Registry._getProjectsDir T r).
Proof. unfold Registry._getProjectsDir. frame. Qed.
#[local] Hint Resolve reg_getProjectsDir : frame.

Lemma reg_getProjectDir r p : preserves R (@Registry.getProjectDir T r p).
Proof. unfold Registry.getProjectDir. frame. Qed.
#[local] Hint Resolve reg_getProjectDir : frame.

Lemma reg_getProjectMetaPath r p : preserves R (@Registry.getProjectMetaPath T r p).
Proof. unfold Registry.getProjectMetaPath. frame. Qed.

Lemma reg_getAgentsPath r p : preserves R (@Registry.getAgentsPath T r p).
Proof. unfold Registry.getAgentsPath. frame. Qed.

Lemma reg_getLogsDir r p : preserves R (@Registry.getLogsDir T r p).
Proof. unfold Registry.getLogsDir. frame. Qed.
#[local] Hint Resolve reg_getProjectMetaPath reg_getAgentsPath reg_getLogsDir : frame.

Lemma reg_getAgentLogPath r p a : preserves R (@Registry.getAgentLogPath T r p a).
Proof. unfold Registry.getAgentLogPath. frame. Qed.

Lemma reg_currentProjectPath r : preserves R (@Registry.currentProjectPath T r).
Proof. unfold Registry.currentProjectPath. frame. Qed.

Lemma reg_readJson p fb : preserves R (@Registry.readJson T p fb).
Proof. unfold Registry.readJson. frame. Qed.
#[local] Hint Resolve reg_getAgentLogPath reg_currentProjectPath reg_readJson : frame.

Lemma reg_loadAgents r p : preserves R (@Registry.loadAgents T r p).
Proof. unfold Registry.loadAgents. frame. Qed.

Lemma reg_loadProjectMeta r p : preserves R (@Registry.loadProjectMeta T r p).
Proof. unfold Registry.loadProjectMeta. frame. Qed.

Lemma reg_getCurrentProject r : preserves R (@Registry.getCurrentProject T r).
Proof. unfold Registry.getCurrentProject. frame. Qed.

Context `{!DiskFrame R}.

Lemma reg_writeJsonAtomic p d : preserves R (@Registry.writeJsonAtomic T p d).
Proof. unfold Registry.writeJsonAtomic. frame. Qed.
#[local] Hint Resolve reg_writeJsonAtomic : frame.

Lemma reg_ensureProject r p meta : preserves R (@Registry.ensureProject T r p meta).
Proof. unfold Registry.ensureProject. frame. Qed.

Lemma reg_saveAgents r p d : preserves R (@Registry.saveAgents T r p d).
Proof. unfold Registry.saveAgents. frame. Qed.

Lemma reg_setCurrentProject r p : preserves R (@Registry.setCurrentProject T r p).
Proof. unfold Registry.setCurrentProject. frame. Qed.

Lemma reg_clearCurrentProject r : preserves R (@Registry.clearCurrentProject T r).
Proof. unfold Registry.clearCurrentProject. frame. Qed.

Lemma reg_constructor root : preserves R (@Registry.constructor T root).
Proof. unfold Registry.constructor, Registry._ensureBaseDirs. frame. Qed.

End Registry_frames.

#[export] Hint Resolve reg_canWrite reg_getProjectsDir reg_getProjectDir
  reg_getProjectMetaPath reg_getAgentsPath reg_getLogsDir reg_getAgentLogPath
  reg_currentProjectPath reg_readJson reg_loadAgents reg_loadProjectMeta
  reg_getCurrentProject reg_writeJsonAtomic reg_ensureProject reg_saveAgents
  reg_setCurrentProject reg_clearCurrentProject reg_constructor : frame.

Section Tmux_frames.
Context {T : Type} `{Spawn T} (R : world T -> world T -> Prop) `{!PreOrder R, !TmuxFrame R}.
Implicit Types (b : Tmux.TmuxBackend).

Lemma tmux_runRaw b args : preserves R (Tmux.runRaw b args).
Proof.
  intros w. unfold Tmux.runRaw. destruct (spawnSync _ _ _) as [res t'].
  destruct (sr_error res); simpl; apply tmux_run.
Qed.
#[local] Hint Resolve tmux_runRaw : frame.

Lemma tmux_exec b args : preserves R (Tmux.exec b args).
Proof. unfold Tmux.exec. frame. Qed.
#[local] Hint Resolve tmux_exec : frame.

Lemma tmux_hasSession b n : preserves R (Tmux.hasSession b n).
Proof. unfold Tmux.hasSession. frame. Qed.
#[local] Hint Resolve tmux_hasSession : frame.

Lemma tmux_createSession b n cwd : preserves R (Tmux.createSession b n cwd).
Proof. unfold Tmux.createSession. frame. Qed.

Lemma tmux_killSession b n : preserves R (Tmux.killSession b n).
Proof. unfold Tmux.killSession. frame. Qed.

Lemma tmux_createWindow b s n cwd c a : preserves R (Tmux.createWindow b s n cwd c a).
Proof. unfold Tmux.createWindow. frame. Qed.

Lemma tmux_listWindows b s : preserves R (Tmux.listWindows b s).
Proof. unfold Tmux.listWindows. frame. Qed.

Lemma tmux_killWindow b t : preserves R (Tmux.killWindow b t).
Proof. unfold Tmux.killWindow. frame. Qed.

Lemma tmux_getWindowFirstPaneId b t : preserves R (Tmux.getWindowFirstPaneId b t).
Proof. unfold Tmux.getWindowFirstPaneId. frame. Qed.

Lemma tmux_setWindowOption b t k v : preserves R (Tmux.setWindowOption b t k v).
Proof. unfold Tmux.setWindowOption. frame. Qed.

Lemma tmux_pipePane b t c o : preserves R (Tmux.pipePane b t c o).
Proof. unfold Tmux.pipePane. frame. Qed.

Lemma tmux_sendKeys b t k : preserves R (Tmux.sendKeys b t k).
Proof. unfold Tmux.sendKeys. frame. Qed.

Lemma tmux_capturePane b t h : preserves R (Tmux.capturePane b t h).
Proof. unfold Tmux.capturePane. frame. Qed.

End Tmux_frames.

#[export] Hint Resolve tmux_runRaw tmux_exec tmux_hasSession tmux_createSession
  tmux_killSession tmux_createWindow tmux_listWindows tmux_killWindow
  tmux_getWindowFirstPaneId tmux_setWindowOption tmux_pipePane tmux_sendKeys
  tmux_capturePane : frame.

Section Registry_facts.
Context {T : Type}.
Implicit Types (w : world T) (r : Registry.AgentRegistry).

Lemma canWrite_eq dir w : Registry.canWrite dir w = (Ok (access_w w dir), w).
Proof.
  cbv [Registry.canWrite try_catch bind accessSync_W gets ret throw].
  destruct (access_w w dir); reflexivity.
Qed.

Lemma getProjectsDir_eq r w : Registry._getProjectsDir r w = (Ok (chosen_root r w), w).
Proof.
  unfold Registry._getProjectsDir. rewrite (bind_ok _ _ _ _ _ (canWrite_eq _ _)).
  unfold chosen_root. destruct (access_w w _); reflexivity.
Qed.

Lemma getProjectDir_eq r p w : Registry.getProjectDir r p w = (Ok (project_dir r w p), w).
Proof.
  unfold Registry.getProjectDir. now rewrite (bind_ok _ _ _ _ _ (getProjectsDir_eq _ _)).
Qed.

Lemma getProjectMetaPath_eq r p w :
  Registry.getProjectMetaPath r p w = (Ok (meta_path r w p), w).
Proof.
  unfold Registry.getProjectMetaPath. now rewrite (bind_ok _ _ _ _ _ (getProjectDir_eq _ _ _)).
Qed.

Lemma getAgentsPath_eq r p w :
  Registry.getAgentsPath r p w = (Ok (agents_path r w p), w).
Proof.
  unfold Registry.getAgentsPath. now rewrite (bind_ok _ _ _ _ _ (getProjectDir_eq _ _ _)).
Qed.

Lemma getLogsDir_eq r p w :
  Registry.getLogsDir r p w = (Ok (path_join (project_dir r w p) Registry.LOGS_DIR), w).
Proof.
  unfold Registry.getLogsDir. now rewrite (bind_ok _ _ _ _ _ (getProjectDir_eq _ _ _)).
Qed.

Lemma currentProjectPath_eq r w :
  Registry.currentProjectPath r w = (Ok (current_path r w), w).
Proof.
  unfold Registry.currentProjectPath. now rewrite (bind_ok _ _ _ _ _ (getProjectsDir_eq _ _)).
Qed.

Lemma readJson_eq p fallback w :
  Registry.readJson p fallback w = (Ok (read_json w p fallback), w).
Proof.
  cbv [Registry.readJson read_json try_catch bind existsSync read_and_parse
    gets ret throw].
  destruct (files w !! p) as [[v|s]|] eqn:E; simpl; rewrite ?E; reflexivity.
Qed.

Lemma loadAgents_eq r p w : Registry.loadAgents r p w = (Ok (agents_data r w p), w).
Proof.
  unfold Registry.loadAgents. rewrite (bind_ok _ _ _ _ _ (getAgentsPath_eq _ _ _)).
  apply readJson_eq.
Qed.

Lemma loadProjectMeta_eq r p w :
  Registry.loadProjectMeta r p w = (Ok (read_json w (meta_path r w p) JNull), w).
Proof.
  unfold Registry.loadProjectMeta. rewrite (bind_ok _ _ _ _ _ (getProjectMetaPath_eq _ _ _)).
  apply readJson_eq.
Qed.

Lemma getCurrentProject_eq r w : Registry.getCurrentProject r w = (Ok (pointer r w), w).
Proof.
  unfold Registry.getCurrentProject.
  rewrite (bind_ok _ _ _ _ _ (currentProjectPath_eq _ _)).
  now rewrite (bind_ok _ _ _ _ _ (readJson_eq _ _ _)).
Qed.

Lemma mkdirSync_ok p w : fs_refuses w p = false -> mkdirSync p w = (Ok tt, w).
Proof. intros E. cbv [mkdirSync bind gets]. now rewrite E. Qed.

Lemma writeJsonAtomic_ok p data w :
  fs_healthy w ->
  Registry.writeJsonAtomic p data w
  = (Ok tt, set_files (<[p := FJson data]> (delete (p +:+ ".tmp") (files w))) w).
Proof.
  intros Hh. unfold Registry.writeJsonAtomic.
  rewrite (bind_ok _ _ _ _ _ (mkdirSync_ok _ _ (Hh _))).
  cbv [bind writeFileSync renameSync]. rewrite (Hh (p +:+ ".tmp")). simpl.
  rewrite lookup_insert_eq. rewrite (Hh p). simpl.
  unfold set_files; simpl. rewrite delete_insert_eq. reflexivity.
Qed.

End Registry_facts.

Section Tmux_facts.
Context {T : Type} `{Spawn T}.
Implicit Types (b : Tmux.TmuxBackend) (w : world T).

Lemma runRaw_world b args w : snd (Tmux.runRaw b args w) = ran b args w.
Proof.
  unfold Tmux.runRaw, ran.
  destruct (spawnSync _ _ _) as [res t']. simpl. destruct (sr_error res); reflexivity.
Qed.

Lemma runRaw_ok b args w :
  exists r, Tmux.runRaw b args w = (Ok r, ran b args w)
            /\ Tmux.ok r = succeeded (reply b args w)
            /\ Tmux.stdout r = sr_stdout (reply b args w).
Proof.
  unfold Tmux.runRaw, ran, reply, succeeded.
  destruct (spawnSync _ _ _) as [res t']. simpl.
  destruct (sr_error res); eexists; (split; [reflexivity|]); simpl; split;
    try reflexivity; now destruct (sr_status res) as [[| |]|].
Qed.

Lemma exec_succeeds b args w :
  succeeded (reply b args w) = true ->
  Tmux.exec b args w = (Ok (sr_stdout (reply b args w)), ran b args w).
Proof.
  intros S. destruct (runRaw_ok b args w) as (r & E & Hok & Hout).
  unfold Tmux.exec. rewrite (bind_ok _ _ _ _ _ E). rewrite Hok, S, Hout. reflexivity.
Qed.

Lemma exec_fails b args w :
  succeeded (reply b args w) = false ->
  exists message status,
    Tmux.exec b args w = (Throw (BackendCommandError message status), ran b args w).
Proof.
  intros S. destruct (runRaw_ok b args w) as (r & E & Hok & Hout).
  unfold Tmux.exec. rewrite (bind_ok _ _ _ _ _ E). rewrite Hok, S.
  eexists _, _. reflexivity.
Qed.

Lemma exec_cases b args w :
  (succeeded (reply b args w) = true
   /\ Tmux.exec b args w = (Ok (sr_stdout (reply b args w)), ran b args w))
  \/ (succeeded (reply b args w) = false
      /\ exists message status,
          Tmux.exec b args w = (Throw (BackendCommandError message status), ran b args w)).
Proof.
  destruct (succeeded (reply b args w)) eqn:S.
  - left. split; [reflexivity | now apply exec_succeeds].
  - right. split; [reflexivity | now apply exec_fails].
Qed.

Lemma hasSession_eq b name w :
  Tmux.hasSession b name w
  = (Ok (succeeded (reply b ["has-session"; "-t"; name] w)),
     ran b ["has-session"; "-t"; name] w).
Proof.
  destruct (runRaw_ok b ["has-session"; "-t"; name] w) as (r & E & Hok & _).
  unfold Tmux.hasSession. rewrite (bind_ok _ _ _ _ _ E). unfold ret. now rewrite Hok.
Qed.

(** Frames of the adapter. *)
Lemma ran_env b args w : same_env w (ran b args w).
Proof. by_fields. Qed.
Lemma ran_disk b args w : same_disk w (ran b args w).
Proof. by_fields. Qed.
Lemma ran_trace b args w : trace (ran b args w) = trace w ++ [Tmux._buildArgs b args].
Proof. reflexivity. Qed.

Lemma exec_throws_backend b args : throws_only is_backend_error (Tmux.exec b args).
Proof.
  intros w e w' E. destruct (exec_cases b args w) as [[_ E']|[_ (msg & st & E')]];
    rewrite E' in E; inversion E; subst. now exists msg, st.
Qed.

End Tmux_facts.


(** ** Objects and JSON *)

Lemma roundtrip_is_json v : is_json (Val.json_roundtrip v) = true.
Proof.
  induction v using jsval_nested_ind; simpl; try reflexivity.
  - induction H as [|x r Hx _ IH]; simpl; [reflexivity|]. now rewrite Hx, IH.
  - induction H as [|[k x] r Hx _ IH]; simpl in *; [reflexivity|].
    destruct (Val.is_undefined x); simpl; [exact IH|]. now rewrite Hx, IH.
Qed.

Lemma json_not_undefined v : is_json v = true -> Val.is_undefined v = false.
Proof. now destruct v. Qed.

Lemma roundtrip_json v : is_json v = true -> Val.json_roundtrip v = v.
Proof.
  induction v using jsval_nested_ind; simpl; try reflexivity; try discriminate.
  - intros J. f_equal. induction H as [|x r Hx _ IH]; simpl in *; [reflexivity|].
    apply andb_true_iff in J as [Jx Jr]. now rewrite Hx, IH.
  - intros J. f_equal. induction H as [|[k x] r Hx _ IH]; simpl in *; [reflexivity|].
    apply andb_true_iff in J as [Jx Jr].
    rewrite (json_not_undefined _ Jx). simpl. now rewrite Hx, IH.
Qed.

Lemma roundtrip_idempotent v :
  Val.json_roundtrip (Val.json_roundtrip v) = Val.json_roundtrip v.
Proof. apply roundtrip_json, roundtrip_is_json. Qed.

Lemma is_json_lookup k kv x :
  is_json (JObj kv) = true -> Val.lookup_prop k kv = Some x -> is_json x = true.
Proof.
  simpl. induction kv as [|[k' v] r IH]; simpl; [discriminate|].
  intros J. apply andb_true_iff in J as [Jv Jr].
  destruct (String.eqb k' k); [intros [= <-]; exact Jv | now apply IH].
Qed.

Lemma is_json_elements l : is_json (JArr l) = true -> Forall (fun x => is_json x = true) l.
Proof.
  simpl. induction l as [|x r IH]; simpl; intros J; constructor;
    apply andb_true_iff in J as [Jx Jr]; auto.
Qed.

Lemma is_json_agent_list data l :
  is_json data = true -> agent_list data = Some l -> Forall (fun x => is_json x = true) l.
Proof.
  unfold agent_list, Val.get, Val.opt_get. intros J E.
  destruct data; simpl in E; try discriminate; try (injection E as <-; constructor).
  destruct (Val.lookup_prop "agents" kv) as [x|] eqn:L; simpl in E.
  - pose proof (is_json_lookup _ _ _ J L) as Jx.
    destruct x; simpl in E; try discriminate; try (injection E as <-; constructor).
    + destruct b; simpl in E; [discriminate | injection E as <-; constructor].
    + destruct (negb (z =? 0)); simpl in E; [discriminate | injection E as <-; constructor].
    + destruct (negb (String.eqb s "")); simpl in E;
        [discriminate | injection E as <-; constructor].
    + injection E as <-. now apply is_json_elements.
  - injection E as <-. constructor.
Qed.

(** Property assignment. *)
Lemma lookup_set_prop_eq k v kv : Val.lookup_prop k (Val.set_prop k v kv) = Some v.
Proof.
  induction kv as [|[k' v'] r IH]; simpl.
  - now rewrite String.eqb_refl.
  - destruct (String.eqb k' k) eqn:E; simpl.
    + now rewrite String.eqb_refl.
    + now rewrite E.
Qed.

Lemma lookup_set_prop_ne k k' v kv :
  k <> k' -> Val.lookup_prop k (Val.set_prop k' v kv) = Val.lookup_prop k kv.
Proof.
  intros Hne. induction kv as [|[k'' v'] r IH]; simpl.
  - destruct (String.eqb k' k) eqn:E; [apply String.eqb_eq in E; congruence | reflexivity].
  - destruct (String.eqb k'' k') eqn:E; simpl.
    + apply String.eqb_eq in E. subst k''.
      destruct (String.eqb k' k) eqn:E2; [apply String.eqb_eq in E2; congruence | reflexivity].
    + now rewrite IH.
Qed.

Lemma set_prop_fresh k v kv :
  Val.lookup_prop k kv = None -> Val.set_prop k v kv = kv ++ [(k, v)].
Proof.
  induction kv as [|[k' v'] r IH]; simpl; [reflexivity|].
  destruct (String.eqb k' k); [discriminate|]. intros E. now rewrite IH.
Qed.

Lemma lookup_prop_app k a b :
  Val.lookup_prop k (a ++ b)
  = match Val.lookup_prop k a with Some v => Some v | None => Val.lookup_prop k b end.
Proof.
  induction a as [|[k' v'] r IH]; simpl; [reflexivity|].
  now destruct (String.eqb k' k).
Qed.

Lemma set_props_distinct new acc :
  (forall k, is_Some (Val.lookup_prop k acc) -> Val.lookup_prop k new = None) ->
  distinct_keys new ->
  Val.set_props new acc = acc ++ new.
Proof.
  unfold Val.set_props. revert acc.
  induction new as [|[k v] r IH]; intros acc Hacc Hd; simpl.
  - now rewrite app_nil_r.
  - destruct Hd as [Hk Hd]. rewrite set_prop_fresh.
    + rewrite IH; [now rewrite <- app_assoc | | exact Hd].
      intros k' Hs. rewrite lookup_prop_app in Hs.
      destruct (Val.lookup_prop k' acc) eqn:E.
      * specialize (Hacc k' (ex_intro _ _ E)). simpl in Hacc.
        now destruct (String.eqb k k').
      * simpl in Hs. destruct (String.eqb k k') eqn:E2; [|destruct Hs; discriminate].
        apply String.eqb_eq in E2. now subst.
    + destruct (Val.lookup_prop k acc) eqn:E; [|reflexivity].
      specialize (Hacc k (ex_intro _ _ E)). simpl in Hacc.
      now rewrite String.eqb_refl in Hacc.
Qed.

Lemma set_props_nil_distinct kv : distinct_keys kv -> Val.set_props kv [] = kv.
Proof.
  intros Hd. rewrite set_props_distinct; [reflexivity | | exact Hd].
  intros k [x Hx]. discriminate.
Qed.

Lemma lookup_set_prop k k' v kv :
  Val.lookup_prop k (Val.set_prop k' v kv)
  = if String.eqb k' k then Some v else Val.lookup_prop k kv.
Proof.
  destruct (String.eqb k' k) eqn:E.
  - apply String.eqb_eq in E. subst. apply lookup_set_prop_eq.
  - apply lookup_set_prop_ne. intros ->. now rewrite String.eqb_refl in E.
Qed.

Lemma set_prop_distinct k v kv : distinct_keys kv -> distinct_keys (Val.set_prop k v kv).
Proof.
  induction kv as [|[k' v'] r IH]; simpl; [auto|].
  intros [Hk Hd]. destruct (String.eqb k' k) eqn:E; simpl.
  - apply String.eqb_eq in E. subst. auto.
  - split; [|auto]. rewrite lookup_set_prop. rewrite String.eqb_sym, E. exact Hk.
Qed.

Lemma set_props_keeps_distinct new acc :
  distinct_keys acc -> distinct_keys (Val.set_props new acc).
Proof.
  unfold Val.set_props. revert acc. induction new as [|[k v] r IH]; intros acc Hd; simpl.
  - exact Hd.
  - apply IH. now apply set_prop_distinct.
Qed.

(** The parser keeps the first property of a name when that property has a
    value. *)
Lemma lookup_roundtrip k kv x :
  Val.lookup_prop k kv = Some x -> Val.is_undefined x = false ->
  Val.opt_get (Val.json_roundtrip (JObj kv)) k = Val.json_roundtrip x.
Proof.
  unfold Val.opt_get. simpl. induction kv as [|[k' v] r IH]; simpl; [discriminate|].
  destruct (String.eqb k' k) eqn:E.
  - intros [= ->] U. rewrite U. simpl. now rewrite E.
  - intros L U. destruct (Val.is_undefined v); simpl; [now apply IH|].
    rewrite E. now apply IH.
Qed.

(** ** Name validation *)

Lemma name_regex_is_grammar s : Mux.name_regex_test s = name_grammar s.
Proof.
  destruct s as [|c r]; [reflexivity|].
  unfold Mux.name_regex_test, name_grammar. simpl String.length.
  reflexivity.
Qed.

Lemma trim_length_zero s : String.length s = 0%nat -> s = EmptyString.
Proof. destruct s; [reflexivity | discriminate]. Qed.

Lemma assertSafeName_raises_iff (kind s : string) :
  ((exists why, Mux.assertSafeName kind (JStr s) = Throw (InvalidName kind why (JStr s)))
     <-> name_grammar (Js.trim s) = false)
  /\ (Mux.assertSafeName kind (JStr s) = Ok (Js.trim s) <-> name_grammar (Js.trim s) = true)
  /\ (forall r, Mux.assertSafeName kind (JStr s) = r ->
        r = Ok (Js.trim s)
        \/ exists why, r = Throw (InvalidName kind why (JStr s))).
Proof.
  unfold Mux.assertSafeName. rewrite name_regex_is_grammar.
  destruct (Nat.eqb (String.length (Js.trim s)) 0) eqn:E0.
  - apply Nat.eqb_eq, trim_length_zero in E0. rewrite E0. simpl.
    repeat split; intros; try discriminate; eauto;
      try (destruct H as [? H]; discriminate).
  - destruct (name_grammar (Js.trim s)) eqn:G; simpl;
      repeat split; intros; try discriminate; eauto;
      try (destruct H as [? H]; discriminate).
Qed.

Lemma same_env_root {T} (r : Registry.AgentRegistry) (w w' : world T) :
  same_env w w' -> chosen_root r w' = chosen_root r w.
Proof. intros (Ha & _). unfold chosen_root. now rewrite Ha. Qed.

(** C2 (as amended).  The storage root is selected by every registry call,
    not once at construction: [_getProjectsDir] answers the primary root when
    [.ccx] is writable in the world of the call and the fallback root
    otherwise, and every path the registry reads or writes lies under that
    answer.  Two worlds that agree on the writability of [.ccx] select the
    same root, and no registry operation changes the selection.  The
    constructor tests no permission: the object it builds does not depend on
    what is writable. *)
Theorem storage_root_chosen_per_call {T} (r : Registry.AgentRegistry) (w : world T) :
  Registry._getProjectsDir r w
  = (Ok (if access_w w (Registry.ccxDir r)
         then Registry.projectsDir r else Registry.fallbackProjectsDir r), w)
  /\ (forall p,
        Registry.getProjectDir r p w = (Ok (path_join (chosen_root r w) (Val.String_ p)), w)
        /\ Registry.getProjectMetaPath r p w = (Ok (meta_path r w p), w)
        /\ Registry.getAgentsPath r p w = (Ok (agents_path r w p), w)
        /\ Registry.currentProjectPath r w = (Ok (current_path r w), w))
  /\ (forall w2 : world T,
        access_w w2 (Registry.ccxDir r) = access_w w (Registry.ccxDir r) ->
        chosen_root r w2 = chosen_root r w)
  /\ (forall p meta data,
        chosen_root r (snd (Registry.ensureProject r p meta w)) = chosen_root r w
        /\ chosen_root r (snd (Registry.saveAgents r p data w)) = chosen_root r w
        /\ chosen_root r (snd (Registry.setCurrentProject r p w)) = chosen_root r w
        /\ chosen_root r (snd (Registry.clearCurrentProject r w)) = chosen_root r w
        /\ chosen_root r (snd (Registry.loadAgents r p w)) = chosen_root r w
        /\ chosen_root r (snd (Registry.getCurrentProject r w)) = chosen_root r w)
  /\ (forall root dir writable,
        fst (Registry.constructor root (chmod dir writable w))
        = fst (Registry.constructor root w)).
Proof.
  split; [apply getProjectsDir_eq|].
  split.
  { intros p. repeat split.
    - apply getProjectDir_eq.
    - apply getProjectMetaPath_eq.
    - apply getAgentsPath_eq.
    - apply currentProjectPath_eq. }
  split.
  { intros w2 E. unfold chosen_root. now rewrite E. }
  split.
  { intros p meta data. repeat split; apply same_env_root.
    - apply (reg_ensureProject same_env).
    - apply (reg_saveAgents same_env).
    - apply (reg_setCurrentProject same_env).
    - apply (reg_clearCurrentProject same_env).
    - apply (reg_loadAgents same_env).
    - apply (reg_getCurrentProject same_env). }
  intros root dir writable.
  cbv [Registry.constructor Registry._ensureBaseDirs bind gets ret try_catch mkdirSync
       throw chmod process_cwd os_tmpdir fs_refuses].
  destruct w as [f a refuses c t cwd tmp tm tr]. cbn.
  repeat match goal with
         | |- context [if refuses ?p then _ else _] => destruct (refuses p)
         end; reflexivity.
Qed.


Section Send.
Context {T : Type} `{Spawn T}.

Lemma requireCurrentProject_eq (m : Mux.AgentMux) (w : world T) :
  Mux._requireCurrentProject m w
  = (if Val.truthy (pointer (Mux.registry m) w)
     then Ok (pointer (Mux.registry m) w) else Throw NoCurrentProject, w).
Proof.
  unfold Mux._requireCurrentProject.
  rewrite (bind_ok _ _ _ _ _ (getCurrentProject_eq _ _)).
  destruct (Val.truthy _); reflexivity.
Qed.

Lemma sendKeys_cases b target keys (w : world T) :
  (Tmux.sendKeys b target keys w = (Ok tt, ran b (["send-keys"; "-t"; target] ++ keys) w))
  \/ (exists message status,
        Tmux.sendKeys b target keys w
        = (Throw (BackendCommandError message status),
           ran b (["send-keys"; "-t"; target] ++ keys) w)).
Proof.
  unfold Tmux.sendKeys.
  destruct (exec_cases b (["send-keys"; "-t"; target] ++ keys) w)
    as [[_ E]|[_ (msg & st & E)]].
  - left. now rewrite (bind_ok _ _ _ _ _ E).
  - right. exists msg, st. now rewrite (bind_throw _ _ _ _ _ E).
Qed.

(** C10.  [send_to_window] validates no name and looks nothing up in the
    registry: for every window value and every text it either returns,
    having run [send-keys -t <project>:<window> -l <text>] and then
    [send-keys -t <project>:<window> Enter] and nothing else, or it raises
    [NoCurrentProject] (no pointer, no tmux run) or the error of one of these
    two tmux runs; it never raises [InvalidName] or [AgentNotFound], and it
    leaves the disk as it was. *)
Theorem send_to_window_raises_only (m : Mux.AgentMux) (windowName text : jsval)
    (w : world T) :
  let project := pointer (Mux.registry m) w in
  let target := Val.String_ project +:+ ":" +:+ Val.String_ windowName in
  let typed := send_keys_argv (Mux.tmux m) target ["-l"; Mux.payload_of text] in
  let enter := send_keys_argv (Mux.tmux m) target ["Enter"] in
  match Mux.send_to_window m windowName text w with
  | (Ok res, w') =>
      Val.truthy project = true
      /\ trace w' = trace w ++ [typed; enter]
      /\ Val.opt_get res "window" = windowName
      /\ files w' = files w
  | (Throw e, w') =>
      ((e = NoCurrentProject /\ Val.truthy project = false /\ trace w' = trace w)
       \/ (is_backend_error e /\ Val.truthy project = true
           /\ (trace w' = trace w ++ [typed] \/ trace w' = trace w ++ [typed; enter])))
      /\ is_invalid_name e = false
      /\ (forall agent p, e <> AgentNotFound agent p)
      /\ files w' = files w
  end.
Proof.
  intros project target typed enter.
  unfold Mux.send_to_window. unfold bind at 1. rewrite requireCurrentProject_eq.
  fold project. destruct (Val.truthy project) eqn:Tr.
  2:{ split; [left; auto |]. repeat split. discriminate. }
  fold target.
  destruct (sendKeys_cases (Mux.tmux m) target ["-l"; Mux.payload_of text] w)
    as [E1 | (msg & st & E1)].
  2:{ rewrite (bind_throw _ _ _ _ _ E1). split; [|repeat split; discriminate].
      right. split; [now exists msg, st|]. split; [reflexivity|]. left. reflexivity. }
  rewrite (bind_ok _ _ _ _ _ E1).
  set (w1 := ran _ _ w) in *.
  destruct (sendKeys_cases (Mux.tmux m) target ["Enter"] w1)
    as [E2 | (msg & st & E2)].
  2:{ rewrite (bind_throw _ _ _ _ _ E2). split; [|repeat split; discriminate].
      right. split; [now exists msg, st|]. split; [reflexivity|]. right.
      subst w1. rewrite !ran_trace. now rewrite <- app_assoc. }
  rewrite (bind_ok _ _ _ _ _ E2). unfold ret.
  repeat split.
  subst w1. rewrite !ran_trace. now rewrite <- app_assoc.
Qed.

End Send.

Section Agents.
Context {T : Type} `{Spawn T}.
Implicit Types (w : world T) (r : Registry.AgentRegistry).

Lemma agents_of_eq data l w :
  agent_list data = Some l -> Mux.agents_of data w = (Ok l, w).
Proof.
  unfold agent_list, Mux.agents_of. intros E.
  destruct (Val.get data "agents") as [f|]; simpl in E; [|discriminate].
  simpl. unfold bind, or_type_error, ret. simpl. now rewrite E.
Qed.

Lemma agents_of_inv data l w w' :
  Mux.agents_of data w = (Ok l, w') -> agent_list data = Some l /\ w' = w.
Proof.
  unfold agent_list, Mux.agents_of. intros E.
  destruct (Val.get data "agents") as [f|]; simpl in *; [|discriminate].
  cbv [bind or_type_error ret throw] in E.
  destruct (Val.as_array f); inversion E; auto.
Qed.

Lemma find_named n l :
  existsb (Mux.named n) l = true -> exists a, List.find (Mux.named n) l = Some a.
Proof.
  induction l as [|x r IH]; simpl; [discriminate|].
  destruct (Mux.named n x); [eauto | exact IH].
Qed.

Lemma fs_healthy_env w w' : same_env w w' -> fs_healthy w -> fs_healthy w'.
Proof. intros (_ & E & _) Hh p. rewrite E. apply Hh. Qed.

Lemma agents_path_env r w w' p : same_env w w' -> agents_path r w' p = agents_path r w p.
Proof. intros E. unfold agents_path, project_dir. now rewrite (same_env_root r _ _ E). Qed.

Lemma current_path_env r w w' : same_env w w' -> current_path r w' = current_path r w.
Proof. intros E. unfold current_path. now rewrite (same_env_root r _ _ E). Qed.

Lemma meta_path_env r w w' p : same_env w w' -> meta_path r w' p = meta_path r w p.
Proof. intros E. unfold meta_path, project_dir. now rewrite (same_env_root r _ _ E). Qed.

Lemma saveAgents_ok r p data w :
  fs_healthy w ->
  Registry.saveAgents r p data w
  = (Ok tt,
     set_files (<[agents_path r w p := FJson (saved_agents p data (clock w (tick w)))]>
                  (delete (agents_path r w p +:+ ".tmp") (files w)))
               (set_tick (S (tick w)) w)).
Proof.
  intros Hh. unfold Registry.saveAgents.
  rewrite (bind_ok _ _ _ _ _ (getAgentsPath_eq _ _ _)).
  unfold bind at 1. unfold Date_now_iso.
  rewrite writeJsonAtomic_ok by (intros q; apply Hh). reflexivity.
Qed.

Lemma map_roundtrip_json l :
  Forall (fun x => is_json x = true) l -> List.map Val.json_roundtrip l = l.
Proof.
  induction 1 as [|x t Hx _ IH]; simpl; [reflexivity|].
  now rewrite (roundtrip_json _ Hx), IH.
Qed.

(** The agent list of an object literal that assigns [agents]. *)
Lemma agent_list_saved p data l now :
  Forall (fun x => is_json x = true) l ->
  agent_list (Val.json_roundtrip
                (saved_agents p (Val.obj_lit [Val.spread data; [("agents", JArr l)]]) now))
  = Some l.
Proof.
  intros Hl. unfold saved_agents, Val.obj_lit. simpl fold_left.
  set (kv1 := Val.set_prop "agents" (JArr l) (Val.set_props (Val.spread data) [])).
  assert (D1 : distinct_keys kv1).
  { apply set_prop_distinct, set_props_keeps_distinct. exact I. }
  rewrite (set_props_nil_distinct kv1 D1).
  set (kv2 := Val.set_prop "updatedAt" _ _).
  assert (L : Val.lookup_prop "agents" kv2 = Some (JArr l)).
  { subst kv2 kv1. rewrite !lookup_set_prop. reflexivity. }
  unfold agent_list, Val.get. simpl Val.json_roundtrip at 1. cbv beta iota.
  change (JObj (flat_map _ kv2)) with (Val.json_roundtrip (JObj kv2)).
  rewrite (lookup_roundtrip _ _ _ L eq_refl). simpl.
  now rewrite (map_roundtrip_json _ Hl).
Qed.

Lemma agents_data_is_json r w p l :
  registered r w p = Some l -> l <> [] -> is_json (agents_data r w p) = true.
Proof.
  unfold registered, agents_data, read_json. intros E Hne.
  destruct (files w !! agents_path r w p) as [[v|s]|]; try apply roundtrip_is_json;
    simpl in E; injection E as <-; congruence.
Qed.

End Agents.

Section Kill.
Context {T : Type} `{Spawn T}.
Implicit Types (w : world T) (r : Registry.AgentRegistry).

Lemma loadAgent_found (m : Mux.AgentMux) project agentName agents w :
  registered (Mux.registry m) w project = Some agents ->
  existsb (Mux.named agentName) agents = true ->
  exists agent,
    List.find (Mux.named agentName) agents = Some agent
    /\ Mux._loadAgent m project agentName w
       = (Ok (agents_data (Mux.registry m) w project, agent), w).
Proof.
  intros R E. destruct (find_named _ _ E) as [agent F]. exists agent. split; [exact F|].
  unfold Mux._loadAgent. rewrite (bind_ok _ _ _ _ _ (loadAgents_eq _ _ _)).
  rewrite (bind_ok _ _ _ _ _ (agents_of_eq _ _ _ R)). now rewrite F.
Qed.

Lemma killWindow_swallowed b target w :
  try_catch (Tmux.killWindow b target) (ret tt) w
  = (Ok tt, ran b ["kill-window"; "-t"; target] w).
Proof.
  unfold try_catch, Tmux.killWindow.
  destruct (exec_cases b ["kill-window"; "-t"; target] w) as [[_ E]|[_ (msg & st & E)]].
  - now rewrite (bind_ok _ _ _ _ _ E).
  - now rewrite (bind_throw _ _ _ _ _ E).
Qed.

Lemma filter_named_gone n l :
  existsb (Mux.named n) (List.filter (fun a => negb (Mux.named n a)) l) = false.
Proof.
  induction l as [|x t IH]; simpl; [reflexivity|].
  destruct (Mux.named n x) eqn:E; simpl; [exact IH|]. now rewrite E.
Qed.

Lemma Forall_filter_json (f : jsval -> bool) l :
  Forall (fun x => is_json x = true) l ->
  Forall (fun x => is_json x = true) (List.filter f l).
Proof.
  induction 1 as [|x t Hx _ IH]; simpl; [constructor|].
  destruct (f x); [constructor|]; assumption.
Qed.

(** C5.  [kill_agent] on a registered agent of the current project, on a
    disk that takes writes: whatever the tmux server answers to [kill-window]
    (no hypothesis is made about it), the call returns
    [{project, agent, killed: true}], the registry's agent list afterwards is
    the old list without the entries of that name, no entry of that name is
    left, and [agents.json] holds the new list; [kill-window] is the only tmux
    run. *)
Theorem kill_agent_unconditional (m : Mux.AgentMux) (name : jsval) (w : world T)
    (agentName : string) (agents : list jsval) :
  let r := Mux.registry m in
  let project := pointer r w in
  Val.truthy project = true ->
  Mux.assertSafeName "agent" name = Ok agentName ->
  registered r w project = Some agents ->
  existsb (Mux.named agentName) agents = true ->
  fs_healthy w ->
  exists w' agent,
    Mux.kill_agent m name w
    = (Ok (Val.obj_lit [[("project", project); ("agent", JStr agentName);
                         ("killed", JBool true)]]), w')
    /\ List.find (Mux.named agentName) agents = Some agent
    /\ registered r w' project
       = Some (List.filter (fun a => negb (Mux.named agentName a)) agents)
    /\ (forall left_over, registered r w' project = Some left_over ->
          existsb (Mux.named agentName) left_over = false)
    /\ trace w' = trace w ++ [Tmux._buildArgs (Mux.tmux m)
                                ["kill-window"; "-t"; Mux.window_target project agent]]
    /\ files w' !! agents_path r w project
       = Some (FJson (saved_agents project
                        (Val.obj_lit
                           [Val.spread (agents_data r w project);
                            [("agents",
                              JArr (List.filter (fun a => negb (Mux.named agentName a))
                                                agents))]])
                        (clock w (tick w)))).
Proof.
  intros r project Tr Hname Hreg Hex Hh.
  destruct (loadAgent_found m project agentName agents w Hreg Hex) as (agent & F & L).
  set (w1 := ran (Mux.tmux m) ["kill-window"; "-t"; Mux.window_target project agent] w).
  assert (E1 : same_env w w1) by apply ran_env.
  assert (D1 : same_disk w w1) by apply ran_disk.
  assert (Hh1 : fs_healthy w1) by (eapply fs_healthy_env; eauto).
  set (next := List.filter (fun a => negb (Mux.named agentName a)) agents).
  set (data := agents_data r w project) in *.
  set (saved := saved_agents project (Val.obj_lit [Val.spread data; [("agents", JArr next)]])
                  (clock w (tick w))).
  set (w' := set_files (<[agents_path r w project := FJson saved]>
                          (delete (agents_path r w project +:+ ".tmp") (files w)))
                       (set_tick (S (tick w)) w1)).
  assert (Run : Mux.kill_agent m name w
                = (Ok (Val.obj_lit [[("project", project); ("agent", JStr agentName);
                                     ("killed", JBool true)]]), w')).
  { unfold Mux.kill_agent. unfold bind at 1. rewrite requireCurrentProject_eq.
    fold r project. rewrite Tr.
    unfold bind at 1. unfold Mux.lift. rewrite Hname.
    rewrite (bind_ok _ _ _ _ _ L). cbn [fst snd].
    rewrite (bind_ok _ _ _ _ _ (killWindow_swallowed _ _ _)). fold w1.
    rewrite (bind_ok _ _ _ _ _ (agents_of_eq _ _ _ Hreg)).
    rewrite (bind_ok _ _ _ _ _ (saveAgents_ok _ _ _ _ Hh1)).
    reflexivity. }
  assert (P' : agents_path r w' project = agents_path r w project) by reflexivity.
  assert (R' : registered r w' project = Some next).
  { unfold registered, agents_data, read_json. rewrite P'.
    subst w'. cbn [files set_files]. rewrite lookup_insert_eq.
    apply agent_list_saved. apply Forall_filter_json.
    eapply is_json_agent_list; [|exact Hreg].
    eapply agents_data_is_json; [exact Hreg|].
    intros ->. discriminate. }
  exists w', agent. split; [exact Run|]. split; [exact F|]. split; [exact R'|].
  split.
  { intros left_over E. rewrite R' in E. injection E as <-. apply filter_named_gone. }
  split; [reflexivity|].
  subst w'. cbn [files set_files]. now rewrite lookup_insert_eq.
Qed.

End Kill.

(** ** Paths *)

Lemma append_cons (x : ascii) (a b : string) : String x a +:+ b = String x (a +:+ b).
Proof. reflexivity. Qed.

Lemma append_inj_l (a b c : string) : a +:+ b = a +:+ c -> b = c.
Proof. apply String.app_inj. Qed.

Lemma append_assoc (a b c : string) : (a +:+ b) +:+ c = a +:+ (b +:+ c).
Proof.
  induction a as [|x a IH]; [reflexivity|]. rewrite !append_cons. now rewrite IH.
Qed.

Lemma append_length (a b : string) :
  String.length (a +:+ b) = (String.length a + String.length b)%nat.
Proof.
  induction a as [|x a IH]; [reflexivity|]. rewrite append_cons. simpl. now rewrite IH.
Qed.

Lemma tmp_differs (p : string) : p +:+ ".tmp" <> p.
Proof.
  intros E. apply (f_equal String.length) in E. rewrite append_length in E. simpl in E. lia.
Qed.

Lemma path_join_inj_r d a b : path_join d a = path_join d b -> a = b.
Proof. unfold path_join. intros E. now apply append_inj_l, append_inj_l in E. Qed.

(** Normal form of a path under a directory: [d +:+ suffix]. *)
Lemma path_join_tmp d a : path_join d a +:+ ".tmp" = path_join d (a +:+ ".tmp").
Proof. unfold path_join. now rewrite !append_assoc. Qed.

Section Ensure.
Context {T : Type}.
Implicit Types (w : world T) (r : Registry.AgentRegistry).

Lemma agents_not_meta r w p :
  agents_path r w p <> meta_path r w p
  /\ agents_path r w p <> meta_path r w p +:+ ".tmp".
Proof.
  unfold agents_path, meta_path. split; intros E.
  - apply path_join_inj_r in E. discriminate.
  - rewrite path_join_tmp in E. apply path_join_inj_r in E. discriminate.
Qed.

Lemma existsSync_eq p w :
  existsSync p w = (Ok (bool_decide (is_Some (files w !! p))), w).
Proof. reflexivity. Qed.



Lemma registered_frame r w w' p :
  same_env w w' ->
  files w' !! agents_path r w p = files w !! agents_path r w p ->
  registered r w' p = registered r w p.
Proof.
  intros E F. unfold registered, agents_data, read_json.
  now rewrite (agents_path_env r w w' p E), F.
Qed.

End Ensure.

Section Spawn_duplicate.
Context {T : Type} `{Spawn T}.
Implicit Types (w : world T).



End Spawn_duplicate.


Section Close.
Context {T : Type} `{Spawn T}.
Implicit Types (w : world T) (r : Registry.AgentRegistry).


Lemma pointer_frame r w w' :
  same_env w w' -> files w' !! current_path r w = files w !! current_path r w ->
  pointer r w' = pointer r w.
Proof.
  intros E F. unfold pointer, read_json. now rewrite (current_path_env r w w' E), F.
Qed.

Lemma pointer_file r w :
  Val.truthy (pointer r w) = true -> is_Some (files w !! current_path r w).
Proof.
  unfold pointer, read_json. destruct (files w !! current_path r w) as [[v|s]|]; eauto;
    simpl; discriminate.
Qed.





End Close.

Section List.
Context {T : Type} `{Spawn T}.
Implicit Types (w : world T) (r : Registry.AgentRegistry).

Lemma listWindows_total b session w :
  exists ws, Tmux.listWindows b session w
             = (Ok ws, ran b ["list-windows"; "-t"; session; "-F"; Tmux.WINDOW_FORMAT] w).
Proof.
  unfold Tmux.listWindows.
  destruct (runRaw_ok b ["list-windows"; "-t"; session; "-F"; Tmux.WINDOW_FORMAT] w)
    as (raw & E & _ & _).
  rewrite (bind_ok _ _ _ _ _ E). destruct (Tmux.ok raw); eexists; reflexivity.
Qed.

Lemma alive_flag live a :
  (if Val.truthy (Val.opt_get a "windowId")
   then Mux.has_window live (Val.opt_get a "windowId") else false) = true
  <-> exists id, Val.opt_get a "windowId" = JStr id /\ id <> EmptyString /\ id ∈ live.
Proof.
  destruct (Val.opt_get a "windowId") as [| |b|z| |s|l|kv] eqn:E; simpl;
    try (split; [discriminate | intros (id & [=] & _)]);
    try (split; [destruct b; discriminate | intros (id & [=] & _)]);
    try (split; [destruct (negb (z =? 0)); discriminate | intros (id & [=] & _)]).
  destruct (String.eqb s EmptyString) eqn:Es; simpl.
  - apply String.eqb_eq in Es. subst s. split; [discriminate|].
    intros (id & [= <-] & Hne & _). contradiction.
  - apply String.eqb_neq in Es. rewrite bool_decide_eq_true.
    split; [eauto|]. now intros (id & [= <-] & _ & Hin).
Qed.

Lemma annotate_alive live a :
  Val.opt_get (Mux.annotate live a) "alive"
  = JBool (if Val.truthy (Val.opt_get a "windowId")
           then Mux.has_window live (Val.opt_get a "windowId") else false).
Proof.
  unfold Mux.annotate, Val.obj_lit, Val.opt_get at 1. simpl fold_left.
  now rewrite lookup_set_prop_eq.
Qed.

(** C3.  [list_agents] for the given or current project returns one entry
    per stored entry, in order, each the stored entry with [alive] set, and
    [alive] is [true] exactly when the entry's recorded [windowId] is a
    non-empty string in the live window list of the project's session (empty
    when the session does not exist); where the live list holds no empty
    identifier, as with tmux's [@n] identifiers, that is exactly when the
    recorded [windowId] is in the live list.  The flag is computed from the
    [windowId] and the live list alone, replaces any [alive] property a
    stored entry may carry, and the disk is left as it was. *)
Theorem list_agents_alive (m : Mux.AgentMux) (project proj : jsval) (w : world T)
    (stored : list jsval) :
  let r := Mux.registry m in
  let live := live_window_ids (Mux.tmux m) (Val.String_ proj) w in
  listed_project r w project = Ok proj ->
  registered r w proj = Some stored ->
  exists w' annotated,
    Mux.list_agents m project w
    = (Ok (Val.obj_lit [[("project", proj); ("agents", JArr annotated)]]), w')
    /\ files w' = files w
    /\ length annotated = length stored
    /\ forall i a, stored !! i = Some a ->
         exists entry alive,
           annotated !! i = Some entry
           /\ entry = Val.obj_lit [Val.spread a; [("alive", JBool alive)]]
           /\ Val.opt_get entry "alive" = JBool alive
           /\ (alive = true
               <-> exists id, Val.opt_get a "windowId" = JStr id
                              /\ id <> EmptyString /\ id ∈ live)
           /\ (EmptyString ∉ live ->
               (alive = true <-> exists id, Val.opt_get a "windowId" = JStr id /\ id ∈ live)).
Proof.
  intros r live Hproj Hreg.
  set (b := Mux.tmux m) in *. set (s := Val.String_ proj) in *.
  set (w1 := ran b ["has-session"; "-t"; s] w).
  destruct (listWindows_total b s w1) as (ws & Lw).
  set (w2 := ran b _ w1) in Lw.
  set (has := succeeded (reply b ["has-session"; "-t"; s] w)).
  assert (Elive : live = if has then List.map Tmux.windowId ws else []).
  { subst live. unfold live_window_ids. rewrite hasSession_eq. fold w1 has.
    destruct has; [|reflexivity]. now rewrite Lw. }
  exists (if has then w2 else w1), (List.map (Mux.annotate live) stored).
  split.
  { unfold Mux.list_agents.
    assert (First : (if Val.truthy project
                     then bind (Mux.lift (Mux.assertSafeName "project" project))
                               (fun p => ret (JStr p))
                     else Mux._requireCurrentProject m) w = (Ok proj, w)).
    { unfold listed_project in Hproj. destruct (Val.truthy project).
      - unfold bind, Mux.lift, ret.
        destruct (Mux.assertSafeName "project" project); now inversion Hproj.
      - rewrite requireCurrentProject_eq. fold r.
        destruct (Val.truthy (pointer r w)); now inversion Hproj. }
    rewrite (bind_ok _ _ _ _ _ First).
    rewrite (bind_ok _ _ _ _ _ (loadAgents_eq _ _ _)).
    rewrite (bind_ok _ _ _ _ _ (hasSession_eq _ _ _)). fold b s has w1.
    rewrite Elive. destruct has.
    - rewrite (bind_ok _ _ _ _ _ (bind_ok _ _ _ _ _ Lw)). unfold ret at 1.
      now rewrite (bind_ok _ _ _ _ _ (agents_of_eq _ _ _ Hreg)).
    - unfold bind at 1. unfold ret at 1.
      now rewrite (bind_ok _ _ _ _ _ (agents_of_eq _ _ _ Hreg)). }
  split; [now destruct has|].
  split; [apply length_map|].
  intros i a Hi.
  exists (Mux.annotate live a),
         (if Val.truthy (Val.opt_get a "windowId")
          then Mux.has_window live (Val.opt_get a "windowId") else false).
  split; [now rewrite list_lookup_fmap, Hi|].
  split; [reflexivity|].
  split; [apply annotate_alive|].
  split; [apply alive_flag|].
  intros Hlive. rewrite alive_flag. split.
  - intros (id & E & _ & Hin). eauto.
  - intros (id & E & Hin). exists id. repeat split; auto. now intros ->.
Qed.

End List.

Section Spawn_steps.
Context {T : Type} `{Spawn T}.
Implicit Types (w : world T).

Lemma resolve_command_merge agentType options cmd l :
  Mux.resolve_command agentType options = Ok cmd ->
  Val.opt_get options "args" = JArr l ->
  exists base,
    base_command agentType options = Ok base
    /\ Mux.program cmd = Mux.program base
    /\ Mux.args cmd = Mux.args base ++ List.map Val.String_ l.
Proof.
  unfold Mux.resolve_command, base_command. intros E A. rewrite A in E.
  destruct (if Val.truthy _ then _ else _) as [base|e]; [|discriminate].
  injection E as <-. exists base. auto.
Qed.

Lemma exec_inv b args w out w' :
  Tmux.exec b args w = (Ok out, w') -> w' = ran b args w.
Proof.
  intros E. destruct (exec_cases b args w) as [[_ E']|[_ (msg & st & E')]];
    rewrite E' in E; now inversion E.
Qed.

Lemma createWindow_inv b session name cwd command commandArgs w win w' :
  Tmux.createWindow b session name cwd command commandArgs w = (Ok win, w') ->
  trace w' = trace w ++ [new_window_argv b session name cwd
                           (if negb (String.eqb command EmptyString)
                            then command :: commandArgs else [])].
Proof.
  unfold Tmux.createWindow. intros E. apply bind_inv in E as (out & w1 & E & R).
  apply exec_inv in E. inversion R; subst. reflexivity.
Qed.

Lemma lift_inv {A} (o : outcome A) w a w' :
  Mux.lift o w = (Ok a, w') -> o = Ok a /\ w' = w.
Proof. unfold Mux.lift. now intros [= -> ->]. Qed.

End Spawn_steps.

Section Spawn_args.
Context {T : Type} `{Spawn T}.
Implicit Types (w : world T).


(** C1.  Argument merge of [spawn_agent]: when [options.args] is an array
    and the call returns, the command recorded in the entry, and started by
    the [new-window] run, is the program of the base command followed by the
    base command's own arguments and then the given arguments, each as a
    string.  The base command is the default of the type with its default
    arguments, or, with [options.command] or [options.cmd], the override
    program (it has no arguments of its own). *)
Theorem spawn_agent_args_appended (m : Mux.AgentMux) (type name options : jsval)
    (extra : list jsval) (w w' : world T) (entry : jsval) :
  Val.opt_get options "args" = JArr extra ->
  Mux.spawn_agent m type name options w = (Ok entry, w') ->
  exists base cwd agentName,
    base_command (agent_type_of type) options = Ok base
    /\ Val.opt_get entry "command"
       = Mux.command_value
           {| Mux.program := Mux.program base;
              Mux.args := Mux.args base ++ List.map Val.String_ extra |}
    /\ Mux.assertSafeName "agent" name = Ok agentName
    /\ exists later,
         trace w'
         = trace w
           ++ has_session_argv (Mux.tmux m) (Val.String_ (pointer (Mux.registry m) w))
           :: new_window_argv (Mux.tmux m) (Val.String_ (pointer (Mux.registry m) w))
                agentName cwd
                (if negb (String.eqb (Mux.program base) EmptyString)
                 then Mux.program base :: Mux.args base ++ List.map Val.String_ extra
                 else [])
           :: later.
Proof.
  intros Hargs Run. unfold Mux.spawn_agent in Run.
  step Run project w1 E1. step Run agentName w2 E2.
  apply lift_inv in E2 as [Hname ->].
  destruct (negb (bool_decide _)) eqn:Hty in Run; [discriminate Run|].
  step Run has w3 E3.
  destruct (negb has) in Run; [discriminate Run|].
  step Run u4 w4 E4. step Run agentsData w5 E5. step Run existing w6 E6.
  destruct (existsb _ existing) in Run; [discriminate Run|].
  step Run projectMeta w7 E7. step Run pcwd w8 E8. step Run agentCwd w9 E9.
  step Run cmd w10 E10. apply lift_inv in E10 as [Hcmd ->].
  step Run win w11 E11.
  destruct (resolve_command_merge _ _ _ _ Hcmd Hargs) as (base & Hbase & Hp & Ha).
  assert (Grows : trace_grows w11 w').
  { match type of Run with ?k _ = _ =>
      assert (K : preserves trace_grows k) by frame end.
    eapply preserves_run; [exact K | exact Run]. }
  assert (Entry : Val.opt_get entry "command" = Mux.command_value cmd).
  { step Run u12 w12 E12. step Run u13 w13 E13. step Run paneId w14 E14.
    step Run logPath w15 E15. step Run u16 w16 E16. step Run u17 w17 E17.
    step Run u18 w18 E18. step Run createdAt w19 E19. step Run u20 w20 E20.
    inversion Run; subst. reflexivity. }
  assert (Hproj : project = pointer (Mux.registry m) w /\ w1 = w).
  { rewrite requireCurrentProject_eq in E1.
    destruct (Val.truthy _); inversion E1; auto. }
  destruct Hproj as [-> ->].
  assert (Trace9 : trace w9 = trace w ++ [has_session_argv (Mux.tmux m)
                                            (Val.String_ (pointer (Mux.registry m) w))]).
  { rewrite hasSession_eq in E3. inversion E3; subst.
    assert (S4 : same_tmux (ran (Mux.tmux m)
                   ["has-session"; "-t"; Val.String_ (pointer (Mux.registry m) w)] w) w9).
    { transitivity w4; [eapply preserves_run; [|exact E4]; apply reg_ensureProject;
                        typeclasses eauto|].
      rewrite loadAgents_eq in E5. inversion E5; subst.
      apply agents_of_inv in E6 as [_ ->].
      rewrite loadProjectMeta_eq in E7. inversion E7; subst.
      inversion E8; subst.
      eapply preserves_run; [|exact E9].
      unfold Mux.resolve_or. frame. }
    destruct S4 as [_ ->]. reflexivity. }
  exists base, agentCwd, agentName. split; [exact Hbase|]. split.
  { rewrite Entry. destruct cmd as [p a]. simpl in *. now subst. }
  split; [exact Hname|].
  apply createWindow_inv in E11. destruct Grows as [post Hpost].
  exists post. rewrite Hpost, E11, Trace9. rewrite <- Hp, <- Ha.
  now rewrite <- !app_assoc.
Qed.

End Spawn_args.

Lemma has_slash_app a b : has_slash (a +:+ b) = has_slash a || has_slash b.
Proof.
  induction a as [|x a IH]; [reflexivity|]. rewrite append_cons. simpl.
  now rewrite IH, orb_assoc.
Qed.

Lemma under_project_ne root p s t :
  has_slash t = false -> path_join (path_join root p) s <> path_join root t.
Proof.
  unfold path_join. intros Ht E. rewrite !append_assoc in E.
  apply append_inj_l, append_inj_l in E.
  apply (f_equal has_slash) in E. rewrite Ht in E.
  rewrite !has_slash_app in E. simpl in E. now rewrite orb_true_r in E.
Qed.

Section Create.
Context {T : Type} `{Spawn T}.
Implicit Types (w : world T) (r : Registry.AgentRegistry).

Lemma same_paths_refl w : same_paths w w.
Proof. intros q. reflexivity. Qed.



(** The paths [ensureProject] and [setCurrentProject] write are distinct. *)
Lemma registry_paths_distinct r w p :
  let mp := meta_path r w p in
  let ap := agents_path r w p in
  let cp := current_path r w in
  ap <> mp /\ ap <> mp +:+ ".tmp" /\ ap +:+ ".tmp" <> mp /\ ap +:+ ".tmp" <> mp +:+ ".tmp"
  /\ cp <> mp /\ cp <> mp +:+ ".tmp" /\ cp <> ap /\ cp <> ap +:+ ".tmp"
  /\ cp +:+ ".tmp" <> mp /\ cp +:+ ".tmp" <> mp +:+ ".tmp" /\ cp +:+ ".tmp" <> ap
  /\ cp +:+ ".tmp" <> ap +:+ ".tmp".
Proof.
  intros mp ap cp. subst mp ap cp. unfold meta_path, agents_path, current_path, project_dir.
  rewrite !path_join_tmp.
  repeat split;
    try (intros E; apply path_join_inj_r in E; discriminate E);
    try (intros E; symmetry in E; revert E; now apply under_project_ne).
Qed.


End Create.

Section Create_project.
Context {T : Type} `{Spawn T}.
Implicit Types (w : world T) (r : Registry.AgentRegistry).







End Create_project.

Section Create_twice.
Context {T : Type} `{Spawn T}.
Implicit Types (w : world T) (r : Registry.AgentRegistry).


End Create_twice.

Section Idempotence.
Context {T : Type} `{Spawn T}.
Implicit Types (w : world T) (r : Registry.AgentRegistry).



End Idempotence.

(** ** Which exceptions a method can raise *)

Section Throws.
Context {T : Type}.

Lemma throws_only_ret {A} P (a : A) : throws_only P (@ret T A a).
Proof. intros w e w' E. discriminate. Qed.

Lemma throws_only_gets {A} P (f : world T -> A) : throws_only P (gets f).
Proof. intros w e w' E. discriminate. Qed.

Lemma throws_only_throw {A} (P : error -> Prop) e : P e -> throws_only P (@throw T A e).
Proof. intros HP w e' w' E. inversion E; subst. exact HP. Qed.

Lemma throws_only_try_catch {A} P (m h : M T A) :
  throws_only P h -> throws_only P (try_catch m h).
Proof.
  intros Hh w e w' E. unfold try_catch in E.
  destruct (m w) as [[a|e'] w1]; [discriminate | eapply Hh, E].
Qed.

Lemma throws_only_or_type_error {A} what (o : option A) :
  throws_only other_than_invalid_name (@or_type_error T A what o).
Proof. destruct o; [apply throws_only_ret | now apply throws_only_throw]. Qed.

End Throws.

Create HintDb throws discriminated.
#[export] Hint Resolve throws_only_ret throws_only_gets throws_only_or_type_error : throws.

Ltac throws_step :=
  first
    [ apply throws_only_bind; [ | intros ?]
    | apply throws_only_try_catch
    | apply throws_only_throw; reflexivity
    | match goal with
      | |- throws_only _ (if ?b then _ else _) => destruct b
      | |- throws_only _ (match ?x with _ => _ end) => destruct x
      end
    | solve [eauto with throws] ].
Ltac throws := repeat throws_step.

(** A primitive given as a function of the world. *)
Ltac primitive_throws :=
  let E := fresh "E" in
  intros ? ? ? E; hnf;
  repeat match type of E with
         | context [match ?x with _ => _ end] => destruct x
         | context [if ?x then _ else _] => destruct x
         end;
  inversion E; subst; reflexivity.

Section Throws_ops.
Context {T : Type} `{Spawn T}.

Implicit Types (r : Registry.AgentRegistry) (b : Tmux.TmuxBackend).

Lemma thr_mkdirSync p : throws_only other_than_invalid_name (@mkdirSync T p).
Proof. unfold mkdirSync. throws. Qed.
Lemma thr_writeFileSync p f : throws_only other_than_invalid_name (@writeFileSync T p f).
Proof. unfold writeFileSync. primitive_throws. Qed.
Lemma thr_renameSync a c : throws_only other_than_invalid_name (@renameSync T a c).
Proof. unfold renameSync. primitive_throws. Qed.
Lemma thr_Date : throws_only other_than_invalid_name (@Date_now_iso T).
Proof. intros w e w' E. discriminate. Qed.
Lemma thr_existsSync p : throws_only other_than_invalid_name (@existsSync T p).
Proof. unfold existsSync. throws. Qed.
Lemma thr_path_resolve p : throws_only other_than_invalid_name (@path_resolve T p).
Proof. unfold path_resolve. throws. Qed.
#[local] Hint Resolve thr_mkdirSync thr_writeFileSync thr_renameSync thr_Date thr_existsSync
  thr_path_resolve : throws.

Lemma thr_readJson p fb : throws_only other_than_invalid_name (@Registry.readJson T p fb).
Proof. unfold Registry.readJson. throws. Qed.
Lemma thr_writeJsonAtomic p d : throws_only other_than_invalid_name (@Registry.writeJsonAtomic T p d).
Proof. unfold Registry.writeJsonAtomic. throws. Qed.
Lemma thr_getProjectsDir r : throws_only other_than_invalid_name (@Registry._getProjectsDir T r).
Proof. unfold Registry._getProjectsDir, Registry.canWrite. throws. Qed.
#[local] Hint Resolve thr_readJson thr_writeJsonAtomic thr_getProjectsDir : throws.

Lemma thr_getProjectDir r p : throws_only other_than_invalid_name (@Registry.getProjectDir T r p).
Proof. unfold Registry.getProjectDir. throws. Qed.
#[local] Hint Resolve thr_getProjectDir : throws.

Lemma thr_ensureProject r p meta : throws_only other_than_invalid_name (@Registry.ensureProject T r p meta).
Proof.
  unfold Registry.ensureProject, Registry.getLogsDir, Registry.getProjectMetaPath,
    Registry.getAgentsPath. throws.
Qed.

Lemma thr_setCurrentProject r p : throws_only other_than_invalid_name (@Registry.setCurrentProject T r p).
Proof. unfold Registry.setCurrentProject, Registry.currentProjectPath. throws. Qed.

Lemma thr_getCurrentProject r : throws_only other_than_invalid_name (@Registry.getCurrentProject T r).
Proof. unfold Registry.getCurrentProject, Registry.currentProjectPath. throws. Qed.

Lemma thr_clearCurrentProject r : throws_only other_than_invalid_name (@Registry.clearCurrentProject T r).
Proof. unfold Registry.clearCurrentProject, Registry.currentProjectPath. throws. Qed.

Lemma thr_runRaw b args : throws_only other_than_invalid_name (Tmux.runRaw b args).
Proof.
  intros w e w' E. destruct (runRaw_ok b args w) as (r & E' & _). congruence.
Qed.
#[local] Hint Resolve thr_runRaw : throws.

Lemma thr_exec b args : throws_only other_than_invalid_name (Tmux.exec b args).
Proof. unfold Tmux.exec. throws. Qed.
#[local] Hint Resolve thr_exec : throws.

Lemma thr_createSession b n c : throws_only other_than_invalid_name (Tmux.createSession b n c).
Proof. unfold Tmux.createSession, Tmux.hasSession. throws. Qed.

Lemma thr_hasSession b n : throws_only other_than_invalid_name (Tmux.hasSession b n).
Proof. unfold Tmux.hasSession. throws. Qed.

Lemma thr_killSession b n : throws_only other_than_invalid_name (Tmux.killSession b n).
Proof. unfold Tmux.killSession. throws. Qed.

End Throws_ops.

#[export] Hint Resolve thr_mkdirSync thr_writeFileSync thr_renameSync thr_Date
  thr_existsSync thr_path_resolve thr_readJson thr_writeJsonAtomic thr_getProjectsDir
  thr_getProjectDir thr_ensureProject thr_setCurrentProject thr_getCurrentProject
  thr_clearCurrentProject thr_runRaw thr_exec thr_createSession thr_hasSession
  thr_killSession : throws.

Section Name_validation.
Context {T : Type} `{Spawn T}.

(** An operation that validates a name first raises [InvalidName] exactly
    when the validation does. *)
Lemma validated_first {A} (kind : string) (name : jsval) (k : string -> M T A) w :
  (forall n, throws_only other_than_invalid_name (k n)) ->
  (exists e w', bind (Mux.lift (Mux.assertSafeName kind name)) k w = (Throw e, w')
                /\ is_invalid_name e = true)
  <-> exists e, Mux.assertSafeName kind name = Throw e.
Proof.
  intros Hk. unfold bind, Mux.lift. destruct (Mux.assertSafeName kind name) as [n|e] eqn:E.
  - split.
    + intros (e & w' & Run & Inv). apply Hk in Run. unfold other_than_invalid_name in Run.
      congruence.
    + intros (e & [=]).
  - split; [eauto|]. intros _. exists e, w. split; [reflexivity|].
    unfold Mux.assertSafeName in E. destruct name; try (now inversion E).
    destruct (Nat.eqb _ 0); [now inversion E|]. destruct (negb _); now inversion E.
Qed.

Lemma create_project_rest (m : Mux.AgentMux) cwd project :
  throws_only other_than_invalid_name
    (bind (Mux.resolve_or cwd JNull) (fun resolvedCwd =>
     bind (Registry.ensureProject (Mux.registry m) (JStr project) [("cwd", resolvedCwd)])
       (fun _ =>
     bind (Tmux.createSession (Mux.tmux m) project resolvedCwd) (fun created =>
     bind (Registry.setCurrentProject (Mux.registry m) (JStr project)) (fun _ =>
     bind (Registry.getProjectDir (Mux.registry m) (JStr project)) (fun storageDir =>
     @ret T _ (Val.obj_lit [[("project", JStr project); ("cwd", resolvedCwd);
                             ("created", JBool created);
                             ("storageDir", JStr storageDir)]]))))))).
Proof. unfold Mux.resolve_or. throws. Qed.

Lemma close_project_rest (m : Mux.AgentMux) project :
  throws_only other_than_invalid_name
    (bind (Registry.getCurrentProject (Mux.registry m)) (fun current =>
     bind (Tmux.hasSession (Mux.tmux m) project) (fun has =>
     bind (if has : bool
           then bind (Tmux.killSession (Mux.tmux m) project) (fun _ => ret true)
           else ret false) (fun killed =>
     bind (if Val.strict_eq_str current project
           then Registry.clearCurrentProject (Mux.registry m) else ret tt) (fun _ =>
     @ret T _ (Val.obj_lit [[("project", JStr project); ("killed", JBool killed);
                             ("clearedCurrent",
                              JBool (Val.strict_eq_str current project))]])))))).
Proof. throws. Qed.

End Name_validation.

Section Name_claim.

Lemma assertSafeName_throws kind s :
  (exists e, Mux.assertSafeName kind (JStr s) = Throw e)
  <-> name_grammar (Js.trim s) = false.
Proof.
  destruct (assertSafeName_raises_iff kind s) as (A & B & _). split.
  - intros (e & E). destruct (name_grammar (Js.trim s)) eqn:G; [|reflexivity].
    pose proof (proj2 B eq_refl). congruence.
  - intros G. apply A in G as (why & E). eauto.
Qed.

(** C7 (as amended).  Validation of a string given as a name raises
    [InvalidName] exactly when the name, with leading and trailing white
    space removed, fails the grammar; otherwise the trimmed name is what the
    operation uses.  [create_project] and [close_project], which validate
    before anything else, raise [InvalidName] exactly in that case. *)
Theorem name_validation_raises_iff (kind s : string) :
  ((exists why,
      Mux.assertSafeName kind (JStr s) = Throw (InvalidName kind why (JStr s)))
   <-> name_grammar (Js.trim s) = false)
  /\ (Mux.assertSafeName kind (JStr s) = Ok (Js.trim s)
      <-> name_grammar (Js.trim s) = true)
  /\ (forall (T : Type) (S : Spawn T) (m : Mux.AgentMux) (cwd : jsval) (w : world T),
        (exists e w', Mux.create_project m (JStr s) cwd w = (Throw e, w')
                      /\ is_invalid_name e = true)
        <-> name_grammar (Js.trim s) = false)
  /\ (forall (T : Type) (S : Spawn T) (m : Mux.AgentMux) (w : world T),
        (exists e w', Mux.close_project m (JStr s) w = (Throw e, w')
                      /\ is_invalid_name e = true)
        <-> name_grammar (Js.trim s) = false).
Proof.
  destruct (assertSafeName_raises_iff kind s) as (A & B & _).
  split; [exact A|]. split; [exact B|]. split.
  - intros T S m cwd w. rewrite <- (assertSafeName_throws "project" s).
    unfold Mux.create_project. apply validated_first. intros n. apply create_project_rest.
  - intros T S m w. rewrite <- (assertSafeName_throws "project" s).
    unfold Mux.close_project. apply validated_first. intros n. apply close_project_rest.
Qed.

End Name_claim.

Section Read.
Context {T : Type} `{Spawn T}.
Implicit Types (w : world T).


Lemma slice_zero {A} (l : list A) : Js.slice_from (- 0) l = l.
Proof. unfold Js.slice_from. simpl. rewrite Z.min_l by lia. reflexivity. Qed.




(** With a requested count of zero the whole capture comes back. *)
Lemma read_agent_output_zero (m : Mux.AgentMux) (name : jsval) (w w' : world T)
    (res : jsval) :
  Mux.read_agent_output m name (Some 0) w = (Ok res, w') ->
  exists raw,
    Val.opt_get res "output"
    = JStr (Js.join Js.nl (List.filter Mux.non_blank (Js.split Js.LF raw)))
    /\ Val.opt_get res "lines" = JNum 0.
Proof.
  intros Run. unfold Mux.read_agent_output in Run.
  change (default 200 (Some 0)) with 0 in Run.
  step Run project w1 E1. step Run agentName w2 E2. step Run da w3 E3.
  step Run pane w4 E4. step Run raw w5 E5. inversion Run; subst. clear Run.
  exists raw. rewrite slice_zero. split; reflexivity.
Qed.

End Read.

(* ===================================================================== *)
(** ** Further properties of the code *)
(* ===================================================================== *)

(** *** Strings *)

Lemma append_nil_l (s : string) : EmptyString +:+ s = s.
Proof. reflexivity. Qed.

Lemma append_nil_r (s : string) : s +:+ EmptyString = s.
Proof. induction s as [|c s IH]; [reflexivity|]. rewrite append_cons. now rewrite IH. Qed.

Lemma all_chars_impl (p q : ascii -> bool) s :
  (forall c, p c = true -> q c = true) ->
  Mux.all_chars p s = true -> Mux.all_chars q s = true.
Proof.
  intros Hpq. induction s as [|c r IH]; simpl; [reflexivity|].
  intros A. apply andb_true_iff in A as [Hc Hr]. now rewrite (Hpq _ Hc), IH.
Qed.


Lemma all_chars_Forall p s :
  Mux.all_chars p s = true <-> Forall (fun c => p c = true) (list_ascii_of_string s).
Proof.
  induction s as [|c r IH]; simpl.
  - split; [constructor | reflexivity].
  - rewrite andb_true_iff, IH. split.
    + intros [? ?]. now constructor.
    + intros F. inversion F; subst. auto.
Qed.

(** White space and trimming. *)
Lemma trimStart_head s :
  match s with
  | String c _ => Js.is_ws c = false
  | EmptyString => True
  end -> Js.trimStart s = s.
Proof. destruct s as [|c r]; simpl; [reflexivity|]. now intros ->. Qed.

Lemma trimStart_shape s :
  match Js.trimStart s with
  | String c _ => Js.is_ws c = false
  | EmptyString => True
  end.
Proof.
  induction s as [|c r IH]; simpl; [exact I|].
  destruct (Js.is_ws c) eqn:E; [exact IH | exact E].
Qed.

Lemma trimEnd_head c r :
  Js.is_ws c = false -> exists r', Js.trimEnd (String c r) = String c r'.
Proof.
  intros E. simpl. destruct (Js.trimEnd r); [rewrite E|]; eauto.
Qed.

Lemma trimEnd_idempotent s : Js.trimEnd (Js.trimEnd s) = Js.trimEnd s.
Proof.
  induction s as [|c r IH]; [reflexivity|]. simpl.
  destruct (Js.trimEnd r) as [|c' r'] eqn:E.
  - destruct (Js.is_ws c) eqn:W; [reflexivity|]. simpl. now rewrite W.
  - simpl in IH |- *. destruct (Js.trimEnd r') as [|c'' r''] eqn:E'.
    + destruct (Js.is_ws c'); [discriminate IH|]. now rewrite IH.
    + now rewrite IH.
Qed.

Lemma trim_idempotent s : Js.trim (Js.trim s) = Js.trim s.
Proof.
  unfold Js.trim. pose proof (trimStart_shape s) as Hs.
  destruct (Js.trimStart s) as [|c r]; [reflexivity|].
  destruct (trimEnd_head c r Hs) as [r' E]. rewrite E.
  rewrite (trimStart_head (String c r')) by exact Hs.
  rewrite <- E. apply trimEnd_idempotent.
Qed.

Lemma trimEnd_no_ws s :
  Mux.all_chars (fun c => negb (Js.is_ws c)) s = true -> Js.trimEnd s = s.
Proof.
  induction s as [|c r IH]; [reflexivity|]. simpl.
  intros A. apply andb_true_iff in A as [Hc Hr]. rewrite (IH Hr).
  destruct r; [|reflexivity]. apply negb_true_iff in Hc. now rewrite Hc.
Qed.

Lemma trim_no_ws s :
  Mux.all_chars (fun c => negb (Js.is_ws c)) s = true -> Js.trim s = s.
Proof.
  intros A. unfold Js.trim. rewrite trimStart_head.
  - now apply trimEnd_no_ws.
  - destruct s as [|c r]; [exact I|]. simpl in A.
    apply andb_true_iff in A as [Hc _]. now apply negb_true_iff in Hc.
Qed.

(** Prefixes and suffixes. *)
Lemma substring_split (k : nat) (s : string) :
  (k <= String.length s)%nat ->
  s = String.substring 0 k s +:+ String.substring k (String.length s - k) s.
Proof.
  revert s. induction k as [|k IH]; intros s L.
  - rewrite Nat.sub_0_r. destruct s as [|c r]; [reflexivity|].
    simpl. rewrite append_nil_l. f_equal.
    clear. induction r as [|c r IH]; [reflexivity|]. simpl. now rewrite <- IH.
  - destruct s as [|c r]; simpl in L; [lia|]. simpl.
    rewrite append_cons. f_equal. apply IH. lia.
Qed.

Lemma substring_append_r (a b : string) :
  String.substring (String.length a) (String.length b) (a +:+ b) = b.
Proof.
  induction a as [|c a IH].
  - rewrite append_nil_l. simpl String.length.
    induction b as [|c b IH]; [reflexivity|]. simpl. now rewrite IH.
  - rewrite append_cons. simpl. exact IH.
Qed.

Lemma endsWith_iff (s t : string) :
  Js.endsWith s t = true <-> exists p, s = p +:+ t.
Proof.
  unfold Js.endsWith. split.
  - intros E. apply andb_true_iff in E as [L E]. apply Nat.leb_le in L.
    apply String.eqb_eq in E.
    exists (String.substring 0 (String.length s - String.length t) s).
    pose proof (substring_split (String.length s - String.length t) s ltac:(lia)) as Sp.
    replace (String.length s - (String.length s - String.length t))%nat
      with (String.length t) in Sp by lia.
    now rewrite E in Sp.
  - intros [p ->]. rewrite append_length.
    replace (String.length p + String.length t - String.length t)%nat
      with (String.length p) by lia.
    rewrite substring_append_r, String.eqb_refl, andb_true_r.
    apply Nat.leb_le. lia.
Qed.












(** *** The shell quoting of a log path *)

Lemma sh_word_escaped v rest :
  sh_word InSingle (Tmux.escape_quotes v +:+ rest)
  = (fun t => v +:+ t) <$> sh_word InSingle rest.
Proof.
  induction v as [|c v IH].
  - change (Tmux.escape_quotes EmptyString +:+ rest) with rest.
    destruct (sh_word InSingle rest); reflexivity.
  - simpl Tmux.escape_quotes. destruct (Ascii.eqb c (ascii_of_nat 39)) eqn:E.
    + apply Ascii.eqb_eq in E. subst c.
      unfold Tmux.quote_char, Tmux.dquote_char.
      rewrite !append_assoc. rewrite !append_cons.
      repeat (rewrite !append_cons; rewrite ?append_nil_l).
      simpl sh_word. rewrite !append_nil_l. rewrite IH.
      destruct (sh_word InSingle rest); reflexivity.
    + rewrite append_cons. simpl sh_word. rewrite E. rewrite IH.
      destruct (sh_word InSingle rest); reflexivity.
Qed.

(** X2.  [shellEscapeSingleQuotes] quotes for the shell: what it returns
    is one shell word, made of quoted pieces only, and the shell reads it as
    the very string that was given, whatever characters that string holds
    (quotes, spaces, dollar signs, line feeds). *)
Theorem shell_escape_reads_back (v : string) :
  sh_word Unquoted (Tmux.shellEscapeSingleQuotes v) = Some v.
Proof.
  unfold Tmux.shellEscapeSingleQuotes, Tmux.quote_char. rewrite append_cons.
  rewrite append_nil_l. simpl sh_word. rewrite sh_word_escaped. simpl.
  f_equal. apply append_nil_r.
Qed.

(** *** Accepted names *)

(** What a character of a name is not. *)
Lemma name_char_plain c :
  Mux.is_name_char c = true ->
  Js.is_ws c = false /\ c <> "/"%char /\ c <> ":"%char /\ c <> "|"%char
  /\ c <> ascii_of_nat 39 /\ c <> ascii_of_nat 34.
Proof.
  destruct c as [[] [] [] [] [] [] [] []]; vm_compute; intros E;
    try discriminate E; repeat split; discriminate.
Qed.

Lemma alnum_name_char c : Mux.is_alnum c = true -> Mux.is_name_char c = true.
Proof. unfold Mux.is_name_char. now intros ->. Qed.

Lemma assertSafeName_inv kind name n :
  Mux.assertSafeName kind name = Ok n ->
  exists s, name = JStr s /\ n = Js.trim s /\ Mux.name_regex_test n = true.
Proof.
  unfold Mux.assertSafeName. destruct name; try discriminate.
  destruct (Nat.eqb _ 0); [discriminate|].
  destruct (Mux.name_regex_test (Js.trim s)) eqn:E; [|discriminate].
  intros [= <-]. eauto.
Qed.

Lemma regex_name_chars n :
  Mux.name_regex_test n = true ->
  Mux.all_chars Mux.is_name_char n = true
  /\ (1 <= String.length n <= 128)%nat
  /\ exists c r, n = String c r /\ Mux.is_alnum c = true.
Proof.
  destruct n as [|c r]; [discriminate|]. simpl.
  intros E. apply andb_true_iff in E as [E L]. apply andb_true_iff in E as [Hc Hr].
  apply Nat.leb_le in L. rewrite (alnum_name_char _ Hc), Hr. repeat split; try lia. eauto.
Qed.

Lemma has_slash_chars s :
  Forall (fun c => c <> "/"%char) (list_ascii_of_string s) -> has_slash s = false.
Proof.
  induction s as [|c r IH]; simpl; [reflexivity|].
  intros F. inversion F; subst. rewrite IH by assumption.
  destruct (Ascii.eqb c "/") eqn:E; [apply Ascii.eqb_eq in E; contradiction | reflexivity].
Qed.

Lemma safe_name_idempotent kind n :
  Mux.name_regex_test n = true -> Mux.assertSafeName kind (JStr n) = Ok n.
Proof.
  intros R. destruct (regex_name_chars n R) as (A & [L _] & _).
  assert (Tr : Js.trim n = n).
  { apply trim_no_ws. revert A. apply all_chars_impl.
    intros c Hc. apply negb_true_iff. now apply name_char_plain. }
  unfold Mux.assertSafeName. rewrite Tr, R.
  destruct (Nat.eqb (String.length n) 0) eqn:E; [apply Nat.eqb_eq in E; lia | reflexivity].
Qed.

(** X3.  A name that validation accepts is its own normal form: validating
    it again, as a project or as an agent name, returns it unchanged.  It
    has between 1 and 128 characters, each a letter, a digit, [.], [_] or
    [-], the first a letter or a digit; so it holds no white space, no [/],
    no [:], no [|] and no quote. *)
Theorem accepted_name_is_clean (kind : string) (name : jsval) (n : string) :
  Mux.assertSafeName kind name = Ok n ->
  (forall kind', Mux.assertSafeName kind' (JStr n) = Ok n)
  /\ Js.trim n = n
  /\ (1 <= String.length n <= 128)%nat
  /\ (exists c r, n = String c r /\ Mux.is_alnum c = true)
  /\ Forall (fun c => Mux.is_name_char c = true
                      /\ Js.is_ws c = false /\ c <> "/"%char /\ c <> ":"%char
                      /\ c <> "|"%char /\ c <> ascii_of_nat 39 /\ c <> ascii_of_nat 34)
            (list_ascii_of_string n)
  /\ has_slash n = false.
Proof.
  intros E. destruct (assertSafeName_inv _ _ _ E) as (s & -> & -> & R).
  destruct (regex_name_chars _ R) as (A & L & First).
  assert (F : Forall (fun c => Mux.is_name_char c = true
                      /\ Js.is_ws c = false /\ c <> "/"%char /\ c <> ":"%char
                      /\ c <> "|"%char /\ c <> ascii_of_nat 39 /\ c <> ascii_of_nat 34)
            (list_ascii_of_string (Js.trim s))).
  { apply all_chars_Forall in A. revert A. apply List.Forall_impl.
    intros c Hc. split; [exact Hc | now apply name_char_plain]. }
  split; [intros kind'; now apply safe_name_idempotent|].
  split; [apply trim_idempotent|].
  split; [exact L|]. split; [exact First|]. split; [exact F|].
  apply has_slash_chars. revert F. apply List.Forall_impl. tauto.
Qed.

(** *** The end of a text *)

(** X4.  [ensureEndsWithNewline]: the result always ends with a line feed;
    a text that ends with one is returned as it is, any other text gets
    exactly one; applying the function twice is applying it once; [null] and
    [undefined] count as the empty text. *)
Theorem ensureEndsWithNewline_normalises (text : jsval) :
  let s := Mux.payload_of text in
  (exists body, Mux.ensureEndsWithNewline text = body +:+ Js.nl)
  /\ ((exists body, s = body +:+ Js.nl) -> Mux.ensureEndsWithNewline text = s)
  /\ ((forall body, s <> body +:+ Js.nl) -> Mux.ensureEndsWithNewline text = s +:+ Js.nl)
  /\ Mux.ensureEndsWithNewline (JStr (Mux.ensureEndsWithNewline text))
     = Mux.ensureEndsWithNewline text
  /\ Mux.ensureEndsWithNewline JNull = Js.nl
  /\ Mux.ensureEndsWithNewline JUndefined = Js.nl.
Proof.
  intros s. unfold Mux.ensureEndsWithNewline. fold s.
  assert (Ends : exists body,
             (if Js.endsWith s Js.nl then s else s +:+ Js.nl) = body +:+ Js.nl).
  { destruct (Js.endsWith s Js.nl) eqn:E; [now apply endsWith_iff in E | eauto]. }
  split; [exact Ends|]. split.
  { intros Hs. apply endsWith_iff in Hs. now rewrite Hs. }
  split.
  { intros Hs. destruct (Js.endsWith s Js.nl) eqn:E; [|reflexivity].
    apply endsWith_iff in E as [body E]. now apply Hs in E. }
  split; [|split; reflexivity].
  cbn [Mux.payload_of Val.String_]. apply endsWith_iff in Ends. now rewrite Ends.
Qed.

(** *** What tmux prints and what the adapter reads *)








Lemma nonempty_trimmed_lines_listed out :
  Forall listed_name (Tmux.nonempty_trimmed_lines out).
Proof.
  unfold Tmux.nonempty_trimmed_lines. apply Forall_forall. intros s Hin.
  apply list_elem_of_In, filter_In in Hin as [Hin Hne]. apply in_map_iff in Hin as (l & <- & _).
  split; [|apply trim_idempotent].
  intros E. rewrite E in Hne. discriminate.
Qed.

Section Adapter.
Context {T : Type} `{Spawn T}.
Implicit Types (b : Tmux.TmuxBackend) (w : world T).


Lemma runRaw_status b args w :
  exists r, Tmux.runRaw b args w = (Ok r, ran b args w)
            /\ Tmux.ok r = succeeded (reply b args w)
            /\ Tmux.stdout r = sr_stdout (reply b args w)
            /\ Tmux.status r = sr_status (reply b args w).
Proof.
  unfold Tmux.runRaw, ran, reply, succeeded.
  destruct (spawnSync _ _ _) as [res t']. simpl.
  destruct (sr_error res); eexists; (split; [reflexivity|]); simpl; repeat split;
    now destruct (sr_status res) as [[| |]|].
Qed.

Lemma exec_status b args w :
  (succeeded (reply b args w) = true
   /\ Tmux.exec b args w = (Ok (sr_stdout (reply b args w)), ran b args w))
  \/ (succeeded (reply b args w) = false
      /\ exists detail,
           Tmux.exec b args w
           = (Throw (BackendCommandError
                       ("[tmux -L " +:+ Tmux.socketName b +:+ "] "
                        +:+ Js.join " " args +:+ " failed: " +:+ detail)
                       (sr_status (reply b args w))),
              ran b args w)).
Proof.
  destruct (runRaw_status b args w) as (r & E & Hok & Hout & Hst).
  unfold Tmux.exec. rewrite (bind_ok _ _ _ _ _ E). rewrite Hok, Hst, Hout.
  destruct (succeeded (reply b args w)).
  - left. split; reflexivity.
  - right. split; [reflexivity|]. eexists. reflexivity.
Qed.

Lemma exec_once b args (k : M T unit) :
  (forall w, k w = (Ok tt, w)) -> runs_once b args (Tmux.exec b args ;; k).
Proof.
  intros Hk w. destruct (exec_status b args w) as [[S E] | [S [msg E]]].
  - left. split; [exact S|]. rewrite (bind_ok _ _ _ _ _ E). apply Hk.
  - right. split; [exact S|]. exists msg. now rewrite (bind_throw _ _ _ _ _ E).
Qed.

(** X6.  The questions the adapter asks never raise.  [hasSession],
    [listSessions], [listWindows], [listClients], [showWindowOption] and
    [capturePane] each run tmux once and return; when that run fails the
    answer is the neutral one ([false], the empty list, [null], the empty
    text).  The names [listSessions] and [listClients] return are not empty
    and carry no white space around them. *)
Theorem adapter_queries_never_raise (b : Tmux.TmuxBackend) (w : world T) :
  (forall name,
     let args := ["has-session"; "-t"; name] in
     Tmux.hasSession b name w = (Ok (succeeded (reply b args w)), ran b args w))
  /\ (let args := ["list-sessions"; "-F"; "#{session_name}"] in
      exists names,
        Tmux.listSessions b w = (Ok names, ran b args w)
        /\ (succeeded (reply b args w) = false -> names = [])
        /\ Forall listed_name names)
  /\ (forall session,
        let args := ["list-windows"; "-t"; session; "-F"; Tmux.WINDOW_FORMAT] in
        exists windows,
          Tmux.listWindows b session w = (Ok windows, ran b args w)
          /\ (succeeded (reply b args w) = false -> windows = []))
  /\ (let args := ["list-clients"; "-F"; "#{client_tty}"] in
      exists ttys,
        Tmux.listClients b w = (Ok ttys, ran b args w)
        /\ (succeeded (reply b args w) = false -> ttys = [])
        /\ Forall listed_name ttys)
  /\ (forall target key,
        let args := ["show-options"; "-w"; "-t"; target; "-v"; key] in
        Tmux.showWindowOption b target key w
        = (Ok (if succeeded (reply b args w)
               then Some (Js.trim (sr_stdout (reply b args w))) else None),
           ran b args w))
  /\ (forall pane history,
        let args := ["capture-pane"; "-t"; pane; "-p"; "-S"; "-" +:+ Js.show_Z history] in
        Tmux.capturePane b pane history w
        = (Ok (if succeeded (reply b args w) then sr_stdout (reply b args w)
               else EmptyString),
           ran b args w)).
Proof.
  split; [intros name; apply hasSession_eq|].
  split.
  { cbv zeta. destruct (runRaw_ok b ["list-sessions"; "-F"; "#{session_name}"] w)
      as (r & E & Hok & Hout).
    unfold Tmux.listSessions. rewrite (bind_ok _ _ _ _ _ E). rewrite Hok.
    destruct (succeeded _); eexists; (split; [reflexivity|]); split;
      try discriminate; auto using nonempty_trimmed_lines_listed. }
  split.
  { intros session. cbv zeta.
    destruct (runRaw_ok b ["list-windows"; "-t"; session; "-F"; Tmux.WINDOW_FORMAT] w)
      as (r & E & Hok & Hout).
    unfold Tmux.listWindows. rewrite (bind_ok _ _ _ _ _ E). rewrite Hok.
    destruct (succeeded _); eexists; (split; [reflexivity|]); try discriminate; auto. }
  split.
  { cbv zeta. destruct (runRaw_ok b ["list-clients"; "-F"; "#{client_tty}"] w)
      as (r & E & Hok & Hout).
    unfold Tmux.listClients. rewrite (bind_ok _ _ _ _ _ E). rewrite Hok.
    destruct (succeeded _); eexists; (split; [reflexivity|]); split;
      try discriminate; auto using nonempty_trimmed_lines_listed. }
  split.
  { intros target key. cbv zeta.
    destruct (runRaw_ok b ["show-options"; "-w"; "-t"; target; "-v"; key] w)
      as (r & E & Hok & Hout).
    unfold Tmux.showWindowOption. rewrite (bind_ok _ _ _ _ _ E). now rewrite Hok, Hout. }
  intros pane history. cbv zeta.
  destruct (runRaw_ok b ["capture-pane"; "-t"; pane; "-p"; "-S"; "-" +:+ Js.show_Z history] w)
    as (r & E & Hok & Hout).
  unfold Tmux.capturePane. rewrite (bind_ok _ _ _ _ _ E). now rewrite Hok, Hout.
Qed.

(** X7.  The commands the adapter gives are one run of tmux each, and the
    run's failure is the method's exception: [killSession], [killWindow],
    [setWindowOption], [pipePane], [sendKeys], [setBuffer], [pasteBuffer],
    [selectWindow] and [switchClient] return when tmux exits with status 0
    and raise otherwise a [BackendCommandError] that carries the exit status
    and whose message names the socket and the command; either way exactly
    that one run has been made. *)
Theorem adapter_commands_run_once (b : Tmux.TmuxBackend) :
  (forall name, runs_once b ["kill-session"; "-t"; name] (Tmux.killSession b name))
  /\ (forall target, runs_once b ["kill-window"; "-t"; target] (Tmux.killWindow b target))
  /\ (forall target key value,
        runs_once b ["set-option"; "-w"; "-t"; target; key; value]
          (Tmux.setWindowOption b target key value))
  /\ (forall pane command (only : bool),
        runs_once b (["pipe-pane"; "-t"; pane] ++ (if only then ["-o"] else []) ++ [command])
          (Tmux.pipePane b pane command only))
  /\ (forall pane keys,
        runs_once b (["send-keys"; "-t"; pane] ++ keys) (Tmux.sendKeys b pane keys))
  /\ (forall name text,
        runs_once b ["set-buffer"; "-b"; name; text] (Tmux.setBuffer b name text))
  /\ (forall name pane (delete : bool),
        runs_once b (["paste-buffer"; "-b"; name; "-t"; pane]
                     ++ (if delete then ["-d"] else []))
          (Tmux.pasteBuffer b name pane delete))
  /\ (forall target, runs_once b ["select-window"; "-t"; target] (Tmux.selectWindow b target))
  /\ (forall tty session,
        runs_once b ["switch-client"; "-c"; tty; "-t"; session]
          (Tmux.switchClient b tty session)).
Proof.
  repeat match goal with |- _ /\ _ => split end; intros; apply exec_once; reflexivity.
Qed.

End Adapter.

(** *** Frames of the new methods *)

Section More_frames.
Context {T : Type} `{Spawn T} (R : world T -> world T -> Prop) `{!PreOrder R, !TmuxFrame R}.
Implicit Types (b : Tmux.TmuxBackend).

Lemma tmux_listClients b : preserves R (Tmux.listClients b).
Proof. unfold Tmux.listClients. frame. Qed.

Lemma tmux_switchClient b tty session : preserves R (Tmux.switchClient b tty session).
Proof. unfold Tmux.switchClient. frame. Qed.

Lemma tmux_selectWindow b target : preserves R (Tmux.selectWindow b target).
Proof. unfold Tmux.selectWindow. frame. Qed.

Lemma mux_switch_clients b clients session :
  preserves R (Mux.switch_clients b clients session).
Proof.
  induction clients as [|tty rest IH]; cbn [Mux.switch_clients]; [frame|].
  apply preserves_bind; [typeclasses eauto | | intros _; exact IH].
  apply preserves_try_catch; [typeclasses eauto | apply tmux_switchClient | frame].
Qed.

End More_frames.

#[export] Hint Resolve tmux_listClients tmux_switchClient tmux_selectWindow
  mux_switch_clients : frame.

Section Socket.
Context {T : Type} `{Spawn T} (b : Tmux.TmuxBackend).
Implicit Types (w : world T).

#[export] Instance on_socket_preorder : PreOrder (@on_socket T b).
Proof.
  split.
  - intros w. exists []. split; [now rewrite app_nil_r | constructor].
  - intros w1 w2 w3 (i & Hi & Fi) (j & Hj & Fj). exists (i ++ j). split.
    + rewrite Hj, Hi. now rewrite app_assoc.
    + now apply Forall_app.
Qed.

#[export] Instance on_socket_disk : DiskFrame (@on_socket T b).
Proof.
  split; intros; exists []; (split; [simpl; now rewrite app_nil_r | constructor]).
Qed.

Lemma socket_runRaw args : preserves (on_socket b) (Tmux.runRaw b args).
Proof.
  intros w. rewrite runRaw_world. exists [Tmux._buildArgs b args]. split; [reflexivity|].
  constructor; [|constructor]. now exists args.
Qed.

Lemma socket_exec args : preserves (on_socket b) (Tmux.exec b args).
Proof. pose proof socket_runRaw. unfold Tmux.exec. frame. Qed.

Lemma socket_switch_clients clients session :
  preserves (on_socket b) (Mux.switch_clients b clients session).
Proof.
  pose proof socket_exec as E.
  induction clients as [|tty rest IH]; cbn [Mux.switch_clients]; [frame|].
  apply preserves_bind; [typeclasses eauto | | intros _; exact IH].
  apply preserves_try_catch; [typeclasses eauto | | frame].
  unfold Tmux.switchClient. apply preserves_bind; [typeclasses eauto | apply E | intros; frame].
Qed.

End Socket.

(** Walk through a method whose tmux runs are the adapter's. *)
Ltac socket :=
  repeat first [ apply socket_runRaw | apply socket_exec | apply socket_switch_clients
               | frame_step ].

Section Socket_ops.
Context {T : Type} `{Spawn T}.


End Socket_ops.

(** *** The registry's files *)

Section Atomic.
Context {T : Type}.
Implicit Types (w : world T) (r : Registry.AgentRegistry).

(** Every way [writeJsonAtomic] can end. *)
Lemma writeJsonAtomic_cases p data w :
  match Registry.writeJsonAtomic p data w with
  | (Ok _, w') =>
      w' = set_files (<[p := FJson data]> (delete (p +:+ ".tmp") (files w))) w
  | (Throw e, w') =>
      (exists op path, e = FsError op path)
      /\ (w' = w \/ w' = set_files (<[p +:+ ".tmp" := FJson data]> (files w)) w)
  end.
Proof.
  cbv [Registry.writeJsonAtomic bind mkdirSync gets throw ret writeFileSync renameSync].
  destruct (fs_refuses w (path_dirname p)); [split; eauto|].
  destruct (fs_refuses w (p +:+ ".tmp")); [split; eauto|].
  cbn [files set_files fs_refuses]. rewrite lookup_insert_eq.
  destruct (fs_refuses w p); [split; eauto|].
  unfold set_files; cbn. now rewrite delete_insert_eq.
Qed.


End Atomic.

(** Reading back an object. *)
Lemma lookup_roundtrip_distinct k kv :
  distinct_keys kv ->
  Val.opt_get (Val.json_roundtrip (JObj kv)) k = reread (Val.opt_get (JObj kv) k).
Proof.
  unfold Val.opt_get, reread. simpl. induction kv as [|[k' v] r IH]; [reflexivity|].
  intros [Hk Hd]. specialize (IH Hd). simpl.
  destruct (String.eqb k' k) eqn:E.
  - apply String.eqb_eq in E. subst k'. rewrite Hk in IH. simpl in IH.
    destruct (Val.is_undefined v) eqn:U; simpl; rewrite ?U.
    + exact IH.
    + now rewrite String.eqb_refl.
  - destruct (Val.is_undefined v) eqn:U; simpl; rewrite ?U; [exact IH|]. now rewrite E.
Qed.

(** [{...kv, k1: v1, k2: v2}] for an object [kv]. *)
Lemma obj_lit_two kv k1 v1 k2 v2 :
  distinct_keys kv ->
  Val.obj_lit [kv; [(k1, v1); (k2, v2)]]
  = JObj (Val.set_prop k2 v2 (Val.set_prop k1 v1 kv))
  /\ distinct_keys (Val.set_prop k2 v2 (Val.set_prop k1 v1 kv)).
Proof.
  intros D. unfold Val.obj_lit. simpl fold_left.
  rewrite (set_props_nil_distinct kv D). split; [reflexivity|].
  now apply set_prop_distinct, set_prop_distinct.
Qed.

Lemma saved_object_reads kv k1 v1 k2 v2 k :
  distinct_keys kv -> k1 <> k2 ->
  Val.opt_get (Val.json_roundtrip (Val.obj_lit [kv; [(k1, v1); (k2, v2)]])) k
  = reread (if String.eqb k2 k then v2
            else if String.eqb k1 k then v1 else Val.opt_get (JObj kv) k).
Proof.
  intros D N. destruct (obj_lit_two kv k1 v1 k2 v2 D) as [-> D'].
  rewrite lookup_roundtrip_distinct by exact D'. f_equal.
  unfold Val.opt_get. rewrite !lookup_set_prop.
  destruct (String.eqb k2 k); [reflexivity|]. now destruct (String.eqb k1 k).
Qed.

Section Save_load.
Context {T : Type}.
Implicit Types (w : world T) (r : Registry.AgentRegistry).

Lemma saveProjectMeta_ok r p meta w :
  fs_healthy w ->
  Registry.saveProjectMeta r p meta w
  = (Ok tt,
     set_files (<[meta_path r w p :=
                   FJson (Val.obj_lit [Val.spread meta;
                                       [("name", JStr (Val.String_ p));
                                        ("updatedAt", JStr (clock w (tick w)))]])]>
                  (delete (meta_path r w p +:+ ".tmp") (files w)))
               (set_tick (S (tick w)) w)).
Proof.
  intros Hh. unfold Registry.saveProjectMeta.
  rewrite (bind_ok _ _ _ _ _ (getProjectMetaPath_eq _ _ _)).
  unfold bind at 1. unfold Date_now_iso.
  rewrite writeJsonAtomic_ok by (intros q; apply Hh). reflexivity.
Qed.

(** X10.  What the registry saves it loads again.  After
    [saveAgents(project, data)] on a disk that takes writes,
    [loadAgents(project)] returns [data] as JSON carries it (a property whose
    value is [undefined] is gone, [NaN] is [null]), with [project] set to the
    project name and [updatedAt] to the time of the save, whatever [data]
    said of the two; the same holds of [saveProjectMeta] and
    [loadProjectMeta] with [name] and [updatedAt]. *)
Theorem registry_save_then_load (r : Registry.AgentRegistry) (p : jsval)
    (kv : list (string * jsval)) (w : world T) :
  fs_healthy w ->
  distinct_keys kv ->
  (exists w' stored,
     Registry.saveAgents r p (JObj kv) w = (Ok tt, w')
     /\ Registry.loadAgents r p w' = (Ok stored, w')
     /\ Val.opt_get stored "project" = JStr (Val.String_ p)
     /\ Val.opt_get stored "updatedAt" = JStr (clock w (tick w))
     /\ forall k, k <> "project" -> k <> "updatedAt" ->
          Val.opt_get stored k = reread (Val.opt_get (JObj kv) k))
  /\ (exists w' stored,
        Registry.saveProjectMeta r p (JObj kv) w = (Ok tt, w')
        /\ Registry.loadProjectMeta r p w' = (Ok stored, w')
        /\ Val.opt_get stored "name" = JStr (Val.String_ p)
        /\ Val.opt_get stored "updatedAt" = JStr (clock w (tick w))
        /\ forall k, k <> "name" -> k <> "updatedAt" ->
             Val.opt_get stored k = reread (Val.opt_get (JObj kv) k)).
Proof.
  intros Hh D. split.
  - eexists _, _. split; [apply saveAgents_ok, Hh|].
    split.
    { rewrite loadAgents_eq. unfold agents_data, read_json.
      match goal with |- context [agents_path r ?W p] =>
        replace (agents_path r W p) with (agents_path r w p) by reflexivity end.
      cbn [files set_files]. rewrite lookup_insert_eq. reflexivity. }
    unfold saved_agents. cbn [Val.spread].
    split; [now rewrite saved_object_reads|]. split; [now rewrite saved_object_reads|].
    intros k K1 K2. rewrite saved_object_reads by (exact D || discriminate).
    apply String.eqb_neq in K1, K2. rewrite String.eqb_sym, K2. rewrite String.eqb_sym, K1.
    reflexivity.
  - eexists _, _. split; [apply saveProjectMeta_ok, Hh|].
    split.
    { rewrite loadProjectMeta_eq. unfold read_json.
      match goal with |- context [meta_path r ?W p] =>
        replace (meta_path r W p) with (meta_path r w p) by reflexivity end.
      cbn [files set_files]. rewrite lookup_insert_eq. reflexivity. }
    cbn [Val.spread].
    split; [now rewrite saved_object_reads|]. split; [now rewrite saved_object_reads|].
    intros k K1 K2. rewrite saved_object_reads by (exact D || discriminate).
    apply String.eqb_neq in K1, K2. rewrite String.eqb_sym, K2. rewrite String.eqb_sym, K1.
    reflexivity.
Qed.

Lemma setCurrentProject_run r p w :
  fs_healthy w ->
  Registry.setCurrentProject r p w
  = (Ok tt,
     set_files (<[current_path r w :=
                   FJson (Val.obj_lit [[("name", JStr (Val.String_ p));
                                        ("updatedAt", JStr (clock w (tick w)))]])]>
                  (delete (current_path r w +:+ ".tmp") (files w)))
               (set_tick (S (tick w)) w)).
Proof.
  intros Hh. unfold Registry.setCurrentProject.
  rewrite (bind_ok _ _ _ _ _ (currentProjectPath_eq _ _)).
  unfold bind at 1. unfold Date_now_iso at 1.
  rewrite writeJsonAtomic_ok by (intros q; apply Hh). reflexivity.
Qed.

(** [clearCurrentProject] in every world. *)
Lemma clearCurrentProject_total r w :
  Registry.clearCurrentProject r w
  = (Ok tt,
     if bool_decide (is_Some (files w !! current_path r w))
        && negb (fs_refuses w (current_path r w))
     then set_files (delete (current_path r w) (files w)) w else w).
Proof.
  unfold Registry.clearCurrentProject.
  rewrite (bind_ok _ _ _ _ _ (currentProjectPath_eq _ _)).
  unfold try_catch, unlinkSync, ret.
  destruct (files w !! current_path r w) as [f|] eqn:E.
  - rewrite bool_decide_eq_true_2 by eauto.
    destruct (fs_refuses w (current_path r w)); reflexivity.
  - rewrite bool_decide_eq_false_2 by (intros [? ?]; discriminate). reflexivity.
Qed.

(** X11.  The current-project pointer.  [clearCurrentProject] never
    raises: with no pointer file, or a pointer file the system refuses to
    remove, it returns all the same and changes nothing.  On a disk that
    takes writes, [getCurrentProject] after [setCurrentProject(p)] is the
    name [String(p)] ([null] when that name is empty), and after
    [clearCurrentProject] it is [null]; the two change no path but
    [current.json] and its temporary file. *)
Theorem current_project_set_get_clear (r : Registry.AgentRegistry) (p : jsval)
    (w : world T) :
  fs_healthy w ->
  (forall w0 : world T, exists w', Registry.clearCurrentProject r w0 = (Ok tt, w')
     /\ (files w0 !! current_path r w0 = None -> w' = w0)
     /\ (fs_refuses w0 (current_path r w0) = true -> w' = w0))
  /\ exists w1 w2,
       Registry.setCurrentProject r p w = (Ok tt, w1)
       /\ Registry.getCurrentProject r w1
          = (Ok (if String.eqb (Val.String_ p) EmptyString then JNull
                 else JStr (Val.String_ p)), w1)
       /\ Registry.clearCurrentProject r w1 = (Ok tt, w2)
       /\ Registry.getCurrentProject r w2 = (Ok JNull, w2)
       /\ (forall q, q <> current_path r w -> q <> current_path r w +:+ ".tmp" ->
             files w1 !! q = files w !! q /\ files w2 !! q = files w !! q).
Proof.
  intros Hh. split.
  { intros w0. eexists. split; [apply clearCurrentProject_total|]. split.
    - intros ->. rewrite bool_decide_eq_false_2 by (intros [? ?]; discriminate). reflexivity.
    - intros ->. now rewrite andb_false_r. }
  eexists _, _. split; [apply setCurrentProject_run, Hh|].
  set (w1 := set_files _ _).
  assert (Cp : current_path r w1 = current_path r w) by reflexivity.
  assert (F1 : files w1 !! current_path r w
               = Some (FJson (Val.obj_lit [[("name", JStr (Val.String_ p));
                                            ("updatedAt", JStr (clock w (tick w)))]]))).
  { subst w1. cbn [files set_files]. apply lookup_insert_eq. }
  split.
  { rewrite getCurrentProject_eq. unfold pointer, read_json. rewrite Cp, F1.
    unfold Val.obj_lit. simpl. unfold Val.or_else. simpl.
    now destruct (String.eqb (Val.String_ p) EmptyString). }
  rewrite clearCurrentProject_total. rewrite Cp, F1.
  rewrite bool_decide_eq_true_2 by eauto.
  replace (fs_refuses w1 (current_path r w)) with false by (symmetry; apply Hh).
  cbn [andb negb]. split; [reflexivity|]. split.
  { rewrite getCurrentProject_eq. unfold pointer, read_json.
    match goal with |- context [current_path r ?W] =>
      replace (current_path r W) with (current_path r w) by reflexivity end.
    cbn [files set_files]. now rewrite lookup_delete_eq. }
  intros q Q1 Q2. subst w1. cbn [files set_files].
  rewrite lookup_delete_ne by congruence.
  rewrite lookup_insert_ne by congruence. rewrite lookup_delete_ne by congruence. auto.
Qed.

End Save_load.

Section Keeps.
Context {T : Type}.
Implicit Types (w : world T) (r : Registry.AgentRegistry).

#[export] Instance keeps_path_preorder q : PreOrder (@keeps_path T q).
Proof.
  split.
  - intros w. split; reflexivity.
  - intros a b c [E1 F1] [E2 F2]. split; [now transitivity b | congruence].
Qed.

Lemma keeps_writeJsonAtomic q p data :
  p <> q -> p +:+ ".tmp" <> q -> preserves (keeps_path q) (@Registry.writeJsonAtomic T p data).
Proof.
  intros N1 N2 w. pose proof (writeJsonAtomic_cases p data w) as C.
  destruct (Registry.writeJsonAtomic p data w) as [[u|e] w']; cbn [snd].
  - subst w'. split; [by_fields|]. cbn [files set_files].
    rewrite lookup_insert_ne by exact N1. now rewrite lookup_delete_ne by exact N2.
  - destruct C as [_ [-> | ->]]; [reflexivity|]. split; [by_fields|].
    cbn [files set_files]. now rewrite lookup_insert_ne by exact N2.
Qed.

Lemma keeps_Date q : preserves (keeps_path q) (@Date_now_iso T).
Proof. intros w. split; [by_fields | reflexivity]. Qed.

(** A step of a method under a frame: if the step keeps the frame, what
    follows may assume it, and so may an exception of the step. *)
Lemma bind_frame (R : world T -> world T -> Prop) `{!PreOrder R} {A B}
    (m : M T A) (f : A -> M T B) (Q : outcome B * world T -> Prop) w0 w :
  R w0 w -> preserves R m ->
  (forall e w1, R w0 w1 -> Q (Throw e, w1)) ->
  (forall a w1, R w0 w1 -> Q (f a w1)) ->
  Q (bind m f w).
Proof.
  intros H0 Hm Ht Hk. unfold bind. specialize (Hm w).
  destruct (m w) as [[a|e] w1]; cbn [snd] in Hm.
  - apply Hk. now transitivity w.
  - apply Ht. now transitivity w.
Qed.

Lemma agent_list_empty_file (project now : jsval) :
  agent_list (Val.json_roundtrip
                (Val.obj_lit [[("project", project); ("agents", JArr []);
                               ("updatedAt", now)]]))
  = Some [].
Proof.
  unfold Val.obj_lit. simpl.
  destruct (Val.is_undefined project), (Val.is_undefined now); reflexivity.
Qed.

Lemma registered_absent r w p :
  files w !! agents_path r w p = None -> registered r w p = Some [].
Proof. unfold registered, agents_data, read_json. now intros ->. Qed.

(** [ensureProject] and the agents of the project. *)
Lemma ensureProject_keeps_agents r p meta w :
  let w' := snd (Registry.ensureProject r p meta w) in
  same_env w w'
  /\ registered r w' p = registered r w p
  /\ (is_Some (files w !! agents_path r w p) ->
      files w' !! agents_path r w p = files w !! agents_path r w p).
Proof.
  set (ap := agents_path r w p).
  set (Q := fun ow : outcome unit * world T =>
              same_env w (snd ow)
              /\ registered r (snd ow) p = registered r w p
              /\ (is_Some (files w !! ap) -> files (snd ow) !! ap = files w !! ap)).
  change (Q (Registry.ensureProject r p meta w)).
  assert (Stop : forall (e : error) w1, keeps_path ap w w1 -> Q (Throw e, w1)).
  { intros e w1 [E F]. subst Q. cbn [snd]. split; [exact E|]. split; [|auto].
    now apply registered_frame. }
  destruct (agents_not_meta r w p) as [N1 N2]. fold ap in N1, N2.
  assert (KW : forall d, preserves (keeps_path ap)
                           (@Registry.writeJsonAtomic T (meta_path r w p) d)).
  { intros d. apply keeps_writeJsonAtomic; congruence. }
  pose proof (keeps_Date ap) as KD.
  unfold Registry.ensureProject.
  eapply (fun m f => bind_frame (keeps_path ap) m f Q); [reflexivity | frame | exact Stop |].
  intros dir w1 K1.
  eapply (fun m f => bind_frame (keeps_path ap) m f Q); [exact K1 | frame | exact Stop |].
  intros logsDir w2 K2.
  eapply (fun m f => bind_frame (keeps_path ap) m f Q); [exact K2 | frame | exact Stop |].
  intros u3 w3 K3.
  eapply (fun m f => bind_frame (keeps_path ap) m f Q); [exact K3 | frame | exact Stop |].
  intros u4 w4 K4.
  rewrite (bind_ok _ _ _ _ _ (getProjectMetaPath_eq _ _ _)).
  rewrite (meta_path_env r w w4 p (proj1 K4)).
  eapply (fun m f => bind_frame (keeps_path ap) m f Q); [exact K4 | frame | exact Stop |].
  intros e5 w5 K5.
  eapply (fun m f => bind_frame (keeps_path ap) m f Q);
    [exact K5 | repeat first [apply KW | apply KD | frame_step] | exact Stop |].
  intros u6 w6 K6.
  (* agents.json *)
  rewrite (bind_ok _ _ _ _ _ (getAgentsPath_eq _ _ _)).
  rewrite (agents_path_env r w w6 p (proj1 K6)). fold ap.
  rewrite (bind_ok _ _ _ _ _ (existsSync_eq _ _)).
  destruct K6 as [E6 F6]. rewrite F6.
  destruct (files w !! ap) as [f|] eqn:Ea.
  - rewrite bool_decide_eq_true_2 by eauto. cbn [negb]. subst Q. cbn [snd ret].
    split; [exact E6|]. split; [|auto].
    apply registered_frame; [exact E6 | fold ap; congruence].
  - rewrite bool_decide_eq_false_2 by (intros [? ?]; discriminate). cbn [negb].
    unfold bind at 1. unfold Date_now_iso at 1.
    match goal with |- Q (Registry.writeJsonAtomic ap ?d ?w7) =>
      pose proof (writeJsonAtomic_cases ap d w7) as C;
      destruct (Registry.writeJsonAtomic ap d w7) as [[u|e] w8]
    end; subst Q; cbn [snd].
    + subst w8.
      split; [transitivity w6; [exact E6 | by_fields]|].
      split; [|intros [? ?]; discriminate].
      rewrite (registered_absent r w p) by exact Ea.
      unfold registered, agents_data, read_json.
      match goal with |- context [agents_path r ?W p] =>
        replace (agents_path r W p) with ap
          by (symmetry; apply agents_path_env; transitivity w6; [exact E6 | by_fields]) end.
      cbn [files set_files]. rewrite lookup_insert_eq. apply agent_list_empty_file.
    + assert (E8 : same_env w w8).
      { destruct C as [_ [-> | ->]]; (transitivity w6; [exact E6 | by_fields]). }
      split; [exact E8|]. split; [|intros [? ?]; discriminate].
      apply registered_frame; [exact E8|]. fold ap. rewrite Ea.
      destruct C as [_ [-> | ->]]; cbn [files set_files set_tick].
      * now rewrite F6.
      * rewrite lookup_insert_ne by (apply tmp_differs). now rewrite F6.
Qed.

(** X12.  [ensureProject] never resets a project's agents: whatever it is
    given and however it ends, the agent list the registry reads for the
    project afterwards is the one it read before, and an [agents.json] that
    was there is still the same file. *)
Theorem ensureProject_never_resets_agents (r : Registry.AgentRegistry) (p : jsval)
    (meta : list (string * jsval)) (w : world T) :
  let w' := snd (Registry.ensureProject r p meta w) in
  registered r w' p = registered r w p
  /\ fst (Registry.loadAgents r p w') = Ok (agents_data r w' p)
  /\ agent_list (agents_data r w' p) = agent_list (agents_data r w p)
  /\ (is_Some (files w !! agents_path r w p) ->
      files w' !! agents_path r w p = files w !! agents_path r w p
      /\ agents_data r w' p = agents_data r w p).
Proof.
  intros w'. destruct (ensureProject_keeps_agents r p meta w) as (E & R & F).
  fold w' in E, R, F. split; [exact R|]. split; [now rewrite loadAgents_eq|].
  split; [exact R|]. intros Ha. split; [now apply F|].
  unfold agents_data, read_json. rewrite (agents_path_env r w w' p E). now rewrite F.
Qed.

(** First [ensureProject] of a project, on a disk that takes writes. *)
Lemma ensureProject_creates r p meta w :
  fs_healthy w ->
  files w !! meta_path r w p = None ->
  exists w1,
    Registry.ensureProject r p meta w = (Ok tt, w1)
    /\ same_env w w1
    /\ files w1 !! meta_path r w p
       = Some (FJson (new_project_meta p meta (clock w (tick w)) (clock w (S (tick w)))))
    /\ is_Some (files w1 !! agents_path r w p)
    /\ (S (tick w) < tick w1)%nat.
Proof.
  intros Hh Hm. unfold Registry.ensureProject.
  rewrite (bind_ok _ _ _ _ _ (getProjectDir_eq _ _ _)).
  rewrite (bind_ok _ _ _ _ _ (getLogsDir_eq _ _ _)).
  rewrite (bind_ok _ _ _ _ _ (mkdirSync_ok _ _ (Hh _))).
  rewrite (bind_ok _ _ _ _ _ (mkdirSync_ok _ _ (Hh _))).
  rewrite (bind_ok _ _ _ _ _ (getProjectMetaPath_eq _ _ _)).
  rewrite (bind_ok _ _ _ _ _ (existsSync_eq _ _)).
  rewrite Hm. rewrite bool_decide_eq_false_2 by (intros [? ?]; discriminate). cbn [negb].
  unfold bind at 1. unfold bind at 1. unfold Date_now_iso at 1.
  unfold bind at 1. unfold Date_now_iso at 1.
  rewrite writeJsonAtomic_ok by (intros q; apply Hh).
  cbn [clock tick set_tick].
  fold (new_project_meta p meta (clock w (tick w)) (clock w (S (tick w)))).
  set (w1 := set_files _ _).
  destruct (registry_paths_distinct r w p) as (N1 & N2 & N3 & N4 & _).
  set (mp := meta_path r w p) in *. set (ap := agents_path r w p) in *.
  assert (E1 : same_env w w1) by by_fields.
  assert (Hh1 : fs_healthy w1) by (eapply fs_healthy_env; eauto).
  assert (M1 : files w1 !! mp
               = Some (FJson (new_project_meta p meta (clock w (tick w))
                                (clock w (S (tick w)))))).
  { subst w1. cbn [files set_files]. apply lookup_insert_eq. }
  rewrite (bind_ok _ _ _ _ _ (getAgentsPath_eq _ _ _)).
  rewrite (bind_ok _ _ _ _ _ (existsSync_eq _ _)).
  rewrite (agents_path_env r w w1 p E1). fold ap.
  destruct (files w1 !! ap) as [fa|] eqn:Ea.
  - rewrite bool_decide_eq_true_2 by eauto. cbn [negb].
    exists w1. split; [reflexivity|]. split; [exact E1|]. split; [exact M1|].
    split; [rewrite Ea; eauto|]. subst w1. cbn. lia.
  - rewrite bool_decide_eq_false_2 by (intros [? ?]; discriminate). cbn [negb].
    unfold bind at 1. unfold Date_now_iso at 1.
    rewrite writeJsonAtomic_ok by (intros q; apply Hh1).
    eexists. split; [reflexivity|]. split; [by_fields|].
    cbn [files set_files set_tick].
    split.
    { rewrite lookup_insert_ne by congruence. rewrite lookup_delete_ne by congruence.
      exact M1. }
    split; [rewrite lookup_insert_eq; eauto|]. subst w1. cbn. lia.
Qed.

(** A later [ensureProject] with something to record. *)
Lemma ensureProject_updates r p meta w :
  fs_healthy w -> meta <> [] ->
  is_Some (files w !! meta_path r w p) ->
  is_Some (files w !! agents_path r w p) ->
  Registry.ensureProject r p meta w
  = (Ok tt,
     set_files
       (<[meta_path r w p :=
           FJson (Val.obj_lit [Val.spread (read_json w (meta_path r w p) (JObj []));
                               meta;
                               [("name", JStr (Val.String_ p));
                                ("updatedAt", JStr (clock w (tick w)))]])]>
          (delete (meta_path r w p +:+ ".tmp") (files w)))
       (set_tick (S (tick w)) w)).
Proof.
  intros Hh Hmeta Hm Ha. unfold Registry.ensureProject.
  rewrite (bind_ok _ _ _ _ _ (getProjectDir_eq _ _ _)).
  rewrite (bind_ok _ _ _ _ _ (getLogsDir_eq _ _ _)).
  rewrite (bind_ok _ _ _ _ _ (mkdirSync_ok _ _ (Hh _))).
  rewrite (bind_ok _ _ _ _ _ (mkdirSync_ok _ _ (Hh _))).
  rewrite (bind_ok _ _ _ _ _ (getProjectMetaPath_eq _ _ _)).
  rewrite (bind_ok _ _ _ _ _ (existsSync_eq _ _)).
  rewrite bool_decide_eq_true_2 by exact Hm. cbn [negb].
  assert (L : Nat.ltb 0 (length meta) = true) by (destruct meta; [congruence | reflexivity]).
  rewrite L.
  unfold bind at 1. unfold bind at 1. rewrite readJson_eq.
  unfold bind at 1. unfold Date_now_iso at 1.
  rewrite writeJsonAtomic_ok by (intros q; apply Hh).
  set (w1 := set_files _ _).
  destruct (registry_paths_distinct r w p) as (N1 & N2 & _).
  assert (E1 : same_env w w1) by by_fields.
  rewrite (bind_ok _ _ _ _ _ (getAgentsPath_eq _ _ _)).
  rewrite (bind_ok _ _ _ _ _ (existsSync_eq _ _)).
  rewrite (agents_path_env r w w1 p E1).
  assert (A1 : files w1 !! agents_path r w p = files w !! agents_path r w p).
  { subst w1. cbn [files set_files set_tick].
    rewrite lookup_insert_ne by congruence. now rewrite lookup_delete_ne by congruence. }
  rewrite A1. rewrite bool_decide_eq_true_2 by exact Ha. reflexivity.
Qed.

(** X13.  [ensureProject] on a project twice, each time with a working
    directory, on a disk that takes writes: the first call creates
    [project.json] with [createdAt]; the second keeps [createdAt] and the
    [name], replaces [cwd] by the one it is given (as it is given: [null]
    erases the directory recorded before) and renews [updatedAt]. *)
Theorem ensureProject_again_keeps_createdAt (r : Registry.AgentRegistry) (p : jsval)
    (cwd1 cwd2 : jsval) (w : world T) :
  fs_healthy w ->
  files w !! meta_path r w p = None ->
  exists w1 w2 first second,
    Registry.ensureProject r p [("cwd", cwd1)] w = (Ok tt, w1)
    /\ Registry.loadProjectMeta r p w1 = (Ok first, w1)
    /\ Val.opt_get first "createdAt" = JStr (clock w (tick w))
    /\ Val.opt_get first "cwd"
       = (if Val.truthy cwd1 then JStr (Val.String_ cwd1) else JNull)
    /\ Registry.ensureProject r p [("cwd", cwd2)] w1 = (Ok tt, w2)
    /\ Registry.loadProjectMeta r p w2 = (Ok second, w2)
    /\ Val.opt_get second "name" = JStr (Val.String_ p)
    /\ Val.opt_get second "createdAt" = JStr (clock w (tick w))
    /\ Val.opt_get second "cwd" = reread cwd2
    /\ Val.opt_get second "updatedAt" = JStr (clock w (tick w1))
    /\ (S (tick w) < tick w1)%nat.
Proof.
  intros Hh Hm.
  destruct (ensureProject_creates r p [("cwd", cwd1)] w Hh Hm)
    as (w1 & Run1 & E1 & M1 & A1 & Tk).
  assert (Hh1 : fs_healthy w1) by (eapply fs_healthy_env; eauto).
  pose proof (meta_path_env r w w1 p E1) as Mp. pose proof (agents_path_env r w w1 p E1) as Ap.
  assert (Run2 := ensureProject_updates r p [("cwd", cwd2)] w1 Hh1 ltac:(discriminate)).
  rewrite Mp, Ap, M1 in Run2. specialize (Run2 ltac:(eauto) A1).
  eexists w1, _, _, _. split; [exact Run1|].
  split; [rewrite loadProjectMeta_eq; reflexivity|].
  unfold read_json at 1 2. rewrite Mp, M1.
  split; [unfold new_project_meta, Val.obj_lit; simpl;
          now destruct (Val.truthy cwd1)|].
  split; [unfold new_project_meta, Val.obj_lit; simpl;
          now destruct (Val.truthy cwd1)|].
  split; [exact Run2|].
  split; [rewrite loadProjectMeta_eq; reflexivity|].
  unfold read_json.
  match goal with |- context [meta_path r ?W p] =>
    replace (meta_path r W p) with (meta_path r w p) by (symmetry; exact Mp) end.
  cbn [files set_files]. rewrite lookup_insert_eq. rewrite M1.
  assert (C : clock w1 = clock w) by (destruct E1 as (_ & _ & C & _); exact C).
  rewrite C.
  unfold new_project_meta, Val.obj_lit, reread. simpl.
  destruct (Val.truthy cwd1); simpl;
    destruct (Val.is_undefined cwd2); simpl; repeat split; exact Tk.
Qed.


End Keeps.

(** *** What an operation asks for first *)

Section Gates.
Context {T : Type} `{Spawn T}.
Implicit Types (w : world T) (m : Mux.AgentMux).

Lemma no_current_project {A} m (k : jsval -> M T A) w :
  Val.truthy (pointer (Mux.registry m) w) = false ->
  bind (Mux._requireCurrentProject m) k w = (Throw NoCurrentProject, w).
Proof.
  intros E. unfold bind. rewrite requireCurrentProject_eq. now rewrite E.
Qed.

(** X14.  Without a current project no agent operation does anything:
    [spawn_agent], [send_to_agent], [send_to_window], [read_agent_output],
    [interrupt_agent], [kill_agent], [attach_agent], and [list_agents] when
    it is given no project, raise [NoCurrentProject] before they validate a
    name, run tmux or touch the disk. *)
Theorem agent_operations_need_a_current_project (m : Mux.AgentMux) (w : world T) :
  Val.truthy (pointer (Mux.registry m) w) = false ->
  (forall type name options,
     Mux.spawn_agent m type name options w = (Throw NoCurrentProject, w))
  /\ (forall name text, Mux.send_to_agent m name text w = (Throw NoCurrentProject, w))
  /\ (forall window text, Mux.send_to_window m window text w = (Throw NoCurrentProject, w))
  /\ (forall name lines, Mux.read_agent_output m name lines w = (Throw NoCurrentProject, w))
  /\ (forall name, Mux.interrupt_agent m name w = (Throw NoCurrentProject, w))
  /\ (forall name, Mux.kill_agent m name w = (Throw NoCurrentProject, w))
  /\ (forall name, Mux.attach_agent m name w = (Throw NoCurrentProject, w))
  /\ (forall project, Val.truthy project = false ->
        Mux.list_agents m project w = (Throw NoCurrentProject, w)).
Proof.
  intros E. repeat match goal with |- _ /\ _ => split end; intros;
    try (now apply no_current_project).
  unfold Mux.list_agents.
  match goal with Hp : Val.truthy _ = false |- _ => rewrite Hp end.
  now apply no_current_project.
Qed.

Lemma loadAgent_missing m project agentName agents w :
  registered (Mux.registry m) w project = Some agents ->
  existsb (Mux.named agentName) agents = false ->
  Mux._loadAgent m project agentName w = (Throw (AgentNotFound agentName project), w).
Proof.
  intros R E. unfold Mux._loadAgent. rewrite (bind_ok _ _ _ _ _ (loadAgents_eq _ _ _)).
  rewrite (bind_ok _ _ _ _ _ (agents_of_eq _ _ _ R)).
  destruct (List.find (Mux.named agentName) agents) as [a|] eqn:F; [|reflexivity].
  apply find_some in F as [Hin Hn].
  assert (existsb (Mux.named agentName) agents = true)
    by (apply existsb_exists; eauto).
  congruence.
Qed.

Lemma unknown_agent {A} m name agentName agents
    (k : jsval -> string -> jsval * jsval -> M T A) w :
  let project := pointer (Mux.registry m) w in
  Val.truthy project = true ->
  Mux.assertSafeName "agent" name = Ok agentName ->
  registered (Mux.registry m) w project = Some agents ->
  existsb (Mux.named agentName) agents = false ->
  bind (Mux._requireCurrentProject m) (fun project =>
    bind (Mux.lift (Mux.assertSafeName "agent" name)) (fun agentName =>
      bind (Mux._loadAgent m project agentName) (k project agentName))) w
  = (Throw (AgentNotFound agentName project), w).
Proof.
  intros project Tr Hname R E. unfold bind at 1. rewrite requireCurrentProject_eq.
  fold project. rewrite Tr. unfold bind at 1. unfold Mux.lift. rewrite Hname.
  now rewrite (bind_throw _ _ _ _ _ (loadAgent_missing m project agentName agents w R E)).
Qed.

(** X15.  An agent the registry does not list cannot be addressed: with a
    current project and a valid name that no entry of the project's agent
    list carries, [send_to_agent], [read_agent_output], [interrupt_agent],
    [kill_agent] and [attach_agent] raise [AgentNotFound] and have run no
    tmux command and written nothing; whether tmux has a window of that name
    is not looked at. *)
Theorem unregistered_agent_is_not_found (m : Mux.AgentMux) (name : jsval) (w : world T)
    (agentName : string) (agents : list jsval) :
  let project := pointer (Mux.registry m) w in
  Val.truthy project = true ->
  Mux.assertSafeName "agent" name = Ok agentName ->
  registered (Mux.registry m) w project = Some agents ->
  existsb (Mux.named agentName) agents = false ->
  (forall text,
     Mux.send_to_agent m name text w = (Throw (AgentNotFound agentName project), w))
  /\ (forall lines,
        Mux.read_agent_output m name lines w = (Throw (AgentNotFound agentName project), w))
  /\ Mux.interrupt_agent m name w = (Throw (AgentNotFound agentName project), w)
  /\ Mux.kill_agent m name w = (Throw (AgentNotFound agentName project), w)
  /\ Mux.attach_agent m name w = (Throw (AgentNotFound agentName project), w).
Proof.
  intros project Tr Hname R E.
  repeat match goal with |- _ /\ _ => split end; intros;
    apply (unknown_agent m name agentName agents _ w Tr Hname R E).
Qed.

End Gates.

Section Read_only.
Context {T : Type} `{Spawn T}.

#[export] Instance disk_untouched_preorder : PreOrder (@disk_untouched T).
Proof.
  split.
  - intros w. split; reflexivity.
  - intros a b c [D1 E1] [D2 E2]. split; etransitivity; eassumption.
Qed.

#[export] Instance disk_untouched_tmux : TmuxFrame (@disk_untouched T).
Proof. intros w t argv. split; by_fields. Qed.

(** X16.  Six operations never write: whatever they are given and however
    they end, [list_agents], [send_to_agent], [send_to_window],
    [read_agent_output], [interrupt_agent] and [attach_agent] leave every
    file of the disk as it was, and read the clock not once. *)
Theorem six_operations_never_write (m : Mux.AgentMux) :
  (forall project, preserves disk_untouched (Mux.list_agents m project))
  /\ (forall name text, preserves disk_untouched (Mux.send_to_agent m name text))
  /\ (forall window text, preserves disk_untouched (Mux.send_to_window m window text))
  /\ (forall name lines, preserves disk_untouched (Mux.read_agent_output m name lines))
  /\ (forall name, preserves disk_untouched (Mux.interrupt_agent m name))
  /\ (forall name, preserves disk_untouched (Mux.attach_agent m name)).
Proof.
  repeat match goal with |- _ /\ _ => split end; intros.
  - unfold Mux.list_agents, Mux._requireCurrentProject, Mux.agents_of. frame.
  - unfold Mux.send_to_agent, Mux._requireCurrentProject, Mux._loadAgent, Mux.agents_of,
      Mux.pane_of. frame.
  - unfold Mux.send_to_window, Mux._requireCurrentProject. frame.
  - unfold Mux.read_agent_output, Mux._requireCurrentProject, Mux._loadAgent,
      Mux.agents_of, Mux.pane_of. frame.
  - unfold Mux.interrupt_agent, Mux._requireCurrentProject, Mux._loadAgent,
      Mux.agents_of, Mux.pane_of. frame.
  - unfold Mux.attach_agent, Mux._requireCurrentProject, Mux._loadAgent, Mux.agents_of.
    frame.
Qed.

End Read_only.

Section Clients.
Context {T : Type} `{Spawn T}.
Implicit Types (b : Tmux.TmuxBackend) (w : world T) (r : Registry.AgentRegistry).

Lemma listClients_eq b w :
  Tmux.listClients b w
  = (Ok (attached_clients b w), ran b ["list-clients"; "-F"; "#{client_tty}"] w).
Proof.
  destruct (runRaw_ok b ["list-clients"; "-F"; "#{client_tty}"] w) as (x & E & Hok & Hout).
  unfold Tmux.listClients, attached_clients. rewrite (bind_ok _ _ _ _ _ E).
  rewrite Hok, Hout. now destruct (succeeded _).
Qed.

Lemma ran_all_frames b runs w :
  same_env w (ran_all b runs w) /\ same_disk w (ran_all b runs w)
  /\ trace (ran_all b runs w) = trace w ++ List.map (Tmux._buildArgs b) runs.
Proof.
  revert w. induction runs as [|args rest IH]; intros w; cbn [ran_all fold_left List.map].
  - split; [reflexivity|]. split; [reflexivity|]. now rewrite app_nil_r.
  - destruct (IH (ran b args w)) as (E & D & Tr). fold (ran_all b rest (ran b args w)).
    split; [transitivity (ran b args w); [apply ran_env | exact E]|].
    split; [transitivity (ran b args w); [apply ran_disk | exact D]|].
    rewrite Tr, ran_trace. now rewrite <- app_assoc.
Qed.

(** The loop over the clients always comes to its end: a client that
    cannot be switched is skipped. *)
Lemma switch_clients_run b clients session w :
  Mux.switch_clients b clients session w
  = (Ok tt, ran_all b (List.map (switch_client_args session) clients) w).
Proof.
  revert w. induction clients as [|tty rest IH]; intros w; cbn [Mux.switch_clients];
    [reflexivity|].
  set (args := ["switch-client"; "-c"; tty; "-t"; session]).
  assert (E : try_catch (Tmux.switchClient b tty session) (ret tt) w
              = (Ok tt, ran b args w)).
  { unfold try_catch, Tmux.switchClient. fold args.
    destruct (exec_cases b args w) as [[_ E]|[_ (msg & st & E)]].
    - now rewrite (bind_ok _ _ _ _ _ E).
    - now rewrite (bind_throw _ _ _ _ _ E). }
  rewrite (bind_ok _ _ _ _ _ E). rewrite IH. reflexivity.
Qed.


End Clients.


Section Switch.
Context {T : Type} `{Spawn T}.
Implicit Types (b : Tmux.TmuxBackend) (w : world T) (r : Registry.AgentRegistry).


(** X18.  [attach_agent] on a registered agent: the clients are switched
    as far as they can be, and then the window recorded for the agent (its
    [windowId], or [project:windowIndex] when there is none) is selected; the
    call returns exactly when that [select-window] succeeds and raises its
    error otherwise.  The tmux runs are [list-clients], one [switch-client]
    per terminal listed and the [select-window]; the disk is not written. *)
Theorem attach_agent_selects_the_window (m : Mux.AgentMux) (name : jsval) (w : world T)
    (agentName : string) (agents : list jsval) (agent : jsval) :
  let r := Mux.registry m in
  let b := Mux.tmux m in
  let project := pointer r w in
  let clients := attached_clients b w in
  let select := ["select-window"; "-t"; Mux.window_target project agent] in
  let w1 := ran_all b (["list-clients"; "-F"; "#{client_tty}"]
                       :: List.map (switch_client_args (Val.String_ project)) clients) w in
  Val.truthy project = true ->
  Mux.assertSafeName "agent" name = Ok agentName ->
  registered r w project = Some agents ->
  List.find (Mux.named agentName) agents = Some agent ->
  trace (ran b select w1)
  = trace w ++ [list_clients_argv b]
    ++ List.map (switch_client_argv b (Val.String_ project)) clients
    ++ [select_window_argv b (Mux.window_target project agent)]
  /\ files (ran b select w1) = files w
  /\ (succeeded (reply b select w1) = true ->
      Mux.attach_agent m name w
      = (Ok (Val.obj_lit [[("project", project); ("agent", JStr agentName);
                           ("attached", JBool true);
                           ("clients", JNum (Z.of_nat (length clients)))]]),
         ran b select w1))
  /\ (succeeded (reply b select w1) = false ->
      exists message status,
        Mux.attach_agent m name w
        = (Throw (BackendCommandError message status), ran b select w1)).
Proof.
  intros r b project clients select w1 Tr Hname Hreg Hfind.
  assert (Load : Mux._loadAgent m project agentName w
                 = (Ok (agents_data r w project, agent), w)).
  { unfold Mux._loadAgent. rewrite (bind_ok _ _ _ _ _ (loadAgents_eq _ _ _)).
    rewrite (bind_ok _ _ _ _ _ (agents_of_eq _ _ _ Hreg)). now rewrite Hfind. }
  assert (Pre : Mux.attach_agent m name w
             = bind (Tmux.selectWindow b (Mux.window_target project agent))
                 (fun _ => ret (Val.obj_lit [[("project", project);
                                              ("agent", JStr agentName);
                                              ("attached", JBool true);
                                              ("clients",
                                               JNum (Z.of_nat (length clients)))]])) w1).
  { unfold Mux.attach_agent. unfold bind at 1. rewrite requireCurrentProject_eq.
    fold r project. rewrite Tr. unfold bind at 1. unfold Mux.lift. rewrite Hname.
    rewrite (bind_ok _ _ _ _ _ Load). cbn [snd].
    rewrite (bind_ok _ _ _ _ _ (listClients_eq _ _)). fold b clients.
    now rewrite (bind_ok _ _ _ _ _ (switch_clients_run _ _ _ _)). }
  destruct (ran_all_frames b (["list-clients"; "-F"; "#{client_tty}"]
                       :: List.map (switch_client_args (Val.String_ project)) clients) w)
    as (_ & D1 & Tr1). fold w1 in D1, Tr1.
  split.
  { rewrite ran_trace, Tr1. cbn [List.map]. rewrite List.map_map.
    unfold list_clients_argv, select_window_argv. fold select.
    rewrite <- !app_assoc. reflexivity. }
  split.
  { destruct D1 as [D1 _]. exact D1. }
  unfold Tmux.selectWindow in Pre. fold select in Pre.
  split.
  - intros S. rewrite Pre.
    rewrite (bind_ok _ _ _ _ _ (bind_ok _ _ _ _ _ (exec_succeeds _ _ _ S))). reflexivity.
  - intros S. destruct (exec_fails b select w1 S) as (msg & st & E).
    exists msg, st. rewrite Pre.
    now rewrite (bind_throw _ _ _ _ _ (bind_throw _ _ _ _ _ E)).
Qed.

End Switch.

Section Keys.
Context {T : Type} `{Spawn T}.
Implicit Types (b : Tmux.TmuxBackend) (w : world T) (r : Registry.AgentRegistry).

Lemma loadAgent_first m project agentName agents agent w :
  registered (Mux.registry m) w project = Some agents ->
  List.find (Mux.named agentName) agents = Some agent ->
  Mux._loadAgent m project agentName w
  = (Ok (agents_data (Mux.registry m) w project, agent), w).
Proof.
  intros R F. unfold Mux._loadAgent. rewrite (bind_ok _ _ _ _ _ (loadAgents_eq _ _ _)).
  rewrite (bind_ok _ _ _ _ _ (agents_of_eq _ _ _ R)). now rewrite F.
Qed.

Lemma sendKeys_ok b pane keys w :
  succeeded (reply b (["send-keys"; "-t"; pane] ++ keys) w) = true ->
  Tmux.sendKeys b pane keys w = (Ok tt, ran b (["send-keys"; "-t"; pane] ++ keys) w).
Proof.
  intros S. unfold Tmux.sendKeys. now rewrite (bind_ok _ _ _ _ _ (exec_succeeds _ _ _ S)).
Qed.

Lemma sendKeys_fails b pane keys w :
  succeeded (reply b (["send-keys"; "-t"; pane] ++ keys) w) = false ->
  exists message status,
    Tmux.sendKeys b pane keys w
    = (Throw (BackendCommandError message status),
       ran b (["send-keys"; "-t"; pane] ++ keys) w).
Proof.
  intros S. destruct (exec_fails _ _ _ S) as (msg & st & E). exists msg, st.
  unfold Tmux.sendKeys. now rewrite (bind_throw _ _ _ _ _ E).
Qed.

(** X19.  Keys go to the pane recorded at spawn.  For a registered agent
    whose entry has a [paneId], [send_to_agent] types the text literally
    ([send-keys -t <paneId> -l <text>]) and then sends [Enter], asking tmux
    nothing else: it returns, with the UTF-8 length of the text, when both
    runs succeed; when the text cannot be typed, [Enter] is not sent; when
    only [Enter] fails, the text stays typed.  [interrupt_agent] sends [C-c]
    to the same pane and returns exactly when that run succeeds. *)
Theorem keys_go_to_the_recorded_pane (m : Mux.AgentMux) (name : jsval) (w : world T)
    (agentName : string) (agents : list jsval) (agent : jsval) :
  let r := Mux.registry m in
  let b := Mux.tmux m in
  let project := pointer r w in
  let pane := Val.String_ (Val.opt_get agent "paneId") in
  let enter := ["send-keys"; "-t"; pane; "Enter"] in
  let interrupt := ["send-keys"; "-t"; pane; "C-c"] in
  Val.truthy project = true ->
  Mux.assertSafeName "agent" name = Ok agentName ->
  registered r w project = Some agents ->
  List.find (Mux.named agentName) agents = Some agent ->
  Val.truthy (Val.opt_get agent "paneId") = true ->
  (forall text,
     let typed := ["send-keys"; "-t"; pane; "-l"; Mux.payload_of text] in
     (succeeded (reply b typed w) = false ->
      exists message status,
        Mux.send_to_agent m name text w
        = (Throw (BackendCommandError message status), ran b typed w))
     /\ (succeeded (reply b typed w) = true ->
         succeeded (reply b enter (ran b typed w)) = false ->
         exists message status,
           Mux.send_to_agent m name text w
           = (Throw (BackendCommandError message status), ran b enter (ran b typed w)))
     /\ (succeeded (reply b typed w) = true ->
         succeeded (reply b enter (ran b typed w)) = true ->
         Mux.send_to_agent m name text w
         = (Ok (Val.obj_lit [[("project", project); ("agent", JStr agentName);
                              ("sent", JBool true);
                              ("bytes", JNum (Mux.utf8_length (Mux.payload_of text)))]]),
            ran b enter (ran b typed w))))
  /\ (succeeded (reply b interrupt w) = true ->
      Mux.interrupt_agent m name w
      = (Ok (Val.obj_lit [[("project", project); ("agent", JStr agentName);
                           ("interrupted", JBool true)]]),
         ran b interrupt w))
  /\ (succeeded (reply b interrupt w) = false ->
      exists message status,
        Mux.interrupt_agent m name w
        = (Throw (BackendCommandError message status), ran b interrupt w)).
Proof.
  intros r b project pane enter interrupt Tr Hname Hreg Hfind Hpane.
  pose proof (loadAgent_first m project agentName agents agent w Hreg Hfind) as Load.
  assert (Pane : Mux.pane_of m agent w = (Ok pane, w)).
  { unfold Mux.pane_of. now rewrite Hpane. }
  assert (Send : forall text,
             Mux.send_to_agent m name text w
             = bind (Tmux.sendKeys b pane ["-l"; Mux.payload_of text]) (fun _ =>
               bind (Tmux.sendKeys b pane ["Enter"]) (fun _ =>
               ret (Val.obj_lit [[("project", project); ("agent", JStr agentName);
                                  ("sent", JBool true);
                                  ("bytes",
                                   JNum (Mux.utf8_length (Mux.payload_of text)))]]))) w).
  { intros text. unfold Mux.send_to_agent. unfold bind at 1.
    rewrite requireCurrentProject_eq. fold r project. rewrite Tr.
    unfold bind at 1. unfold Mux.lift. rewrite Hname.
    rewrite (bind_ok _ _ _ _ _ Load). cbn [snd]. now rewrite (bind_ok _ _ _ _ _ Pane). }
  assert (Int : Mux.interrupt_agent m name w
                = bind (Tmux.sendKeys b pane ["C-c"]) (fun _ =>
                  ret (Val.obj_lit [[("project", project); ("agent", JStr agentName);
                                     ("interrupted", JBool true)]])) w).
  { unfold Mux.interrupt_agent. unfold bind at 1.
    rewrite requireCurrentProject_eq. fold r project. rewrite Tr.
    unfold bind at 1. unfold Mux.lift. rewrite Hname.
    rewrite (bind_ok _ _ _ _ _ Load). cbn [snd]. now rewrite (bind_ok _ _ _ _ _ Pane). }
  split.
  { intros text typed. rewrite Send. split; [|split].
    - intros S. destruct (sendKeys_fails b pane ["-l"; Mux.payload_of text] w S)
        as (msg & st & E). exists msg, st. now rewrite (bind_throw _ _ _ _ _ E).
    - intros S1 S2. rewrite (bind_ok _ _ _ _ _ (sendKeys_ok b pane _ w S1)).
      destruct (sendKeys_fails b pane ["Enter"] _ S2) as (msg & st & E).
      exists msg, st. now rewrite (bind_throw _ _ _ _ _ E).
    - intros S1 S2. rewrite (bind_ok _ _ _ _ _ (sendKeys_ok b pane _ w S1)).
      now rewrite (bind_ok _ _ _ _ _ (sendKeys_ok b pane ["Enter"] _ S2)). }
  rewrite Int. split.
  - intros S. now rewrite (bind_ok _ _ _ _ _ (sendKeys_ok b pane ["C-c"] w S)).
  - intros S. destruct (sendKeys_fails b pane ["C-c"] w S) as (msg & st & E).
    exists msg, st. now rewrite (bind_throw _ _ _ _ _ E).
Qed.

End Keys.

Section Registration.
Context {T : Type} `{Spawn T}.
Implicit Types (b : Tmux.TmuxBackend) (w : world T) (r : Registry.AgentRegistry).

#[export] Instance keeps_registration_preorder r p : PreOrder (@keeps_registration T r p).
Proof.
  split.
  - intros w. now repeat split.
  - intros a b c (E1 & R1 & P1) (E2 & R2 & P2).
    split; [now transitivity b|]. split; congruence.
Qed.

#[export] Instance keeps_registration_tmux r p : TmuxFrame (@keeps_registration T r p).
Proof. intros w t argv. split; [by_fields|]. split; reflexivity. Qed.

Lemma keeps_registration_paths r p w w' :
  same_env w w' ->
  files w' !! agents_path r w p = files w !! agents_path r w p ->
  files w' !! current_path r w = files w !! current_path r w ->
  keeps_registration r p w w'.
Proof.
  intros E Fa Fc. split; [exact E|]. split.
  - now apply registered_frame.
  - now apply pointer_frame.
Qed.

Lemma keeps_registration_tick r p w n : keeps_registration r p w (set_tick n w).
Proof. split; [by_fields|]. split; reflexivity. Qed.

Lemma getAgentLogPath_eq r p a w :
  Registry.getAgentLogPath r p a w = (Ok (log_path r w p a), w).
Proof.
  unfold Registry.getAgentLogPath. now rewrite (bind_ok _ _ _ _ _ (getLogsDir_eq _ _ _)).
Qed.

Lemma log_path_env r w w' p a : same_env w w' -> log_path r w' p a = log_path r w p a.
Proof. intros E. unfold log_path, project_dir. now rewrite (same_env_root r _ _ E). Qed.

Lemma log_path_apart r w p a :
  log_path r w p a <> agents_path r w p /\ log_path r w p a <> current_path r w.
Proof.
  unfold log_path, agents_path, current_path, project_dir.
  assert (N : forall d x, path_join (path_join d Registry.LOGS_DIR) x
                          = path_join d (Registry.LOGS_DIR +:+ "/" +:+ x)).
  { intros d x. unfold path_join. now rewrite !append_assoc. }
  rewrite N. split; intros E.
  - apply path_join_inj_r in E. discriminate E.
  - revert E. now apply under_project_ne.
Qed.


(** One step of a method under a frame, at the world it runs in. *)
Lemma bind_step (R : world T -> world T -> Prop) `{!PreOrder R} {A B}
    (m : M T A) (f : A -> M T B) (Q : outcome B * world T -> Prop) w0 w :
  R w0 w -> R w (snd (m w)) ->
  (forall e w1, R w0 w1 -> Q (Throw e, w1)) ->
  (forall a w1, R w0 w1 -> m w = (Ok a, w1) -> Q (f a w1)) ->
  Q (bind m f w).
Proof.
  intros H0 Hm Ht Hk. unfold bind.
  destruct (m w) as [[a|e] w1] eqn:E; cbn [snd] in Hm.
  - apply Hk; [now transitivity w | reflexivity].
  - apply Ht. now transitivity w.
Qed.

(** [ensureProject] writes nothing but the two files of the project and
    their temporary files. *)
Lemma ensureProject_elsewhere r p meta q w :
  q <> meta_path r w p -> q <> meta_path r w p +:+ ".tmp" ->
  q <> agents_path r w p -> q <> agents_path r w p +:+ ".tmp" ->
  keeps_path q w (snd (Registry.ensureProject r p meta w)).
Proof.
  intros N1 N2 N3 N4.
  set (Q := fun ow : outcome unit * world T => keeps_path q w (snd ow)).
  change (Q (Registry.ensureProject r p meta w)).
  assert (Stop : forall (e : error) w1, keeps_path q w w1 -> Q (Throw e, w1))
    by (intros e w1 K; exact K).
  assert (KM : forall d, preserves (keeps_path q)
                           (@Registry.writeJsonAtomic T (meta_path r w p) d)).
  { intros d. apply keeps_writeJsonAtomic; congruence. }
  assert (KA : forall d, preserves (keeps_path q)
                           (@Registry.writeJsonAtomic T (agents_path r w p) d)).
  { intros d. apply keeps_writeJsonAtomic; congruence. }
  pose proof (keeps_Date (T:=T) q) as KD.
  unfold Registry.ensureProject.
  eapply (fun m f => bind_frame (keeps_path q) m f Q); [reflexivity | frame | exact Stop |].
  intros dir w1 K1.
  eapply (fun m f => bind_frame (keeps_path q) m f Q); [exact K1 | frame | exact Stop |].
  intros logsDir w2 K2.
  eapply (fun m f => bind_frame (keeps_path q) m f Q); [exact K2 | frame | exact Stop |].
  intros u3 w3 K3.
  eapply (fun m f => bind_frame (keeps_path q) m f Q); [exact K3 | frame | exact Stop |].
  intros u4 w4 K4.
  rewrite (bind_ok _ _ _ _ _ (getProjectMetaPath_eq _ _ _)).
  rewrite (meta_path_env r w w4 p (proj1 K4)).
  eapply (fun m f => bind_frame (keeps_path q) m f Q); [exact K4 | frame | exact Stop |].
  intros e5 w5 K5.
  eapply (fun m f => bind_frame (keeps_path q) m f Q);
    [exact K5 | repeat first [apply KM | apply KD | frame_step] | exact Stop |].
  intros u6 w6 K6.
  rewrite (bind_ok _ _ _ _ _ (getAgentsPath_eq _ _ _)).
  rewrite (agents_path_env r w w6 p (proj1 K6)).
  eapply (fun m f => bind_frame (keeps_path q) m f Q); [exact K6 | frame | exact Stop |].
  intros e7 w7 K7.
  assert (Last : preserves (@keeps_path T q)
            (if negb e7
             then bind Date_now_iso (fun updatedAt =>
                    Registry.writeJsonAtomic (agents_path r w p)
                      (Val.obj_lit [[("project", JStr (Val.String_ p));
                                     ("agents", JArr []);
                                     ("updatedAt", JStr updatedAt)]]))
             else ret tt)).
  { repeat first [apply KA | apply KD | frame_step]. }
  subst Q. cbn beta. transitivity w7; [exact K7 | apply Last].
Qed.

Lemma ensureProject_keeps_registration r p meta w :
  keeps_registration r p w (snd (Registry.ensureProject r p meta w)).
Proof.
  destruct (ensureProject_keeps_agents r p meta w) as (E & R & _).
  destruct (registry_paths_distinct r w p) as (_ & _ & _ & _ & C1 & C2 & C3 & C4 & _).
  destruct (ensureProject_elsewhere r p meta (current_path r w) w C1 C2 C3 C4) as [_ F].
  split; [exact E|]. split; [exact R|]. now apply pointer_frame.
Qed.

(** Every way [saveAgents] can end. *)
Lemma saveAgents_cases r p data w :
  match Registry.saveAgents r p data w with
  | (Ok _, w') =>
      w' = set_files (<[agents_path r w p := FJson (saved_agents p data (clock w (tick w)))]>
                        (delete (agents_path r w p +:+ ".tmp") (files w)))
                     (set_tick (S (tick w)) w)
  | (Throw _, w') => keeps_registration r p w w'
  end.
Proof.
  unfold Registry.saveAgents.
  rewrite (bind_ok _ _ _ _ _ (getAgentsPath_eq _ _ _)).
  unfold bind at 1. unfold Date_now_iso at 1.
  match goal with |- context [Registry.writeJsonAtomic ?q ?d ?w1] =>
    pose proof (writeJsonAtomic_cases q d w1) as C;
    destruct (Registry.writeJsonAtomic q d w1) as [[u|e] w'] end.
  - exact C.
  - destruct (registry_paths_distinct r w p) as (_ & _ & _ & _ & _ & _ & _ & C4 & _).
    destruct C as [_ [-> | ->]].
    + apply keeps_registration_tick.
    + apply keeps_registration_paths; [by_fields | |]; cbn [files set_files set_tick].
      * apply lookup_insert_ne, tmp_differs.
      * apply lookup_insert_ne. congruence.
Qed.

(** The agent list of what [saveAgents] writes, as it is read back. *)
Lemma agent_list_written p data l now :
  agent_list (Val.json_roundtrip
                (saved_agents p (Val.obj_lit [Val.spread data; [("agents", JArr l)]]) now))
  = Some (List.map Val.json_roundtrip l).
Proof.
  unfold saved_agents, Val.obj_lit. simpl fold_left.
  set (kv1 := Val.set_prop "agents" (JArr l) (Val.set_props (Val.spread data) [])).
  assert (D1 : distinct_keys kv1).
  { apply set_prop_distinct, set_props_keeps_distinct. exact I. }
  rewrite (set_props_nil_distinct kv1 D1).
  set (kv2 := Val.set_prop "updatedAt" _ _).
  assert (L : Val.lookup_prop "agents" kv2 = Some (JArr l)).
  { subst kv2 kv1. rewrite !lookup_set_prop. reflexivity. }
  unfold agent_list, Val.get. simpl Val.json_roundtrip at 1. cbv beta iota.
  change (JObj (flat_map _ kv2)) with (Val.json_roundtrip (JObj kv2)).
  rewrite (lookup_roundtrip _ _ _ L eq_refl). reflexivity.
Qed.

Lemma registered_is_json r w p l :
  registered r w p = Some l -> Forall (fun x => is_json x = true) l.
Proof.
  intros R. destruct l as [|x t]; [constructor|].
  eapply is_json_agent_list; [|exact R].
  eapply agents_data_is_json; [exact R | discriminate].
Qed.


Lemma touch_log_keeps r p a w :
  keeps_registration r p w
    (snd (try_catch (open_append_close (log_path r w p a)) (ret tt) w)).
Proof.
  destruct (log_path_apart r w p a) as [N1 N2].
  unfold try_catch, open_append_close.
  destruct (fs_refuses w _); [reflexivity|].
  destruct (files w !! log_path r w p a); [reflexivity|]. cbn [snd].
  apply keeps_registration_paths; [by_fields | |]; cbn [files set_files];
    apply lookup_insert_ne; congruence.
Qed.

(** A step that changes no file and no registration. *)
Ltac kept :=
  match goal with
  | |- ?R ?w (snd (?m ?w)) =>
      let P := fresh in assert (P : preserves R m) by frame; apply P
  end.

(** [spawn_agent] and the registry, once a project is current and the
    name is accepted. *)
Lemma spawn_agent_registration (m : Mux.AgentMux) (type name options : jsval)
    (w : world T) (agentName : string) :
  let r := Mux.registry m in
  let p := pointer r w in
  Val.truthy p = true ->
  Mux.assertSafeName "agent" name = Ok agentName ->
  match Mux.spawn_agent m type name options w with
  | (Throw _, w') => keeps_registration r p w w'
  | (Ok entry, w') =>
      same_env w w' /\ pointer r w' = p
      /\ Val.opt_get entry "name" = JStr agentName
      /\ exists existing,
           registered r w p = Some existing
           /\ existsb (Mux.named agentName) existing = false
           /\ registered r w' p = Some (existing ++ [Val.json_roundtrip entry])
  end.
Proof.
  intros r p Tr Hname.
  set (Q := fun ow : outcome jsval * world T =>
              match ow with
              | (Throw _, w') => keeps_registration r p w w'
              | (Ok entry, w') =>
                  same_env w w' /\ pointer r w' = p
                  /\ Val.opt_get entry "name" = JStr agentName
                  /\ exists existing,
                       registered r w p = Some existing
                       /\ existsb (Mux.named agentName) existing = false
                       /\ registered r w' p
                          = Some (existing ++ [Val.json_roundtrip entry])
              end).
  change (Q (Mux.spawn_agent m type name options w)).
  assert (Stop : forall (e : error) w1, keeps_registration r p w w1 -> Q (Throw e, w1))
    by (intros e w1 K; exact K).
  unfold Mux.spawn_agent. unfold bind at 1. rewrite requireCurrentProject_eq.
  fold r p. rewrite Tr.
  unfold bind at 1. unfold Mux.lift. rewrite Hname.
  destruct (bool_decide _); cbn [negb]; [|apply Stop; reflexivity].
  rewrite (bind_ok _ _ _ _ _ (hasSession_eq _ _ _)).
  set (w1 := ran (Mux.tmux m) ["has-session"; "-t"; Val.String_ p] w).
  assert (K1 : keeps_registration r p w w1) by apply keeps_registration_tmux.
  destruct (succeeded _); cbn [negb]; [|apply Stop, K1].
  eapply (fun m f => bind_step (keeps_registration r p) m f Q);
    [exact K1 | apply ensureProject_keeps_registration | exact Stop |].
  intros u2 w2 K2 _.
  rewrite (bind_ok _ _ _ _ _ (loadAgents_eq _ _ _)).
  eapply (fun m f => bind_step (keeps_registration r p) m f Q);
    [exact K2 | kept | exact Stop |].
  intros existing w3 _ E3. apply agents_of_inv in E3 as [L3 ->].
  assert (R0 : registered r w p = Some existing).
  { destruct K2 as (_ & <- & _). exact L3. }
  destruct (existsb (Mux.named agentName) existing) eqn:Hex; [apply Stop, K2|].
  eapply (fun m f => bind_step (keeps_registration r p) m f Q);
    [exact K2 | kept | exact Stop |].
  intros projectMeta w4 K4 _.
  eapply (fun m f => bind_step (keeps_registration r p) m f Q);
    [exact K4 | kept | exact Stop |].
  intros pcwd w5 K5 _.
  eapply (fun m f => bind_step (keeps_registration r p) m f Q);
    [exact K5 | unfold Mux.resolve_or; kept | exact Stop |].
  intros agentCwd w6 K6 _.
  eapply (fun m f => bind_step (keeps_registration r p) m f Q);
    [exact K6 | kept | exact Stop |].
  intros cmd w7 K7 _.
  eapply (fun m f => bind_step (keeps_registration r p) m f Q);
    [exact K7 | kept | exact Stop |].
  intros win w8 K8 _.
  eapply (fun m f => bind_step (keeps_registration r p) m f Q);
    [exact K8 | kept | exact Stop |].
  intros u9 w9 K9 _.
  eapply (fun m f => bind_step (keeps_registration r p) m f Q);
    [exact K9 | kept | exact Stop |].
  intros u10 w10 K10 _.
  eapply (fun m f => bind_step (keeps_registration r p) m f Q);
    [exact K10 | kept | exact Stop |].
  intros paneId w11 K11 _.
  rewrite (bind_ok _ _ _ _ _ (getAgentLogPath_eq _ _ _ _)).
  eapply (fun m f => bind_step (keeps_registration r p) m f Q);
    [exact K11 | kept | exact Stop |].
  intros u12 w12 K12 _.
  eapply (fun m f => bind_step (keeps_registration r p) m f Q);
    [exact K12
    | rewrite (log_path_env r w w11 p agentName (proj1 K11)),
        <- (log_path_env r w w12 p agentName (proj1 K12));
      apply touch_log_keeps
    | exact Stop |].
  intros u13 w13 K13 _.
  eapply (fun m f => bind_step (keeps_registration r p) m f Q);
    [exact K13 | kept | exact Stop |].
  intros u14 w14 K14 _.
  eapply (fun m f => bind_step (keeps_registration r p) m f Q);
    [exact K14 | apply keeps_registration_tick | exact Stop |].
  intros createdAt w15 K15 _.
  match goal with |- Q (bind (Registry.saveAgents r p ?d) _ w15) =>
    pose proof (saveAgents_cases r p d w15) as C;
    destruct (Registry.saveAgents r p d w15) as [[u|e] w16] eqn:Save
  end.
  2:{ rewrite (bind_throw _ _ _ _ _ Save). apply Stop. now transitivity w15. }
  rewrite (bind_ok _ _ _ _ _ Save). unfold ret, Q.
  destruct K15 as (E15 & R15 & P15).
  pose proof (agents_path_env r w w15 p E15) as Ap.
  pose proof (current_path_env r w w15 E15) as Cp.
  destruct (registry_paths_distinct r w15 p) as (_ & _ & _ & _ & _ & _ & C3 & C4 & _).
  assert (E16 : same_env w15 w16) by (subst w16; by_fields).
  split; [now transitivity w15|].
  split.
  { transitivity (pointer r w15); [|exact P15]. apply pointer_frame; [exact E16|].
    subst w16. cbn [files set_files set_tick].
    rewrite lookup_insert_ne by congruence. now rewrite lookup_delete_ne by congruence. }
  split; [reflexivity|].
  exists existing. split; [exact R0|]. split; [exact Hex|].
  unfold registered, agents_data, read_json.
  rewrite (agents_path_env r w15 w16 p E16).
  subst w16. cbn [files set_files set_tick]. rewrite lookup_insert_eq.
  rewrite agent_list_written, map_app. cbn [List.map].
  now rewrite (map_roundtrip_json existing (registered_is_json r w p existing R0)).
Qed.


(** [kill_agent] that raises, once a project is current and the name is
    accepted. *)
Lemma kill_agent_registration (m : Mux.AgentMux) (name : jsval) (w : world T)
    (agentName : string) :
  let r := Mux.registry m in
  let p := pointer r w in
  Val.truthy p = true ->
  Mux.assertSafeName "agent" name = Ok agentName ->
  match Mux.kill_agent m name w with
  | (Throw _, w') => keeps_registration r p w w'
  | (Ok _, _) => True
  end.
Proof.
  intros r p Tr Hname.
  set (Q := fun ow : outcome jsval * world T =>
              match ow with
              | (Throw _, w') => keeps_registration r p w w'
              | (Ok _, _) => True
              end).
  change (Q (Mux.kill_agent m name w)).
  assert (Stop : forall (e : error) w1, keeps_registration r p w w1 -> Q (Throw e, w1))
    by (intros e w1 K; exact K).
  unfold Mux.kill_agent. unfold bind at 1. rewrite requireCurrentProject_eq.
  fold r p. rewrite Tr.
  unfold bind at 1. unfold Mux.lift. rewrite Hname.
  eapply (fun m f => bind_step (keeps_registration r p) m f Q);
    [reflexivity | unfold Mux._loadAgent; kept | exact Stop |].
  intros da w1 K1 _.
  eapply (fun m f => bind_step (keeps_registration r p) m f Q);
    [exact K1 | kept | exact Stop |].
  intros u2 w2 K2 _.
  eapply (fun m f => bind_step (keeps_registration r p) m f Q);
    [exact K2 | kept | exact Stop |].
  intros agents w3 K3 _.
  match goal with |- Q (bind (Registry.saveAgents r p ?d) _ w3) =>
    pose proof (saveAgents_cases r p d w3) as C;
    destruct (Registry.saveAgents r p d w3) as [[u|e] w4] eqn:Save
  end.
  - rewrite (bind_ok _ _ _ _ _ Save). exact I.
  - rewrite (bind_throw _ _ _ _ _ Save). apply Stop. now transitivity w3.
Qed.

(** X20.  A [spawn_agent] or a [kill_agent] that raises has registered
    nothing and unregistered nothing: whatever the arguments, the disk and
    the tmux server, after the exception the registry reads the same agent
    list for the current project, and the same current project, as before
    the call. *)
Theorem failed_spawn_or_kill_keeps_the_registry (m : Mux.AgentMux) (w : world T) :
  let r := Mux.registry m in
  let p := pointer r w in
  (forall type name options e w',
     Mux.spawn_agent m type name options w = (Throw e, w') ->
     registered r w' p = registered r w p /\ pointer r w' = p)
  /\ (forall name e w',
        Mux.kill_agent m name w = (Throw e, w') ->
        registered r w' p = registered r w p /\ pointer r w' = p).
Proof.
  intros r p. split.
  - intros type name options e w' Run.
    destruct (Val.truthy p) eqn:Tr.
    2:{ unfold Mux.spawn_agent in Run. unfold bind at 1 in Run.
        rewrite requireCurrentProject_eq in Run. fold r p in Run. rewrite Tr in Run.
        injection Run as _ <-. now split. }
    destruct (Mux.assertSafeName "agent" name) as [agentName|e0] eqn:Hname.
    2:{ unfold Mux.spawn_agent in Run. unfold bind at 1 in Run.
        rewrite requireCurrentProject_eq in Run. fold r p in Run. rewrite Tr in Run.
        unfold bind at 1 in Run. unfold Mux.lift in Run. rewrite Hname in Run.
        injection Run as _ <-. now split. }
    pose proof (spawn_agent_registration m type name options w agentName Tr Hname) as S.
    rewrite Run in S. destruct S as (_ & R & P). now split.
  - intros name e w' Run.
    destruct (Val.truthy p) eqn:Tr.
    2:{ unfold Mux.kill_agent in Run. unfold bind at 1 in Run.
        rewrite requireCurrentProject_eq in Run. fold r p in Run. rewrite Tr in Run.
        injection Run as _ <-. now split. }
    destruct (Mux.assertSafeName "agent" name) as [agentName|e0] eqn:Hname.
    2:{ unfold Mux.kill_agent in Run. unfold bind at 1 in Run.
        rewrite requireCurrentProject_eq in Run. fold r p in Run. rewrite Tr in Run.
        unfold bind at 1 in Run. unfold Mux.lift in Run. rewrite Hname in Run.
        injection Run as _ <-. now split. }
    pose proof (kill_agent_registration m name w agentName Tr Hname) as S.
    rewrite Run in S. destruct S as (_ & R & P). now split.
Qed.

Lemma opt_get_roundtrip_str v k s :
  Val.opt_get v k = JStr s -> Val.opt_get (Val.json_roundtrip v) k = JStr s.
Proof.
  destruct v; try discriminate. intros E.
  assert (L : Val.lookup_prop k kv = Some (JStr s)).
  { unfold Val.opt_get in E. destruct (Val.lookup_prop k kv) as [x|]; simpl in E;
      [now subst x | discriminate]. }
  exact (lookup_roundtrip _ _ _ L eq_refl).
Qed.

Lemma find_last_named n l x :
  existsb (Mux.named n) l = false -> Mux.named n x = true ->
  List.find (Mux.named n) (l ++ [x]) = Some x
  /\ List.filter (fun a => negb (Mux.named n a)) (l ++ [x]) = l.
Proof.
  intros E N. induction l as [|y t IH]; simpl in *.
  - now rewrite N.
  - apply orb_false_iff in E as [Ey Et]. rewrite Ey. simpl.
    destruct (IH Et) as [F G]. now rewrite F, G.
Qed.

(** X21.  A [spawn_agent] that returns has registered what it returns:
    the name was accepted and was not registered in the current project,
    the agent list of the project is afterwards the old list followed by
    the returned entry (as JSON reads it back), the current project is the
    same, and [_loadAgent] on that name finds this entry. *)
Theorem spawn_agent_registers_its_entry (m : Mux.AgentMux) (type name options : jsval)
    (w w' : world T) (entry : jsval) :
  let r := Mux.registry m in
  let p := pointer r w in
  Mux.spawn_agent m type name options w = (Ok entry, w') ->
  exists agentName existing,
    Mux.assertSafeName "agent" name = Ok agentName
    /\ Val.truthy p = true
    /\ registered r w p = Some existing
    /\ existsb (Mux.named agentName) existing = false
    /\ registered r w' p = Some (existing ++ [Val.json_roundtrip entry])
    /\ pointer r w' = p
    /\ Mux._loadAgent m p agentName w'
       = (Ok (agents_data r w' p, Val.json_roundtrip entry), w').
Proof.
  intros r p Run.
  destruct (Val.truthy p) eqn:Tr.
  2:{ unfold Mux.spawn_agent in Run. unfold bind at 1 in Run.
      rewrite requireCurrentProject_eq in Run. fold r p in Run. rewrite Tr in Run.
      discriminate Run. }
  destruct (Mux.assertSafeName "agent" name) as [agentName|e0] eqn:Hname.
  2:{ unfold Mux.spawn_agent in Run. unfold bind at 1 in Run.
      rewrite requireCurrentProject_eq in Run. fold r p in Run. rewrite Tr in Run.
      unfold bind at 1 in Run. unfold Mux.lift in Run. rewrite Hname in Run.
      discriminate Run. }
  pose proof (spawn_agent_registration m type name options w agentName Tr Hname) as S.
  rewrite Run in S. destruct S as (E & P & N & existing & R0 & Hex & R1).
  exists agentName, existing. repeat (split; [assumption || reflexivity|]).
  assert (Nm : Mux.named agentName (Val.json_roundtrip entry) = true).
  { unfold Mux.named. rewrite (opt_get_roundtrip_str _ _ _ N). simpl.
    apply String.eqb_refl. }
  destruct (find_last_named agentName existing _ Hex Nm) as [F _].
  unfold Mux._loadAgent. rewrite (bind_ok _ _ _ _ _ (loadAgents_eq _ _ _)).
  fold r. rewrite (bind_ok _ _ _ _ _ (agents_of_eq _ _ _ R1)). now rewrite F.
Qed.


(** [kill_agent] on a registered agent, on a disk that takes writes. *)
Lemma kill_agent_returns (m : Mux.AgentMux) (name : jsval) (w : world T)
    (agentName : string) (agents : list jsval) :
  let r := Mux.registry m in
  let p := pointer r w in
  Val.truthy p = true ->
  Mux.assertSafeName "agent" name = Ok agentName ->
  registered r w p = Some agents ->
  existsb (Mux.named agentName) agents = true ->
  fs_healthy w ->
  exists w',
    Mux.kill_agent m name w
    = (Ok (Val.obj_lit [[("project", p); ("agent", JStr agentName);
                         ("killed", JBool true)]]), w')
    /\ same_env w w'
    /\ registered r w' p
       = Some (List.filter (fun a => negb (Mux.named agentName a)) agents)
    /\ pointer r w' = p.
Proof.
  intros r p Tr Hname Hreg Hex Hh.
  destruct (loadAgent_found m p agentName agents w Hreg Hex) as (agent & F & L).
  set (w1 := ran (Mux.tmux m) ["kill-window"; "-t"; Mux.window_target p agent] w).
  assert (E1 : same_env w w1) by apply ran_env.
  assert (Hh1 : fs_healthy w1) by (eapply fs_healthy_env; eauto).
  set (next := List.filter (fun a => negb (Mux.named agentName a)) agents).
  set (data := agents_data r w p) in *.
  set (saved := saved_agents p (Val.obj_lit [Val.spread data; [("agents", JArr next)]])
                  (clock w (tick w))).
  set (w' := set_files (<[agents_path r w p := FJson saved]>
                          (delete (agents_path r w p +:+ ".tmp") (files w)))
                       (set_tick (S (tick w)) w1)).
  exists w'. split.
  { unfold Mux.kill_agent. unfold bind at 1. rewrite requireCurrentProject_eq.
    fold r p. rewrite Tr.
    unfold bind at 1. unfold Mux.lift. rewrite Hname.
    rewrite (bind_ok _ _ _ _ _ L). cbn [fst snd].
    rewrite (bind_ok _ _ _ _ _ (killWindow_swallowed _ _ _)). fold w1.
    rewrite (bind_ok _ _ _ _ _ (agents_of_eq _ _ _ Hreg)).
    rewrite (bind_ok _ _ _ _ _ (saveAgents_ok _ _ _ _ Hh1)).
    reflexivity. }
  split; [subst w'; by_fields|].
  destruct (registry_paths_distinct r w p) as (_ & _ & _ & _ & _ & _ & C3 & C4 & _).
  split.
  - unfold registered, agents_data, read_json.
    replace (agents_path r w' p) with (agents_path r w p) by reflexivity.
    subst w'. cbn [files set_files]. rewrite lookup_insert_eq.
    apply agent_list_saved. apply Forall_filter_json.
    now apply (registered_is_json r w p).
  - apply pointer_frame; [subst w'; by_fields|].
    subst w'. cbn [files set_files set_tick].
    rewrite lookup_insert_ne by congruence. now rewrite lookup_delete_ne by congruence.
Qed.

(** X22.  Spawn, then kill: on a disk that takes writes, after a
    [spawn_agent] that returned, [kill_agent] on the same name returns
    (whatever tmux answers), and the registry reads the agent list and the
    current project it read before the spawn. *)
Theorem spawn_then_kill_restores_the_registry (m : Mux.AgentMux)
    (type name options : jsval) (w w1 : world T) (entry : jsval) :
  let r := Mux.registry m in
  let p := pointer r w in
  fs_healthy w ->
  Mux.spawn_agent m type name options w = (Ok entry, w1) ->
  exists w2,
    Mux.kill_agent m name w1
    = (Ok (Val.obj_lit [[("project", p); ("agent", Val.opt_get entry "name");
                         ("killed", JBool true)]]), w2)
    /\ registered r w2 p = registered r w p
    /\ pointer r w2 = p.
Proof.
  intros r p Hh Run.
  destruct (Val.truthy p) eqn:Tr.
  2:{ unfold Mux.spawn_agent in Run. unfold bind at 1 in Run.
      rewrite requireCurrentProject_eq in Run. fold r p in Run. rewrite Tr in Run.
      discriminate Run. }
  destruct (Mux.assertSafeName "agent" name) as [agentName|e0] eqn:Hname.
  2:{ unfold Mux.spawn_agent in Run. unfold bind at 1 in Run.
      rewrite requireCurrentProject_eq in Run. fold r p in Run. rewrite Tr in Run.
      unfold bind at 1 in Run. unfold Mux.lift in Run. rewrite Hname in Run.
      discriminate Run. }
  pose proof (spawn_agent_registration m type name options w agentName Tr Hname) as S.
  rewrite Run in S. destruct S as (E & P & N & existing & R0 & Hex & R1).
  assert (Nm : Mux.named agentName (Val.json_roundtrip entry) = true).
  { unfold Mux.named. rewrite (opt_get_roundtrip_str _ _ _ N). simpl.
    apply String.eqb_refl. }
  destruct (find_last_named agentName existing _ Hex Nm) as [_ G].
  assert (Hex1 : existsb (Mux.named agentName) (existing ++ [Val.json_roundtrip entry])
                 = true).
  { rewrite existsb_app. simpl. rewrite Nm. now rewrite orb_true_r. }
  fold r in P. 
  destruct (kill_agent_returns m name w1 agentName
              (existing ++ [Val.json_roundtrip entry])) as (w2 & Kill & E2 & R2 & P2);
    fold r; rewrite ?P; try assumption.
  { eapply fs_healthy_env; eauto. }
  exists w2. rewrite N. fold r in Kill, R2, P2. rewrite P in Kill, R2, P2.
  split; [exact Kill|]. split; [|exact P2].
  transitivity (Some existing); [|symmetry; exact R0]. rewrite G in R2. exact R2.
Qed.

End Registration.

Section Project_agents.
Context {T : Type} `{Spawn T}.
Implicit Types (b : Tmux.TmuxBackend) (w : world T) (r : Registry.AgentRegistry).

#[export] Instance keeps_agents_preorder r q : PreOrder (@keeps_agents T r q).
Proof.
  split.
  - intros w. now split.
  - intros a b c (E1 & R1) (E2 & R2). split; [now transitivity b | congruence].
Qed.

#[export] Instance keeps_agents_tmux r q : TmuxFrame (@keeps_agents T r q).
Proof. intros w t argv. split; [by_fields | reflexivity]. Qed.

Lemma keeps_agents_path r q w w' :
  keeps_path (agents_path r w q) w w' -> keeps_agents r q w w'.
Proof. intros [E F]. split; [exact E | now apply registered_frame]. Qed.

Lemma agents_ensureProject r q meta :
  preserves (keeps_agents r q) (@Registry.ensureProject T r q meta).
Proof.
  intros w. destruct (ensureProject_keeps_agents r q meta w) as (E & R & _). now split.
Qed.

Lemma agents_setCurrentProject r q x :
  preserves (keeps_agents r q) (@Registry.setCurrentProject T r x).
Proof.
  intros w. unfold Registry.setCurrentProject.
  rewrite (bind_ok _ _ _ _ _ (currentProjectPath_eq _ _)).
  unfold bind at 1. unfold Date_now_iso at 1.
  destruct (registry_paths_distinct r w q) as (_ & _ & _ & _ & _ & _ & C3 & _ & _ & _ & C11 & _).
  transitivity (set_tick (S (tick w)) w); [split; [by_fields | reflexivity]|].
  apply keeps_agents_path.
  replace (agents_path r (set_tick (S (tick w)) w) q) with (agents_path r w q)
    by reflexivity.
  replace (current_path r w) with (current_path r (set_tick (S (tick w)) w)) at 1
    by reflexivity.
  apply keeps_writeJsonAtomic; [exact C3 | exact C11].
Qed.

Lemma agents_clearCurrentProject r q :
  preserves (keeps_agents r q) (@Registry.clearCurrentProject T r).
Proof.
  intros w. unfold Registry.clearCurrentProject.
  rewrite (bind_ok _ _ _ _ _ (currentProjectPath_eq _ _)).
  destruct (registry_paths_distinct r w q) as (_ & _ & _ & _ & _ & _ & C3 & _).
  unfold try_catch, unlinkSync.
  destruct (files w !! current_path r w); [|reflexivity].
  destruct (fs_refuses w _); [reflexivity|]. cbn [snd].
  apply keeps_agents_path. split; [by_fields|]. cbn [files set_files].
  apply lookup_delete_ne. congruence.
Qed.

Ltac agents_kept :=
  repeat first
    [ apply agents_ensureProject | apply agents_setCurrentProject
    | apply agents_clearCurrentProject | apply mux_switch_clients; typeclasses eauto
    | frame_step ].

(** X23.  The project operations never touch a project's agents.
    [close_project] leaves the agent list of every project as the registry
    read it before (the agents of the closed project stay registered), and
    [create_project] and [switch_project] leave the list of the project
    they name as it was, however the calls end. *)
Theorem project_operations_keep_the_agents (m : Mux.AgentMux) (name : jsval)
    (w : world T) :
  let r := Mux.registry m in
  (forall q, registered r (snd (Mux.close_project m name w)) q = registered r w q)
  /\ (forall project,
        Mux.assertSafeName "project" name = Ok project ->
        (forall cwd,
           registered r (snd (Mux.create_project m name cwd w)) (JStr project)
           = registered r w (JStr project))
        /\ registered r (snd (Mux.switch_project m name w)) (JStr project)
           = registered r w (JStr project)).
Proof.
  intros r. split.
  - intros q.
    assert (P : preserves (keeps_agents r q) (Mux.close_project m name)).
    { unfold Mux.close_project. agents_kept. }
    apply (P w).
  - intros project Hname. split.
    + intros cwd. unfold Mux.create_project. unfold bind at 1. unfold Mux.lift.
      rewrite Hname.
      match goal with |- registered r (snd (?k w)) ?q = _ =>
        assert (P : preserves (keeps_agents r q) k)
          by (unfold Mux.resolve_or; agents_kept);
        apply (P w) end.
    + unfold Mux.switch_project. unfold bind at 1. unfold Mux.lift. rewrite Hname.
      match goal with |- registered r (snd (?k w)) ?q = _ =>
        assert (P : preserves (keeps_agents r q) k) by agents_kept;
        apply (P w) end.
Qed.

End Project_agents.



Section New_window.
Context {T : Type} `{Spawn T}.
Implicit Types (b : Tmux.TmuxBackend) (w : world T).


End New_window.

Section Window_text.
Context {T : Type} `{Spawn T}.
Implicit Types (b : Tmux.TmuxBackend) (w : world T).

(** X25.  [send_to_window] asks the registry nothing about the window and
    checks no name: with a current project, whatever [windowName] and
    [text] are, it types the text into the target [<project>:<windowName>]
    and sends [Enter].  When the text cannot be typed, [Enter] is not sent;
    no run other than these two is made. *)
Theorem send_to_window_goes_unchecked (m : Mux.AgentMux) (windowName text : jsval)
    (w : world T) :
  let r := Mux.registry m in
  let b := Mux.tmux m in
  let project := pointer r w in
  let target := Val.String_ project +:+ ":" +:+ Val.String_ windowName in
  let typed := ["send-keys"; "-t"; target; "-l"; Mux.payload_of text] in
  let enter := ["send-keys"; "-t"; target; "Enter"] in
  Val.truthy project = true ->
  (succeeded (reply b typed w) = false ->
   exists message status,
     Mux.send_to_window m windowName text w
     = (Throw (BackendCommandError message status), ran b typed w))
  /\ (succeeded (reply b typed w) = true ->
      succeeded (reply b enter (ran b typed w)) = false ->
      exists message status,
        Mux.send_to_window m windowName text w
        = (Throw (BackendCommandError message status), ran b enter (ran b typed w)))
  /\ (succeeded (reply b typed w) = true ->
      succeeded (reply b enter (ran b typed w)) = true ->
      Mux.send_to_window m windowName text w
      = (Ok (Val.obj_lit [[("project", project); ("window", windowName);
                           ("sent", JBool true);
                           ("bytes", JNum (Mux.utf8_length (Mux.payload_of text)))]]),
         ran b enter (ran b typed w))).
Proof.
  intros r b project target typed enter Tr.
  assert (Send : Mux.send_to_window m windowName text w
                 = bind (Tmux.sendKeys b target ["-l"; Mux.payload_of text]) (fun _ =>
                   bind (Tmux.sendKeys b target ["Enter"]) (fun _ =>
                   ret (Val.obj_lit [[("project", project); ("window", windowName);
                                      ("sent", JBool true);
                                      ("bytes",
                                       JNum (Mux.utf8_length (Mux.payload_of text)))]]))) w).
  { unfold Mux.send_to_window. unfold bind at 1. rewrite requireCurrentProject_eq.
    fold r project. now rewrite Tr. }
  rewrite Send. split; [|split].
  - intros S. destruct (sendKeys_fails b target ["-l"; Mux.payload_of text] w S)
      as (msg & st & E). exists msg, st. now rewrite (bind_throw _ _ _ _ _ E).
  - intros S1 S2. rewrite (bind_ok _ _ _ _ _ (sendKeys_ok b target _ w S1)).
    destruct (sendKeys_fails b target ["Enter"] _ S2) as (msg & st & E).
    exists msg, st. now rewrite (bind_throw _ _ _ _ _ E).
  - intros S1 S2. rewrite (bind_ok _ _ _ _ _ (sendKeys_ok b target _ w S1)).
    now rewrite (bind_ok _ _ _ _ _ (sendKeys_ok b target ["Enter"] _ S2)).
Qed.

End Window_text.

Section Once.
Context {T : Type}.
Implicit Types (w : world T) (i : Singletons.instances).

Lemma getAgentRegistry_inv root i w r i1 w1 :
  Singletons.getAgentRegistry root i w = (Ok (r, i1), w1) ->
  Singletons.registry_instance i1 = Some r
  /\ Singletons.tmux_instance i1 = Singletons.tmux_instance i
  /\ Singletons.mux_instance i1 = Singletons.mux_instance i.
Proof.
  unfold Singletons.getAgentRegistry.
  destruct (Singletons.registry_instance i) as [r0|] eqn:E.
  - intros [= <- <- <-]. auto.
  - intros Run. apply bind_inv in Run as (r' & w' & _ & Run).
    injection Run as <- <- <-. auto.
Qed.

Lemma getTmuxBackend_made socket binary i :
  Singletons.tmux_instance (snd (Singletons.getTmuxBackend socket binary i))
  = Some (fst (Singletons.getTmuxBackend socket binary i))
  /\ Singletons.registry_instance (snd (Singletons.getTmuxBackend socket binary i))
     = Singletons.registry_instance i
  /\ Singletons.mux_instance (snd (Singletons.getTmuxBackend socket binary i))
     = Singletons.mux_instance i
  /\ (forall b0, Singletons.tmux_instance i = Some b0 ->
        fst (Singletons.getTmuxBackend socket binary i) = b0).
Proof.
  unfold Singletons.getTmuxBackend.
  destruct (Singletons.tmux_instance i) as [b|] eqn:E; cbn; repeat split; auto;
    intros b0; congruence.
Qed.

(** X26.  The singletons are made once.  After a first [getTmuxBackend],
    [getAgentRegistry] or [getAgentMux], every later call returns the first
    object, whatever options it is given, and constructs nothing; the
    multiplexer that [getAgentMux] returns holds the process's adapter and
    registry, so an adapter made earlier on another socket is the one it
    uses. *)
Theorem singletons_are_made_once (i : Singletons.instances) (w : world T) :
  (forall s1 b1 s2 b2,
     Singletons.getTmuxBackend s2 b2 (snd (Singletons.getTmuxBackend s1 b1 i))
     = Singletons.getTmuxBackend s1 b1 i)
  /\ (forall root r i1 w1,
        Singletons.getAgentRegistry root i w = (Ok (r, i1), w1) ->
        forall root' (w2 : world T),
          Singletons.getAgentRegistry root' i1 w2 = (Ok (r, i1), w2))
  /\ (forall root socket binary m i1 w1,
        Singletons.getAgentMux root socket binary i w = (Ok (m, i1), w1) ->
        (forall root' socket' binary' (w2 : world T),
           Singletons.getAgentMux root' socket' binary' i1 w2 = (Ok (m, i1), w2))
        /\ (Singletons.mux_instance i = None ->
            (forall s b, Singletons.getTmuxBackend s b i1 = (Mux.tmux m, i1))
            /\ (forall root' (w2 : world T),
                  Singletons.getAgentRegistry root' i1 w2
                  = (Ok (Mux.registry m, i1), w2))
            /\ (forall b0, Singletons.tmux_instance i = Some b0 -> Mux.tmux m = b0)
            /\ (forall r0, Singletons.registry_instance i = Some r0 ->
                  Mux.registry m = r0 /\ w1 = w))).
Proof.
  split; [|split].
  - intros s1 b1 s2 b2. unfold Singletons.getTmuxBackend.
    destruct (Singletons.tmux_instance i) as [b|] eqn:E; cbn; now rewrite ?E.
  - intros root r i1 w1 Run root' w2.
    destruct (getAgentRegistry_inv _ _ _ _ _ _ Run) as (R & _).
    unfold Singletons.getAgentRegistry. now rewrite R.
  - intros root socket binary m i1 w1 Run.
    unfold Singletons.getAgentMux in Run.
    destruct (Singletons.mux_instance i) as [m0|] eqn:Em.
    { injection Run as <- <- <-. split; [|discriminate].
      intros root' socket' binary' w2. unfold Singletons.getAgentMux. now rewrite Em. }
    apply bind_inv in Run as ([m' i'] & w' & New & Run).
    injection Run as <- <- <-. cbn [fst snd] in *.
    split.
    { intros root' socket' binary' w2. reflexivity. }
    intros _.
    unfold Singletons.new_AgentMux in New.
    apply bind_inv in New as (cwd & w0 & Cwd & New). injection Cwd as <- <-.
    match type of New with context [Singletons.getTmuxBackend ?s ?b i] =>
      destruct (getTmuxBackend_made s b i) as (Tm & Rg & Mx & Old);
      destruct (Singletons.getTmuxBackend s b i) as [b1 i2] end.
    cbn [fst snd] in *.
    apply bind_inv in New as ([r2 i3] & w3 & Reg & New).
    injection New as <- <- <-. cbn [fst snd Mux.tmux Mux.registry] in *.
    destruct (getAgentRegistry_inv _ _ _ _ _ _ Reg) as (R3 & T3 & M3).
    rewrite Tm in T3.
    split; [|split; [|split]].
    + intros s b. unfold Singletons.getTmuxBackend. cbn. now rewrite T3.
    + intros root' w2. unfold Singletons.getAgentRegistry. cbn. now rewrite R3.
    + exact Old.
    + intros r0 E0. unfold Singletons.getAgentRegistry in Reg.
      rewrite Rg, E0 in Reg. injection Reg as <- _ <-. now split.
Qed.

End Once.

(** *** Escape sequences *)

Lemma strip_skip x b : Mux.strip_from (String.length x) (x +:+ b) = Mux.strip_from 0 b.
Proof.
  induction x as [|c x IH]; [now rewrite append_nil_l|].
  rewrite append_cons. exact IH.
Qed.

Lemma letter_no_param c : Mux.is_letter c = true -> Mux.is_csi_param c = false.
Proof.
  destruct c as [[] [] [] [] [] [] [] []]; intros L; try reflexivity;
    vm_compute in L; discriminate L.
Qed.

Lemma csi_tail_run params final b :
  Mux.all_chars Mux.is_csi_param params = true -> Mux.is_letter final = true ->
  Mux.csi_tail (params +:+ String final b) = Some (S (String.length params)).
Proof.
  intros P L. induction params as [|c r IH].
  - rewrite append_nil_l. simpl. now rewrite (letter_no_param _ L), L.
  - simpl in P. apply andb_true_iff in P as [Pc Pr].
    rewrite append_cons. simpl. rewrite Pc. now rewrite (IH Pr).
Qed.

Lemma osc_tail_run body b :
  lacks Mux.BEL body = true ->
  Mux.osc_tail (body +:+ String Mux.BEL b) = Some (S (String.length body)).
Proof.
  unfold lacks. intros P. induction body as [|c r IH].
  - rewrite append_nil_l. reflexivity.
  - simpl in P. apply andb_true_iff in P as [Pc Pr]. apply negb_true_iff in Pc.
    rewrite append_cons. simpl. rewrite Pc. now rewrite (IH Pr).
Qed.

Lemma strip_from_no_cr k s : lacks Mux.CR (Mux.strip_from k s) = true.
Proof.
  unfold lacks. revert k. induction s as [|c r IH]; intros k; [reflexivity|].
  destruct k as [|k]; cbn [Mux.strip_from]; [|apply IH].
  destruct (Ascii.eqb c Mux.ESC) eqn:E.
  - destruct (Mux.escape_tail r); [apply IH|]. simpl. rewrite IH.
    apply Ascii.eqb_eq in E. now subst c.
  - destruct (Ascii.eqb c Mux.CR) eqn:R; [apply IH|]. simpl. now rewrite R, IH.
Qed.

Lemma strip_from_length k s : (String.length (Mux.strip_from k s) <= String.length s)%nat.
Proof.
  revert k. induction s as [|c r IH]; intros k; [reflexivity|].
  destruct k as [|k]; cbn [Mux.strip_from].
  - destruct (Ascii.eqb c Mux.ESC).
    + destruct (Mux.escape_tail r) as [n|]; simpl; [specialize (IH n) | specialize (IH 0%nat)]; lia.
    + destruct (Ascii.eqb c Mux.CR); simpl; specialize (IH 0%nat); lia.
  - simpl. specialize (IH k). lia.
Qed.

(** X27.  [stripAnsi] removes what its pattern names and nothing else.
    A text without ESC and without carriage return is returned as it is;
    before the first ESC the function works piece by piece; a complete
    sequence [ESC [ params letter], [ESC ] text BEL], [ESC ( X] or [ESC ) X]
    with [X] one of [A B 0 1 2], [ESC =], [ESC >], and a carriage return,
    are dropped where they stand.  The result holds no carriage return and
    is never longer than the text. *)
Theorem stripAnsi_drops_sequences :
  (forall s,
     lacks Mux.ESC s = true -> lacks Mux.CR s = true -> Mux.stripAnsi s = s)
  /\ (forall a b,
        lacks Mux.ESC a = true -> Mux.stripAnsi (a +:+ b) = Mux.stripAnsi a +:+ Mux.stripAnsi b)
  /\ (forall params final b,
        Mux.all_chars Mux.is_csi_param params = true -> Mux.is_letter final = true ->
        Mux.stripAnsi (String Mux.ESC (String "[" (params +:+ String final b))) = Mux.stripAnsi b)
  /\ (forall body b,
        lacks Mux.BEL body = true ->
        Mux.stripAnsi (String Mux.ESC (String "]" (body +:+ String Mux.BEL b))) = Mux.stripAnsi b)
  /\ (forall c d b,
        c = "("%char \/ c = ")"%char ->
        In d (list_ascii_of_string "AB012") ->
        Mux.stripAnsi (String Mux.ESC (String c (String d b))) = Mux.stripAnsi b)
  /\ (forall c b,
        c = "="%char \/ c = ">"%char -> Mux.stripAnsi (String Mux.ESC (String c b)) = Mux.stripAnsi b)
  /\ (forall b, Mux.stripAnsi (String Mux.CR b) = Mux.stripAnsi b)
  /\ (forall s, lacks Mux.CR (Mux.stripAnsi s) = true)
  /\ (forall s, (String.length (Mux.stripAnsi s) <= String.length s)%nat).
Proof.
  unfold Mux.stripAnsi. repeat match goal with |- _ /\ _ => split end.
  - unfold lacks. induction s as [|c r IH]; [reflexivity|]. simpl.
    intros E R. apply andb_true_iff in E as [Ec Er]. apply andb_true_iff in R as [Rc Rr].
    apply negb_true_iff in Ec, Rc. rewrite Ec, Rc. now rewrite (IH Er Rr).
  - unfold lacks. intros a b. induction a as [|c r IH]; [reflexivity|].
    intros E. simpl in E. apply andb_true_iff in E as [Ec Er]. apply negb_true_iff in Ec.
    rewrite append_cons. cbn [Mux.strip_from]. rewrite Ec.
    destruct (Ascii.eqb c Mux.CR); [now apply IH|]. rewrite append_cons. now rewrite (IH Er).
  - intros params final b P L. cbn [Mux.strip_from]. rewrite Ascii.eqb_refl.
    cbn [Mux.escape_tail]. rewrite Ascii.eqb_refl. rewrite (csi_tail_run _ _ _ P L).
    cbn [fmap option_fmap option_map Mux.strip_from].
    change (String final b) with (String final EmptyString +:+ b).
    rewrite <- append_assoc.
    replace (S (String.length params))
      with (String.length (params +:+ String final EmptyString))
      by (rewrite append_length; simpl; lia).
    apply strip_skip.
  - intros body b P. cbn [Mux.strip_from]. rewrite Ascii.eqb_refl.
    cbn [Mux.escape_tail]. change (Ascii.eqb "]" "[") with false. cbn iota.
    rewrite Ascii.eqb_refl. rewrite (osc_tail_run _ _ P).
    cbn [fmap option_fmap option_map Mux.strip_from].
    change (String Mux.BEL b) with (String Mux.BEL EmptyString +:+ b).
    rewrite <- append_assoc.
    replace (S (String.length body))
      with (String.length (body +:+ String Mux.BEL EmptyString))
      by (rewrite append_length; simpl; lia).
    apply strip_skip.
  - intros c d b Hc Hd. simpl in Hd.
    destruct Hc as [-> | ->];
      destruct Hd as [<- | [<- | [<- | [<- | [<- | []]]]]]; reflexivity.
  - intros c b [-> | ->]; reflexivity.
  - intros b. reflexivity.
  - intros s. apply strip_from_no_cr.
  - intros s. apply strip_from_length.
Qed.
Import MiniTmux Scenario.

(** C1, witness: [spawn_agent("codex", "a1", {args: ["-x"]})] starts
    [codex --yolo -x]. *)
Lemma spawn_agent_args_appended_witness :
  Mux.spawn_agent mux (JStr "codex") (JStr "a1") spawn_options w_demo
  = (Ok spawned_entry, w_spawned)
  /\ Val.opt_get spawned_entry "command"
     = Mux.command_value {| Mux.program := "codex"; Mux.args := ["--yolo"; "-x"] |}.
Proof.
  assert (Run : Mux.spawn_agent mux (JStr "codex") (JStr "a1") spawn_options w_demo
                = (Ok spawned_entry, w_spawned)) by (vm_compute; reflexivity).
  split; [exact Run|].
  destruct (spawn_agent_args_appended mux (JStr "codex") (JStr "a1") spawn_options
              [JStr "-x"] w_demo w_spawned spawned_entry eq_refl Run)
    as (base & cwd & agentName & Hbase & Hcmd & _).
  vm_compute in Hbase. injection Hbase as <-. exact Hcmd.
Defined.

Lemma boot_healthy : fs_healthy boot.
Proof. intros p. reflexivity. Qed.


Lemma orphan_healthy : fs_healthy w_orphan.
Proof. intros p. reflexivity. Qed.

(** C3, witness: the listing of [demo] after the window of [a1] was killed
    from outside. *)
Lemma list_agents_alive_witness :
  exists w' annotated,
    Mux.list_agents mux JUndefined w_orphan
    = (Ok (Val.obj_lit [[("project", JStr "demo"); ("agents", JArr annotated)]]), w')
    /\ files w' = files w_orphan
    /\ length annotated = 1%nat.
Proof.
  destruct (list_agents_alive mux JUndefined (JStr "demo") w_orphan
              [Val.json_roundtrip spawned_entry])
    as (w' & annotated & Run & Files & Len & _).
  - vm_compute. reflexivity.
  - vm_compute. reflexivity.
  - exists w', annotated. auto.
Defined.


(** C5, witness: [kill_agent("a1")] when the window is already gone:
    [kill-window] fails, the entry is removed all the same. *)
Lemma kill_agent_unconditional_witness :
  succeeded (reply (Mux.tmux mux) ["kill-window"; "-t"; "@1"] w_orphan) = false
  /\ exists w',
       Mux.kill_agent mux (JStr "a1") w_orphan
       = (Ok (Val.obj_lit [[("project", JStr "demo"); ("agent", JStr "a1");
                            ("killed", JBool true)]]), w')
       /\ registered reg0 w' (JStr "demo") = Some [].
Proof.
  split; [vm_compute; reflexivity|].
  destruct (kill_agent_unconditional mux (JStr "a1") w_orphan "a1"
              [Val.json_roundtrip spawned_entry])
    as (w' & agent & Run & _ & Reg & _).
  - vm_compute. reflexivity.
  - vm_compute. reflexivity.
  - vm_compute. reflexivity.
  - vm_compute. reflexivity.
  - exact orphan_healthy.
  - exists w'. split; [exact Run|]. exact Reg.
Defined.



(** C7, counterexample: [" a"] fails the grammar and is accepted, as ["a"]. *)
Lemma padded_name_is_accepted :
  name_grammar " a" = false
  /\ Mux.assertSafeName "project" (JStr " a") = Ok "a"
  /\ value (Mux.create_project mux (JStr " a") JUndefined) boot
     = Ok (Val.obj_lit [[("project", JStr "a"); ("cwd", JNull); ("created", JBool true);
                         ("storageDir", JStr "/work/.ccx/projects/a")]]).
Proof. repeat split; vm_compute; reflexivity. Qed.

(** C2, counterexample: one process, one registry object; the pointer is
    written under the primary root, [.ccx] loses its write permission, and the
    next read goes to the fallback root and finds no pointer. *)
Lemma storage_root_moves_with_permission :
  value (Registry.constructor None) boot = Ok reg0
  /\ value (Registry.getCurrentProject reg0) w_pointed = Ok (JStr "demo")
  /\ value (Registry._getProjectsDir reg0) w_pointed = Ok "/work/.ccx/projects"
  /\ value (Registry._getProjectsDir reg0) w_readonly = Ok "/tmp/ccx-agent-mux/projects"
  /\ value (Registry.getCurrentProject reg0) w_readonly = Ok JNull
  /\ is_Some (files w_readonly !! "/work/.ccx/projects/current.json").
Proof.
  repeat split; try (vm_compute; reflexivity).
  vm_compute. eauto.
Qed.

(** C9, the code at [lines = 0]: the pane shows two lines, zero lines are
    requested, both come back ([slice(-0)] is [slice(0)]); with one line
    requested the last one comes back. *)
Lemma read_agent_output_zero_lines :
  value (Mux.read_agent_output mux (JStr "a1") (Some 0)) w_typed
  = Ok (Val.obj_lit [[("project", JStr "demo"); ("agent", JStr "a1"); ("lines", JNum 0);
                      ("output", JStr ("one" +:+ Js.nl +:+ "two"))]])
  /\ value (Mux.read_agent_output mux (JStr "a1") (Some 1)) w_typed
     = Ok (Val.obj_lit [[("project", JStr "demo"); ("agent", JStr "a1"); ("lines", JNum 1);
                         ("output", JStr "two")]]).
Proof. split; vm_compute; reflexivity. Qed.


(** *** Witnesses of the further properties *)

(** X3, witness: a padded name, accepted as [worker-1]. *)
Lemma accepted_name_is_clean_witness :
  Mux.assertSafeName "agent" (JStr "worker-1") = Ok "worker-1"
  /\ has_slash "worker-1" = false.
Proof.
  destruct (accepted_name_is_clean "project" (JStr "  worker-1 ") "worker-1")
    as (Again & _ & _ & _ & _ & Slash).
  - vm_compute. reflexivity.
  - split; [apply Again | exact Slash].
Defined.


(** X10, witness: an agent list saved and loaded in a fresh process. *)
Lemma registry_save_then_load_witness :
  exists w' stored,
    Registry.saveAgents reg0 (JStr "demo") (JObj [("agents", JArr [JStr "x"])]) boot
    = (Ok tt, w')
    /\ Registry.loadAgents reg0 (JStr "demo") w' = (Ok stored, w')
    /\ Val.opt_get stored "agents" = JArr [JStr "x"].
Proof.
  destruct (registry_save_then_load reg0 (JStr "demo") [("agents", JArr [JStr "x"])] boot)
    as ((w' & stored & Save & Load & _ & _ & Rest) & _).
  - exact boot_healthy.
  - simpl. auto.
  - exists w', stored. split; [exact Save|]. split; [exact Load|].
    rewrite Rest by discriminate. reflexivity.
Defined.

(** X11, witness: the pointer set in a fresh process. *)
Lemma current_project_set_get_clear_witness :
  exists w1,
    Registry.setCurrentProject reg0 (JStr "demo") boot = (Ok tt, w1)
    /\ Registry.getCurrentProject reg0 w1 = (Ok (JStr "demo"), w1).
Proof.
  destruct (current_project_set_get_clear reg0 (JStr "demo") boot boot_healthy)
    as (_ & w1 & w2 & Set_ & Get & _).
  exists w1. split; [exact Set_ | exact Get].
Defined.

(** X13, witness: a project recorded with a directory, then without. *)
Lemma ensureProject_again_keeps_createdAt_witness :
  exists w1 w2 second,
    Registry.ensureProject reg0 (JStr "demo") [("cwd", JStr "/srv/a")] boot = (Ok tt, w1)
    /\ Registry.ensureProject reg0 (JStr "demo") [("cwd", JNull)] w1 = (Ok tt, w2)
    /\ Registry.loadProjectMeta reg0 (JStr "demo") w2 = (Ok second, w2)
    /\ Val.opt_get second "createdAt" = JStr "T0"
    /\ Val.opt_get second "cwd" = JNull.
Proof.
  destruct (ensureProject_again_keeps_createdAt reg0 (JStr "demo") (JStr "/srv/a") JNull boot)
    as (w1 & w2 & first & second & R1 & _ & _ & _ & R2 & L2 & _ & C & D & _).
  - exact boot_healthy.
  - vm_compute. reflexivity.
  - exists w1, w2, second. repeat split; assumption.
Defined.

(** X14, witness: a fresh process has no current project. *)
Lemma agent_operations_need_a_current_project_witness :
  Mux.kill_agent mux (JStr "a1") boot = (Throw NoCurrentProject, boot)
  /\ Mux.list_agents mux JUndefined boot = (Throw NoCurrentProject, boot).
Proof.
  destruct (agent_operations_need_a_current_project mux boot)
    as (_ & _ & _ & _ & _ & Kill & _ & List_).
  - vm_compute. reflexivity.
  - split; [apply Kill | apply List_; reflexivity].
Defined.

(** X15, witness: [ghost] is not an agent of [demo]. *)
Lemma unregistered_agent_is_not_found_witness :
  Mux.interrupt_agent mux (JStr "ghost") w_spawned
  = (Throw (AgentNotFound "ghost" (JStr "demo")), w_spawned).
Proof.
  destruct (unregistered_agent_is_not_found mux (JStr "ghost") w_spawned "ghost"
              [Val.json_roundtrip spawned_entry])
    as (_ & _ & Int & _).
  - vm_compute. reflexivity.
  - vm_compute. reflexivity.
  - vm_compute. reflexivity.
  - vm_compute. reflexivity.
  - exact Int.
Defined.


Lemma attach_agent_selects_the_window_witness :
  exists w',
    Mux.attach_agent mux (JStr "a1") c_other
    = (Ok (Val.obj_lit [[("project", JStr "other"); ("agent", JStr "a1");
                         ("attached", JBool true); ("clients", JNum 2)]]), w')
    /\ files w' = files c_other.
Proof.
  destruct (attach_agent_selects_the_window mux (JStr "a1") c_other "a1"
              (default [] (registered reg0 c_other (JStr "other")))
              (default JNull (head (default [] (registered reg0 c_other (JStr "other"))))))
    as (_ & Files & Ok_ & _).
  - vm_compute. reflexivity.
  - vm_compute. reflexivity.
  - vm_compute. reflexivity.
  - vm_compute. reflexivity.
  - eexists. split; [apply Ok_; vm_compute; reflexivity|]. exact Files.
Defined.

Lemma keys_go_to_the_recorded_pane_witness :
  exists w',
    Mux.send_to_agent mux (JStr "a1") (JStr "ls") w_spawned
    = (Ok (Val.obj_lit [[("project", JStr "demo"); ("agent", JStr "a1");
                         ("sent", JBool true); ("bytes", JNum 2)]]), w')
    /\ trace w' = trace w_spawned
                  ++ [["-L"; "ccx"; "send-keys"; "-t"; "%1"; "-l"; "ls"];
                      ["-L"; "ccx"; "send-keys"; "-t"; "%1"; "Enter"]].
Proof.
  destruct (keys_go_to_the_recorded_pane mux (JStr "a1") w_spawned "a1"
              [Val.json_roundtrip spawned_entry] (Val.json_roundtrip spawned_entry))
    as (Send & _).
  - vm_compute. reflexivity.
  - vm_compute. reflexivity.
  - vm_compute. reflexivity.
  - vm_compute. reflexivity.
  - vm_compute. reflexivity.
  - destruct (Send (JStr "ls")) as (_ & _ & Ok_).
    eexists. split; [apply Ok_; vm_compute; reflexivity|]. vm_compute. reflexivity.
Defined.

Lemma spawn_agent_registers_its_entry_witness :
  Mux.spawn_agent mux (JStr "codex") (JStr "a1") spawn_options w_demo
  = (Ok spawned_entry, w_spawned)
  /\ registered reg0 w_spawned (JStr "demo") = Some [Val.json_roundtrip spawned_entry]
  /\ Mux._loadAgent mux (JStr "demo") "a1" w_spawned
     = (Ok (agents_data reg0 w_spawned (JStr "demo"), Val.json_roundtrip spawned_entry),
        w_spawned).
Proof.
  assert (Run : Mux.spawn_agent mux (JStr "codex") (JStr "a1") spawn_options w_demo
                = (Ok spawned_entry, w_spawned)) by (vm_compute; reflexivity).
  split; [exact Run|].
  destruct (spawn_agent_registers_its_entry mux (JStr "codex") (JStr "a1") spawn_options
              w_demo w_spawned spawned_entry Run)
    as (agentName & existing & Hn & _ & R0 & _ & R1 & _ & L).
  vm_compute in Hn. injection Hn as <-.
  vm_compute in R0. injection R0 as <-.
  split; [exact R1 | exact L].
Defined.

Lemma spawn_then_kill_restores_the_registry_witness :
  exists w2,
    Mux.kill_agent mux (JStr "a1") w_spawned
    = (Ok (Val.obj_lit [[("project", JStr "demo"); ("agent", JStr "a1");
                         ("killed", JBool true)]]), w2)
    /\ registered reg0 w2 (JStr "demo") = Some [].
Proof.
  destruct (spawn_then_kill_restores_the_registry mux (JStr "codex") (JStr "a1")
              spawn_options w_demo w_spawned spawned_entry)
    as (w2 & K & R & _).
  - intros p. reflexivity.
  - vm_compute. reflexivity.
  - exists w2. split; [exact K|].
    etransitivity; [exact R | vm_compute; reflexivity].
Defined.


Lemma send_to_window_goes_unchecked_witness :
  exists message status w',
    Mux.send_to_window mux (JStr "no such window") (JStr "ls") w_spawned
    = (Throw (BackendCommandError message status), w')
    /\ trace w' = trace w_spawned
                  ++ [["-L"; "ccx"; "send-keys"; "-t"; "demo:no such window"; "-l"; "ls"]].
Proof.
  destruct (send_to_window_goes_unchecked mux (JStr "no such window") (JStr "ls") w_spawned)
    as (Fail_ & _).
  - vm_compute. reflexivity.
  - destruct Fail_ as (msg & st & E); [vm_compute; reflexivity|].
    exists msg, st. eexists. split; [exact E | vm_compute; reflexivity].
Defined.
